(** * Case distribution to reader projects: allocation and bookkeeping

    A shallow embedding of [utils/manage_cases.py] of the gears
    [assign_single_case] (bulk distributor, allocator, single-case assigner)
    and [assign_batch_cases] (manual batch assigner).

    Conventions of the embedding:
    - Python [int]s are [Z]; identifiers, labels and messages are [string]s;
    - a pandas frame is the list of its rows, a row label is its position;
      a cell read through a one-row selection is read as that row's cell;
    - a raised exception is the [Raise] result; code that talks to the
      remote platform runs in a state-and-exception monad over the platform
      [World], whose state survives a raise (nothing is rolled back);
    - a local variable that may be unbound is an [option];
    - the random source of [np.random.choice] is an explicit stream. *)

From Stdlib Require Import Ascii String DecimalString List ZArith Lia Bool Arith Permutation.
Import ListNotations.

Open Scope string_scope.
Open Scope list_scope.
Open Scope Z_scope.

(** ** Exceptions and results *)

Inductive exn : Type :=
| UnboundLocalError (var : string)
| NameError (var : string)
| AttributeError (what : string)
| TypeError (what : string)
| IndexError
| KeyError (key : string)
| ValueError (what : string)
| PlainException (message : string)
| NoReaderProjectsError
| ExportFailure.

Inductive result (A : Type) : Type :=
| Ok (a : A)
| Raise (e : exn).

Arguments Ok {A} a.
Arguments Raise {A} e.

Definition is_ok {A} (r : result A) : bool :=
  match r with Ok _ => true | Raise _ => false end.

(** ** Data model *)

(** A review payload ([read], [measurements]) is a JSON object; the empty
    object is falsy in Python. *)
Definition Payload := list (string * string).

(** An entry of [session_features["assignments"]]. *)
Record Assignment : Type := mkAssignment {
  a_project_id : string;
  a_reader_id : string;
  a_session_id : string;
  a_status : string;
  a_read : option Payload;
  a_measurements : option Payload
}.

(** The [session_features] dict.  The keys ["id"] and ["label"] are added
    by the callers before the roll-up is derived. *)
Record SessionFeatures : Type := mkSessionFeatures {
  sf_id : option string;
  sf_label : option string;
  case_coverage : Z;
  assignments : list Assignment;
  assigned_count : Z
}.

(** The dict returned by [set_project_session_attributes]. *)
Record SessionAttributes : Type := mkSessionAttributes {
  at_id : string;
  at_label : string;
  at_case_coverage : Z;
  unassigned : Z;
  assigned : Z;
  diagnosed : Z;
  measured : Z;
  completed : Z
}.

(** A row of [dest_projects_df]; [r_assignments] holds the
    [(source_session, dest_session)] pairs. *)
Record ReaderRow : Type := mkReaderRow {
  r_id : string;
  r_label : string;
  r_reader_id : string;
  r_assignments : list (string * string);
  max_cases : Z;
  num_assignments : Z
}.

Definition len {A} (l : list A) : Z := Z.of_nat (length l).

(** ** FeatureAccounting: [set_project_session_attributes] *)

Definition with_status (s : string) (l : list Assignment) : list string :=
  map a_status (filter (fun a => String.eqb (a_status a) s) l).

Definition set_project_session_attributes (session_features : SessionFeatures)
  : result SessionAttributes :=
  match sf_id session_features with
  | None => Raise (KeyError "id")
  | Some i =>
    match sf_label session_features with
    | None => Raise (KeyError "label")
    | Some l =>
      Ok {| at_id := i;
            at_label := l;
            at_case_coverage := case_coverage session_features;
            unassigned := case_coverage session_features
                          - len (assignments session_features);
            assigned := len (assignments session_features);
            diagnosed := len (with_status "Diagnosed" (assignments session_features));
            measured := len (with_status "Measured" (assignments session_features));
            completed := len (with_status "Completed" (assignments session_features)) |}
    end
  end.

(** ** Allocator: [select_readers_without_replacement] *)

(** [np.min] of a column; the minimum of an empty column is NaN, which is
    equal to no number. *)
Fixpoint np_min (col : list Z) : option Z :=
  match col with
  | [] => None
  | x :: rest =>
    match np_min rest with
    | None => Some x
    | Some m => Some (Z.min x m)
    end
  end.

Definition eq_min (x : Z) (m : option Z) : bool :=
  match m with Some v => x =? v | None => false end.

(** [Series.isin] over identifiers. *)
Definition isin (x : string) (l : list string) : bool :=
  existsb (String.eqb x) l.

Fixpoint remove_at {A} (i : nat) (l : list A) : list A :=
  match l with
  | [] => []
  | x :: rest =>
    match i with
    | O => rest
    | S j => x :: remove_at j rest
    end
  end.

(** The random source: a stream of naturals, read left to right (an
    exhausted stream keeps answering [0]). *)
Definition Rng := list nat.

Definition next_index (rng : Rng) (n : nat) : nat * Rng :=
  match rng with
  | [] => (O, [])
  | r :: rest => (Nat.modulo r n, rest)
  end.

(** Drawing [k] elements without replacement: each draw takes the
    element at a random position of what is left of the population. *)
Fixpoint sample {A} (k : nat) (rng : Rng) (pool : list A) : list A * Rng :=
  match k with
  | O => ([], rng)
  | S k' =>
    let (i, rng1) := next_index rng (length pool) in
    match nth_error pool i with
    | None => ([], rng1)
    | Some x =>
      let (rest, rng2) := sample k' rng1 (remove_at i pool) in
      (x :: rest, rng2)
    end
  end.

(** [np.random.choice(a, size, replace=False)]: a negative size and a
    sample larger than the population are [ValueError]s; an empty
    population is accepted when no sample is taken. *)
Definition np_random_choice (a : list string) (size : Z) (rng : Rng)
  : result (list string) * Rng :=
  if size <? 0 then (Raise (ValueError "negative dimensions are not allowed"), rng)
  else if len a <? size
  then (Raise (ValueError "Cannot take a larger sample than population"), rng)
  else let (out, rng') := sample (Z.to_nat size) rng a in (Ok out, rng').

Definition has_capacity (r : ReaderRow) : bool :=
  num_assignments r <? max_cases r.

Definition select_readers_without_replacement
    (session_features : SessionFeatures) (dest_projects_df : list ReaderRow)
    (rng : Rng) : result (list string) * Rng :=
  let avail_case_coverage :=
    case_coverage session_features - len (assignments session_features) in
  let readers_proj_assigned :=
    map a_project_id (assignments session_features) in
  let df_temp :=
    filter (fun r =>
              eq_min (num_assignments r) (np_min (map num_assignments dest_projects_df))
              && has_capacity r
              && negb (isin (r_id r) readers_proj_assigned))
           dest_projects_df in
  let min_avail_coverage := Z.min avail_case_coverage (len df_temp) in
  match np_random_choice (map r_id df_temp) min_avail_coverage rng with
  | (Raise e, rng1) => (Raise e, rng1)
  | (Ok assign_reader_projs, rng1) =>
    if len df_temp <? avail_case_coverage then
      let df_temp_len := len df_temp in
      let df_temp' :=
        filter (fun r =>
                  negb (isin (r_id r) (readers_proj_assigned ++ assign_reader_projs))
                  && has_capacity r)
               dest_projects_df in
      match np_random_choice (map r_id df_temp')
              (Z.min (avail_case_coverage - df_temp_len) (len df_temp')) rng1 with
      | (Raise e, rng2) => (Raise e, rng2)
      | (Ok more, rng2) => (Ok (assign_reader_projs ++ more), rng2)
      end
    else (Ok assign_reader_projs, rng1)
  end.

(** The spec's vocabulary for the allocator. *)
Definition avail (sf : SessionFeatures) : Z :=
  case_coverage sf - len (assignments sf).

Definition eligible (sf : SessionFeatures) (r : ReaderRow) : bool :=
  has_capacity r && negb (isin (r_id r) (map a_project_id (assignments sf))).

(** ** The remote platform *)

(** A Python [str] object: [is] compares the identity of two objects,
    [==] compares their characters. *)
Record PyStr : Type := mkPyStr {
  addr : nat;
  chars : string
}.

Definition py_is (a b : PyStr) : bool := Nat.eqb (addr a) (addr b).
Definition py_eq (a b : PyStr) : bool := String.eqb (chars a) (chars b).

(** A session container.  [s_features] is [info["session_features"]];
    [s_ohif_read] is [info["ohifViewer"]["read"]], mapping a reader key to
    the reader's ["notes"] object. *)
Record Session : Type := mkSession {
  s_id : string;
  s_label : string;
  s_group : PyStr;
  s_project : string;
  s_features : option SessionFeatures;
  s_ohif_read : option (list (string * list (string * string)))
}.

(** [info["project_features"]] of a reader project or of a source project. *)
Inductive ProjectFeatures : Type :=
| ReaderFeatures (pf_assignments : list (string * string)) (pf_max_cases : Z)
| SourceFeatures (pf_case_coverage : Z) (pf_case_states : list SessionAttributes).

(** A project container; a permission is the principal's id and whether
    one of its roles is "read-write" or "read-only". *)
Record Project : Type := mkProject {
  p_id : string;
  p_label : string;
  p_group : string;
  p_permissions : list (string * bool);
  p_features : option ProjectFeatures
}.

(** The state a run works on: the platform's containers, the run's log
    and the state of numpy's random generator. *)
Record World : Type := mkWorld {
  sessions : list Session;
  projects : list Project;
  w_log : list string;
  w_rng : Rng
}.

(** ** The state-and-exception monad *)

Definition M (A : Type) : Type := World -> result A * World.

Definition ret {A} (a : A) : M A := fun w => (Ok a, w).

Definition raise {A} (e : exn) : M A := fun w => (Raise e, w).

Definition bind {A B} (m : M A) (k : A -> M B) : M B :=
  fun w =>
    match m w with
    | (Ok a, w') => k a w'
    | (Raise e, w') => (Raise e, w')
    end.

Definition lift {A} (r : result A) : M A := fun w => (r, w).

(** [try: m except Exception as e: h e] *)
Definition try_except {A} (m : M A) (h : exn -> M A) : M A :=
  fun w =>
    match m w with
    | (Ok a, w') => (Ok a, w')
    | (Raise e, w') => h e w'
    end.

Declare Scope monad_scope.
Delimit Scope monad_scope with monad.

Notation "x <- m ;; k" := (bind m (fun x => k))
  (at level 61, m at next level, right associativity) : monad_scope.
Notation "m ;;; k" := (bind m (fun _ => k))
  (at level 61, right associativity) : monad_scope.

Open Scope monad_scope.

(** [for x in xs: s = body x s], left to right, stopping at a raise. *)
Fixpoint for_each {X S} (xs : list X) (body : X -> S -> M S) (s : S) : M S :=
  match xs with
  | [] => ret s
  | x :: rest => s' <- body x s ;; for_each rest body s'
  end.

(** *** Platform calls *)

Definition log_line (line : string) : M unit :=
  fun w => (Ok tt, mkWorld (sessions w) (projects w) (w_log w ++ [line]) (w_rng w)).

Definition find_session (i : string) (w : World) : option Session :=
  find (fun s => String.eqb (s_id s) i) (sessions w).

Definition find_project (i : string) (w : World) : option Project :=
  find (fun p => String.eqb (p_id p) i) (projects w).

(** [fw_client.sessions.find_first(f"_id={session_id}")] *)
Definition sessions_find_first (i : string) : M (option Session) :=
  fun w => (Ok (find_session i w), w).

(** [fw_client.get(id)] and [container.reload()] on a session. *)
Definition get_session (i : string) : M Session :=
  fun w =>
    match find_session i w with
    | Some s => (Ok s, w)
    | None => (Raise (KeyError i), w)
    end.

(** [fw_client.get(id)] and [container.reload()] on a project. *)
Definition get_project (i : string) : M Project :=
  fun w =>
    match find_project i w with
    | Some p => (Ok p, w)
    | None => (Raise (KeyError i), w)
    end.

(** [project.sessions()] *)
Definition project_sessions (project : string) : M (list Session) :=
  fun w => (Ok (filter (fun s => String.eqb (s_project s) project) (sessions w)), w).

(** [fw_client.projects.find(f'group="{group_id}"')] *)
Definition projects_find_group (group_id : string) : M (list Project) :=
  fun w => (Ok (filter (fun p => String.eqb (p_group p) group_id) (projects w)), w).

Definition map_session (i : string) (f : Session -> Session) : M unit :=
  fun w =>
    (Ok tt,
     mkWorld (map (fun s => if String.eqb (s_id s) i then f s else s) (sessions w))
             (projects w) (w_log w) (w_rng w)).

Definition set_features (o : option SessionFeatures) (s : Session) : Session :=
  mkSession (s_id s) (s_label s) (s_group s) (s_project s) o (s_ohif_read s).

Definition set_ohif_read (o : option (list (string * list (string * string))))
    (s : Session) : Session :=
  mkSession (s_id s) (s_label s) (s_group s) (s_project s) (s_features s) o.

(** [session.delete_info("session_features")] *)
Definition delete_session_features (i : string) : M unit :=
  map_session i (set_features None).

(** [session.update_info({"session_features": session_features})] *)
Definition update_session_features (i : string) (sf : SessionFeatures) : M unit :=
  map_session i (set_features (Some sf)).

(** [session.update_info({"ohifViewer": dest_ohifViewer})] *)
Definition update_ohif_read (i : string)
    (r : list (string * list (string * string))) : M unit :=
  map_session i (set_ohif_read (Some r)).

(** [project.update_info({"project_features": project_features})] *)
Definition update_project_features (i : string) (pf : ProjectFeatures) : M unit :=
  fun w =>
    (Ok tt,
     mkWorld (sessions w)
             (map (fun p => if String.eqb (p_id p) i
                            then mkProject (p_id p) (p_label p) (p_group p)
                                           (p_permissions p) (Some pf)
                            else p) (projects w))
             (w_log w) (w_rng w)).

(** Running a computation on the generator's state. *)
Definition with_rng {A} (f : Rng -> result A * Rng) : M A :=
  fun w =>
    let (r, rng') := f (w_rng w) in
    (r, mkWorld (sessions w) (projects w) (w_log w) rng').

(** ** StateSnapshot: [initialize_dataframes] (the same in both gears) *)

(** The one principal of a project holding a contributor role: the head
    of the comprehension, an [IndexError] when there is none. *)
Definition first_contributor (perms : list (string * bool)) : result string :=
  match filter snd perms with
  | (i, _) :: _ => Ok i
  | [] => Raise IndexError
  end.

Definition reader_row (reader_proj : Project) (n_sessions : Z) : result ReaderRow :=
  match p_features reader_proj with
  | None => Raise (KeyError "project_features")
  | Some project_features =>
    match first_contributor (p_permissions reader_proj) with
    | Raise e => Raise e
    | Ok reader_id =>
      match project_features with
      | SourceFeatures _ _ => Raise (KeyError "assignments")
      | ReaderFeatures asg mx =>
        Ok (mkReaderRow (p_id reader_proj) (p_label reader_proj) reader_id
                        asg mx n_sessions)
      end
    end
  end.

Definition initialize_dataframes (reader_group_id : string)
  : M (list SessionFeatures * list ReaderRow) :=
  group_projects <- projects_find_group reader_group_id ;;
  dest_projects_df <-
    for_each group_projects
      (fun reader_proj df =>
         reader_proj <- get_project (p_id reader_proj) ;;
         proj_sessions <- project_sessions (p_id reader_proj) ;;
         row <- lift (reader_row reader_proj (len proj_sessions)) ;;
         ret (df ++ [row]))
      [] ;;
  ret ([], dest_projects_df).

(** ** Bookkeeping shared by the three assigners *)

Fixpoint update_row (indx : nat) (f : ReaderRow -> ReaderRow) (df : list ReaderRow)
  : list ReaderRow :=
  match df with
  | [] => []
  | r :: rest =>
    match indx with
    | O => f r :: rest
    | S j => r :: update_row j f rest
    end
  end.

Fixpoint index_where (p : ReaderRow -> bool) (df : list ReaderRow) : option nat :=
  match df with
  | [] => None
  | r :: rest =>
    if p r then Some O
    else match index_where p rest with
         | Some j => Some (S j)
         | None => None
         end
  end.

(** The block that records an export on both sides: the pair appended to
    the row's [assignments] (a first pair starts the list), the row's
    [num_assignments] and the case's [assigned_count] incremented, the
    [Assignment] appended.  It reads [dest_session.id] first. *)
Definition record_assignment (src_session : Session) (project_id reader_id : string)
    (dest_session : option Session) (indx : nat)
    (dest_projects_df : list ReaderRow) (session_features : SessionFeatures)
  : result (list ReaderRow * SessionFeatures) :=
  match dest_session with
  | None => Raise (UnboundLocalError "dest_session")
  | Some d =>
    Ok (update_row indx
          (fun r => mkReaderRow (r_id r) (r_label r) (r_reader_id r)
                      (r_assignments r ++ [(s_id src_session, s_id d)])
                      (max_cases r) (num_assignments r + 1))
          dest_projects_df,
        mkSessionFeatures (sf_id session_features) (sf_label session_features)
          (case_coverage session_features)
          (assignments session_features
             ++ [mkAssignment project_id reader_id (s_id d) "Assigned" None None])
          (assigned_count session_features + 1))
  end.

Definition with_id_label (s : Session) (sf : SessionFeatures) : SessionFeatures :=
  mkSessionFeatures (Some (s_id s)) (Some (s_label s))
    (case_coverage sf) (assignments sf) (assigned_count sf).

Fixpoint remove_first {A} (p : A -> bool) (l : list A) : list A :=
  match l with
  | [] => []
  | x :: rest => if p x then rest else x :: remove_first p rest
  end.

(** The first entry with the case's id is popped, the new one appended. *)
Definition upsert_case_state (attrs : SessionAttributes)
    (case_states : list SessionAttributes) : list SessionAttributes :=
  remove_first (fun c => String.eqb (at_id c) (at_id attrs)) case_states ++ [attrs].

(** [project_features["case_states"]] read and updated in place. *)
Definition record_case_state (attrs : SessionAttributes) (project_features : ProjectFeatures)
  : result ProjectFeatures :=
  match project_features with
  | SourceFeatures cc case_states =>
    Ok (SourceFeatures cc (upsert_case_state attrs case_states))
  | ReaderFeatures _ _ => Raise (KeyError "case_states")
  end.

Definition log_export_failure (src_session : Session) : M unit :=
  log_line ("Error while exporting a session, " ++ s_label src_session ++ ".")%string ;;;
  log_line "exception" ;;;
  log_line "Examine the data and try again.".

(** [find_or_create_group] is an external collaborator; the reader group
    is taken to be the one named by [reader_group_id]. *)

Definition row_index (p : ReaderRow -> bool) (df : list ReaderRow) (missing : exn)
  : result nat :=
  match index_where p df with
  | Some i => Ok i
  | None => Raise missing
  end.

Definition row_at (indx : nat) (df : list ReaderRow) : result ReaderRow :=
  match nth_error df indx with
  | Some r => Ok r
  | None => Raise IndexError
  end.

(** [project.update_info] for every row of [dest_projects_df]. *)
Definition update_reader_projects (df : list ReaderRow) : M unit :=
  for_each df
    (fun row _ =>
       reader_proj <- get_project (r_id row) ;;
       update_project_features (p_id reader_proj)
         (ReaderFeatures (r_assignments row) (max_cases row)))
    tt.

(** ** The gear [assign_single_case]: BulkDistributor and SingleCaseAssigner *)

Module SingleCase.

(** What the loops of [distribute_cases_to_readers] carry from one
    iteration to the next; [b_dest_session] is the function-level local
    [dest_session], unbound until a first export succeeds. *)
Record BulkState : Type := mkBulkState {
  b_dest_projects_df : list ReaderRow;
  b_source_sessions_df : list SessionFeatures;
  b_project_features : ProjectFeatures;
  b_dest_session : option Session
}.

Section Gear.

(** [export_session] of [container_operations], an external collaborator:
    it returns the destination session or raises. *)
Variable export_session : Session -> string -> M Session.

(** The features are taken off the source session until they are restored. *)
Definition set_session_features (session : Session) (case_coverage : Z)
  : M SessionFeatures :=
  match s_features session with
  | Some session_features =>
    delete_session_features (s_id session) ;;; ret session_features
  | None => ret (mkSessionFeatures None None case_coverage [] 0)
  end.

(** The body of [for project_id in assign_reader_projs]. *)
Definition export_to_reader (src_session : Session) (project_id : string)
    (st : list ReaderRow * SessionFeatures * option Session)
  : M (list ReaderRow * SessionFeatures * option Session) :=
  let '(dest_projects_df, session_features, dest_session) := st in
  project <- get_project project_id ;;
  reader_id <- lift (first_contributor (p_permissions project)) ;;
  dest_session <-
    try_except (d <- export_session src_session project_id ;; ret (Some d))
               (fun _ => log_export_failure src_session ;;; ret dest_session) ;;
  indx <- lift (row_index (fun r => String.eqb (r_id r) project_id)
                          dest_projects_df IndexError) ;;
  books <- lift (record_assignment src_session project_id reader_id dest_session
                                   indx dest_projects_df session_features) ;;
  ret (fst books, snd books, dest_session).

(** The body of [for src_session in src_sessions]. *)
Definition distribute_case (case_coverage : Z) (src_session : Session) (st : BulkState)
  : M BulkState :=
  src_session <- get_session (s_id src_session) ;;
  session_features <- set_session_features src_session case_coverage ;;
  assign_reader_projs <-
    with_rng (select_readers_without_replacement session_features
                                                 (b_dest_projects_df st)) ;;
  done <- for_each assign_reader_projs (export_to_reader src_session)
            (b_dest_projects_df st, session_features, b_dest_session st) ;;
  let '(dest_projects_df, session_features, dest_session) := done in
  update_session_features (s_id src_session) session_features ;;;
  let session_features := with_id_label src_session session_features in
  attrs <- lift (set_project_session_attributes session_features) ;;
  project_features <- lift (record_case_state attrs (b_project_features st)) ;;
  ret (mkBulkState dest_projects_df
                   (b_source_sessions_df st ++ [session_features])
                   project_features dest_session).

Definition distribute_cases_to_readers (src_project : Project)
    (reader_group_id : string) (case_coverage : Z)
  : M (list SessionFeatures * list ReaderRow) :=
  let project_features :=
    match p_features src_project with
    | Some pf => pf
    | None => SourceFeatures case_coverage []
    end in
  src_sessions <- project_sessions (p_id src_project) ;;
  dfs <- initialize_dataframes reader_group_id ;;
  let (source_sessions_df, dest_projects_df) := dfs in
  if len dest_projects_df =? 0 then raise NoReaderProjectsError
  else
    st <- for_each src_sessions (distribute_case case_coverage)
            (mkBulkState dest_projects_df source_sessions_df project_features None) ;;
    update_project_features (p_id src_project) (b_project_features st) ;;;
    update_reader_projects (b_dest_projects_df st) ;;;
    ret (b_source_sessions_df st, b_dest_projects_df st).

(** *** [assign_single_case] *)

Definition is_override (reason : string) : bool :=
  String.eqb reason "Breaking a Tie" || String.eqb reason "Individual Assignment".

(** [reader_id.replace(".", "_")] *)
Fixpoint replace_dots (s : string) : string :=
  match s with
  | EmptyString => EmptyString
  | String c rest =>
    String (if Ascii.eqb c "."%char then "_"%char else c) (replace_dots rest)
  end.

(** The truth value of [assignment.get(key)]: a missing key and an empty
    object are both falsy. *)
Definition truthy (o : option Payload) : bool :=
  match o with
  | Some (_ :: _) => true
  | _ => false
  end.

(** Status back to "Assigned"; [read] and [measurements] popped when
    [assignment.get] finds them truthy. *)
Definition reset_assignment (a : Assignment) : Assignment :=
  mkAssignment (a_project_id a) (a_reader_id a) (a_session_id a) "Assigned"
    (if truthy (a_read a) then None else a_read a)
    (if truthy (a_measurements a) then None else a_measurements a).

Fixpoint update_first {A} (p : A -> bool) (f : A -> A) (l : list A) : list A :=
  match l with
  | [] => []
  | x :: rest => if p x then f x :: rest else x :: update_first p f rest
  end.

Definition for_reader (reader_id : string) (a : Assignment) : bool :=
  String.eqb (a_reader_id a) reader_id.

Definition has_key (k : string) (kv : string * list (string * string)) : bool :=
  String.eqb (fst kv) k.

Definition session_labels (l : list Session) : list string := map s_label l.

(** The branch for the reasons "Breaking a Tie" and "Individual
    Assignment" (source lines 619 to 676). *)
Definition assign_new (src_session : Session) (reader_id : string) (indx : nat)
    (project_id : string) (reader_proj : Project)
    (dest_projects_df : list ReaderRow) (session_features : SessionFeatures)
  : M (list ReaderRow * SessionFeatures) :=
  row <- lift (row_at indx dest_projects_df) ;;
  (if num_assignments row =? max_cases row
   then log_line "Cannot assign more cases to this reader." ;;;
        raise (PlainException "Max assignments reached.")
   else ret tt) ;;;
  reader_sessions <- project_sessions (p_id reader_proj) ;;
  (if isin (s_label src_session) (session_labels reader_sessions)
   then log_line "Selected session has already been assigned to reader." ;;;
        raise (PlainException "Existing Session in Destination Project.")
   else ret tt) ;;;
  let session_features :=
    if assigned_count session_features =? case_coverage session_features
    then mkSessionFeatures (sf_id session_features) (sf_label session_features)
           (case_coverage session_features + 1)
           (assignments session_features) (assigned_count session_features)
    else session_features in
  dest_session <-
    try_except (d <- export_session src_session project_id ;; ret (Some d))
               (fun _ => log_export_failure src_session ;;; ret None) ;;
  lift (record_assignment src_session project_id reader_id dest_session
                          indx dest_projects_df session_features).

(** The branch for every other reason (source lines 678 to 717). *)
Definition reassign (src_session : Session) (reader_id reason : string)
    (reader_proj : Project) (session_features : SessionFeatures)
  : M SessionFeatures :=
  reader_sessions <- project_sessions (p_id reader_proj) ;;
  (if negb (isin (s_label src_session) (session_labels reader_sessions))
   then log_line "Selected session must be assigned to reader to update." ;;;
        raise (PlainException "Missing Session in Destination Project.")
   else ret tt) ;;;
  assignment <-
    lift (match filter (for_reader reader_id) (assignments session_features) with
          | a :: _ => Ok a
          | [] => Raise IndexError
          end) ;;
  let session_features :=
    mkSessionFeatures (sf_id session_features) (sf_label session_features)
      (case_coverage session_features)
      (update_first (for_reader reader_id) reset_assignment
                    (assignments session_features))
      (assigned_count session_features) in
  dest_session <- get_session (a_session_id assignment) ;;
  dest_read <-
    lift (match s_ohif_read dest_session with
          | Some r => Ok r
          | None => Raise (KeyError "ohifViewer")
          end) ;;
  let _reader_id := replace_dots reader_id in
  (if existsb (has_key _reader_id) dest_read then ret tt
   else raise (KeyError _reader_id)) ;;;
  update_ohif_read (s_id dest_session)
    (update_first (has_key _reader_id)
                  (fun kv => (fst kv, [("additionalNotes", reason)]))
                  dest_read) ;;;
  ret session_features.

(** The body of [for tmp_session in src_project.sessions()]. *)
Definition record_session_state (tmp_session : Session)
    (st : list SessionFeatures * option ProjectFeatures)
  : M (list SessionFeatures * option ProjectFeatures) :=
  tmp_session <- get_session (s_id tmp_session) ;;
  match s_features tmp_session with
  | None => raise (TypeError "'NoneType' object does not support item assignment")
  | Some session_features =>
    let session_features := with_id_label tmp_session session_features in
    attrs <- lift (set_project_session_attributes session_features) ;;
    match snd st with
    | None => raise (TypeError "'NoneType' object is not subscriptable")
    | Some project_features =>
      project_features <- lift (record_case_state attrs project_features) ;;
      ret (fst st ++ [session_features], Some project_features)
    end
  end.

(** [src_project.update_info({"project_features": project_features})] where
    [project_features] may be [None]. *)
Definition update_project_info (i : string) (o : option ProjectFeatures) : M unit :=
  fun w =>
    (Ok tt,
     mkWorld (sessions w)
             (map (fun p => if String.eqb (p_id p) i
                            then mkProject (p_id p) (p_label p) (p_group p)
                                           (p_permissions p) o
                            else p) (projects w))
             (w_log w) (w_rng w)).

(** Source lines 719 to 776: the features restored on the source session,
    the roll-up of every session of the project, the two project updates,
    and the [return], which names [exported_data_df], a variable that
    nothing in the function or the module binds. *)
Definition restore_and_record (src_session : Session) (src_project : Project)
    (project_features : option ProjectFeatures) (reader_proj : Project)
    (indx : nat) (source_sessions_df : list SessionFeatures)
    (dest_projects_df : list ReaderRow) (session_features : SessionFeatures)
  : M (list SessionFeatures * list ReaderRow) :=
  update_session_features (s_id src_session) session_features ;;;
  tmp_sessions <- project_sessions (p_id src_project) ;;
  st <- for_each tmp_sessions record_session_state
          (source_sessions_df, project_features) ;;
  update_project_info (p_id src_project) (snd st) ;;;
  row <- lift (row_at indx dest_projects_df) ;;
  update_project_features (p_id reader_proj)
    (ReaderFeatures (r_assignments row) (max_cases row)) ;;;
  raise (NameError "exported_data_df").

Definition assign_single_case (src_session : Session)
    (reader_group_id reader_id reason : string)
  : M (list SessionFeatures * list ReaderRow) :=
  src_project <- get_project (s_project src_session) ;;
  let project_features := p_features src_project in
  dfs <- initialize_dataframes reader_group_id ;;
  let (source_sessions_df, dest_projects_df) := dfs in
  indx <- lift (row_index (fun r => String.eqb (r_reader_id r) reader_id)
                          dest_projects_df (KeyError reader_id)) ;;
  row <- lift (row_at indx dest_projects_df) ;;
  let project_id := r_id row in
  reader_proj <- get_project project_id ;;
  session_features <- set_session_features src_session 3 ;;
  books <-
    (if is_override reason
     then assign_new src_session reader_id indx project_id reader_proj
                     dest_projects_df session_features
     else sf <- reassign src_session reader_id reason reader_proj session_features ;;
          ret (dest_projects_df, sf)) ;;
  restore_and_record src_session src_project project_features reader_proj indx
                     source_sessions_df (fst books) (snd books).

End Gear.

End SingleCase.

(** ** The gear [assign_batch_cases]: ManualBatchAssigner *)

Module BatchCases.

(** A row of the batch table and its outcome columns. *)
Record BatchRow : Type := mkBatchRow {
  session_id : string;
  session_label : string;
  reader_email : string
}.

Record Outcome : Type := mkOutcome {
  o_row : BatchRow;
  passed : bool;
  message : string
}.

(** What the loop of [distribute_batch_to_readers] carries: the reader
    frame, [project_info] (empty until a row is assigned), the local
    [reader_proj] of the last row ([None] for a reader without a row)
    and the outcome columns filled so far. *)
Record BatchState : Type := mkBatchState {
  t_dest_projects_df : list ReaderRow;
  t_project_info : option ProjectFeatures;
  t_reader_proj : option Project;
  t_batch_df : list Outcome
}.

Definition nl : string := String (ascii_of_nat 10) EmptyString.

Definition show (z : Z) : string := DecimalString.NilZero.string_of_int (Z.to_int z).

Definition msg_not_found (session_id reader_email : string) : string :=
  ("Session with id (" ++ session_id ++ ") is not found within a Master Project. "
   ++ "Proceeding without making this assignment to reader (" ++ reader_email ++ ").")%string.

Definition msg_reader_project (session_id : string) : string :=
  ("Session with id (" ++ session_id ++ ") belongs to a reader project." ++ nl
   ++ "Please correctly identify the session in a Master Project and try again.")%string.

Definition msg_no_reader (reader_email : string) : string :=
  ("The reader, " ++ reader_email ++ ", has not been established. "
   ++ "Please run `assign-readers` to establish a project for this reader")%string.

Definition msg_already (label reader_email : string) : string :=
  ("Selected session (" ++ label ++ ") has already been assigned to "
   ++ "reader (" ++ reader_email ++ ").")%string.

Definition msg_max_cases (mx : Z) (reader_email : string) : string :=
  ("Cannot assign more than " ++ show mx ++ " cases to "
   ++ "reader (" ++ reader_email ++ "). "
   ++ "Consider increasing max_cases for this reader "
   ++ "or choosing another reader.")%string.

Definition msg_coverage (label : string) (cc : Z) : string :=
  ("Assigning this case (" ++ label ++ ") exceeds "
   ++ "case_coverage (" ++ show cc ++ ") for this case."
   ++ "Assignment will not proceed.")%string.

Definition msg_passed : string := "All validation checks, passed.".

Fixpoint all_ok {A B} (f : A -> result B) (l : list A) : result (list B) :=
  match l with
  | [] => Ok []
  | x :: rest =>
    match f x with
    | Raise e => Raise e
    | Ok y =>
      match all_ok f rest with
      | Raise e => Raise e
      | Ok ys => Ok (y :: ys)
      end
    end
  end.

Definition contributors (proj : Project) : list string :=
  map fst (filter snd (p_permissions proj)).

Section Gear.

Variable export_session : Session -> string -> M Session.

(** In this gear the features stay on the session. *)
Definition set_session_features (session : Session) (case_coverage : Z)
  : M SessionFeatures :=
  ret (match s_features session with
       | Some session_features => session_features
       | None => mkSessionFeatures None None case_coverage [] 0
       end).

(** The reader's project, or [None]. *)
Definition check_valid_reader (reader_id group_id : string) : M (option Project) :=
  group_projects <- projects_find_group group_id ;;
  valid_reader_ids <-
    lift (all_ok (fun proj => first_contributor (p_permissions proj)) group_projects) ;;
  if isin reader_id valid_reader_ids
  then match filter (fun proj => isin reader_id (contributors proj)) group_projects with
       | proj :: _ => ret (Some proj)
       | [] => raise IndexError
       end
  else ret None.

Definition check_valid_case_assignment (session_id reader_email : string)
    (reader_group_id : PyStr) (reader_row : ReaderRow) (coverage : Z)
  : M (bool * string) :=
  found <- sessions_find_first session_id ;;
  match found with
  | None => ret (false, msg_not_found session_id reader_email)
  | Some src_session =>
    src_session <- get_session (s_id src_session) ;;
    if py_is (s_group src_session) reader_group_id
    then ret (false, msg_reader_project session_id)
    else
      reader_proj <- check_valid_reader reader_email (chars reader_group_id) ;;
      match reader_proj with
      | None => ret (false, msg_no_reader reader_email)
      | Some reader_proj =>
        reader_sessions <- project_sessions (p_id reader_proj) ;;
        if isin (s_label src_session) (map s_label reader_sessions)
        then ret (false, msg_already (s_label src_session) reader_email)
        else if num_assignments reader_row =? max_cases reader_row
        then ret (false, msg_max_cases (max_cases reader_row) reader_email)
        else
          session_features <- set_session_features src_session coverage ;;
          if assigned_count session_features =? case_coverage session_features
          then ret (false, msg_coverage (s_label src_session)
                                        (case_coverage session_features))
          else ret (true, msg_passed)
      end
  end.

(** The body of [for i in batch_df.index]. *)
Definition assign_row (reader_group_id : PyStr) (case_coverage : Z)
    (row : BatchRow) (st : BatchState) : M BatchState :=
  let session_id := session_id row in
  let reader_email := reader_email row in
  let dest_projects_df := t_dest_projects_df st in
  found <- sessions_find_first session_id ;;
  src_and_features <-
    match found with
    | Some s =>
      s <- get_session (s_id s) ;;
      sf <- set_session_features s case_coverage ;;
      ret (Some (s, sf))
    | None => ret None
    end ;;
  located <-
    match index_where (fun r => String.eqb (r_reader_id r) reader_email)
                      dest_projects_df with
    | Some indx =>
      r <- lift (row_at indx dest_projects_df) ;;
      reader_proj <- get_project (r_id r) ;;
      ret (indx, r_id r, Some reader_proj)
    | None =>
      r <- lift (row_at O dest_projects_df) ;;
      ret (O, r_id r, None)
    end ;;
  let '(indx, project_id, reader_proj) := located in
  reader_row <- lift (row_at indx dest_projects_df) ;;
  checked <- check_valid_case_assignment session_id reader_email reader_group_id
                                         reader_row case_coverage ;;
  let (valid, message) := checked in
  if negb valid
  then log_line message ;;;
       ret (mkBatchState dest_projects_df (t_project_info st) reader_proj
                         (t_batch_df st ++ [mkOutcome row false message]))
  else
    match src_and_features with
    | None => raise (AttributeError "'NoneType' object has no attribute 'label'")
    | Some (src_session, session_features) =>
      exported <-
        try_except (d <- export_session src_session project_id ;; ret (Some d))
                   (fun _ => log_export_failure src_session ;;; ret None) ;;
      match exported with
      | None =>
        ret (mkBatchState dest_projects_df (t_project_info st) reader_proj
                          (t_batch_df st ++ [mkOutcome row true ""]))
      | Some dest_session =>
        books <- lift (record_assignment src_session project_id reader_email
                                         (Some dest_session) indx
                                         dest_projects_df session_features) ;;
        update_session_features (s_id src_session) (snd books) ;;;
        new_row <- lift (row_at indx (fst books)) ;;
        ret (mkBatchState (fst books)
                          (Some (ReaderFeatures (r_assignments new_row)
                                                (max_cases new_row)))
                          reader_proj
                          (t_batch_df st ++ [mkOutcome row true ""]))
      end
    end.

(** The body of [for tmp_session in source_project.sessions()]. *)
Definition record_session_state (tmp_session : Session)
    (st : list SessionFeatures * ProjectFeatures)
  : M (list SessionFeatures * ProjectFeatures) :=
  tmp_session <- get_session (s_id tmp_session) ;;
  session_features <- set_session_features tmp_session 3 ;;
  let session_features := with_id_label tmp_session session_features in
  attrs <- lift (set_project_session_attributes session_features) ;;
  project_features <- lift (record_case_state attrs (snd st)) ;;
  ret (fst st ++ [session_features], project_features).

Definition distribute_batch_to_readers (source_project : Project)
    (reader_group_id : PyStr) (case_coverage : Z) (batch : list BatchRow)
  : M (list SessionFeatures * list ReaderRow * list Outcome) :=
  let project_features :=
    match p_features source_project with
    | Some pf => pf
    | None => SourceFeatures case_coverage []
    end in
  dfs <- initialize_dataframes (chars reader_group_id) ;;
  let (source_sessions_df, dest_projects_df) := dfs in
  if len dest_projects_df =? 0 then raise NoReaderProjectsError
  else
    st <- for_each batch (assign_row reader_group_id case_coverage)
            (mkBatchState dest_projects_df None None []) ;;
    match t_project_info st with
    | Some project_info =>
      match t_reader_proj st with
      | Some reader_proj => update_project_features (p_id reader_proj) project_info
      | None => raise (AttributeError "'NoneType' object has no attribute 'update_info'")
      end
    | None => ret tt
    end ;;;
    tmp_sessions <- project_sessions (p_id source_project) ;;
    recorded <- for_each tmp_sessions record_session_state
                  (source_sessions_df, project_features) ;;
    update_project_features (p_id source_project) (snd recorded) ;;;
    ret (fst recorded, t_dest_projects_df st, t_batch_df st).

End Gear.

End BatchCases.

(** ** Vocabulary of the statements *)

(** The pool of phase 1: eligible rows whose load is the minimum of the
    whole [num_assignments] column. *)
Definition least_loaded (sf : SessionFeatures) (df : list ReaderRow) (r : ReaderRow)
  : bool :=
  eq_min (num_assignments r) (np_min (map num_assignments df))
  && has_capacity r
  && negb (isin (r_id r) (map a_project_id (assignments sf))).

(** The labels of the sessions a project holds. *)
Definition held_by (w : World) (project : string) : list string :=
  map s_label (filter (fun s => String.eqb (s_project s) project) (sessions w)).

(** The notes of a reader in a session's review annotation. *)
Definition notes_of (key : string) (s : Session) : option (list (string * string)) :=
  match s_ohif_read s with
  | Some r => option_map snd (find (SingleCase.has_key key) r)
  | None => None
  end.

Definition features_of (i : string) (w : World) : option SessionFeatures :=
  match find_session i w with
  | Some s => s_features s
  | None => None
  end.

Definition project_features_of (i : string) (w : World) : option ProjectFeatures :=
  match find_project i w with
  | Some p => p_features p
  | None => None
  end.

(** A computation that leaves the state as it found it, and one that
    leaves the sessions as it found them. *)
Definition read_only {A} (m : M A) : Prop := forall w, snd (m w) = w.

Definition keeps_sessions {A} (m : M A) : Prop :=
  forall w, sessions (snd (m w)) = sessions w.

(** ** Scenarios *)

Module Scenario.

(** An exporter for the scenarios: the copy of a session gets the id
    [source@project]; the pairs listed in [failing] raise instead. *)
Definition copy_export (failing : list (string * string)) (src : Session)
    (project_id : string) : M Session :=
  fun w =>
    if existsb (fun p => String.eqb (fst p) (s_id src) && String.eqb (snd p) project_id)
               failing
    then (Raise ExportFailure, w)
    else
      let d := mkSession (s_id src ++ "@" ++ project_id)%string (s_label src)
                         (mkPyStr 0 "readers") project_id None (Some []) in
      (Ok d, mkWorld (sessions w ++ [d]) (projects w) (w_log w) (w_rng w)).

Definition readers : PyStr := mkPyStr 1 "readers".

Definition reader (i who : string) (held : list (string * string)) (mx : Z) : Project :=
  mkProject i ("Reader " ++ i)%string "readers"
            [("admin@x.org", false); (who, true)]
            (Some (ReaderFeatures held mx)).

Definition master (pf : option ProjectFeatures) : Project :=
  mkProject "master" "Master" "lab" [("admin@x.org", false)] pf.

Definition case (i : string) (sf : option SessionFeatures) : Session :=
  mkSession i ("case " ++ i)%string (mkPyStr 2 "lab") "master" sf None.

(** The copy of case [i] in reader project [p], annotated by [who]. *)
Definition copy (i p who : string) (notes : list (string * string)) : Session :=
  mkSession (i ++ "@" ++ p)%string ("case " ++ i)%string (mkPyStr 3 "readers") p None
            (Some [(SingleCase.replace_dots who, notes)]).

Definition assigned_to (p who dest status : string) (rd ms : option Payload)
  : Assignment :=
  mkAssignment p who dest status rd ms.

(** Allocator tables. *)
Definition row (i : string) (mx n : Z) : ReaderRow :=
  mkReaderRow i ("Reader " ++ i)%string (i ++ "@x.org")%string [] mx n.

Definition fresh (cc : Z) : SessionFeatures := mkSessionFeatures None None cc [] 0.

(** Loads 0, 0, 2 under capacity 5. *)
Definition fair_table : list ReaderRow := [row "P1" 5 0; row "P2" 5 0; row "P3" 5 2].

(** The least loaded reader is full. *)
Definition crowded_table : list ReaderRow := [row "P1" 1 1; row "P2" 5 2; row "P3" 5 3].

(** Two readers with room and one without. *)
Definition short_table : list ReaderRow := [row "P1" 5 0; row "P2" 5 1; row "P3" 2 2].

(** Bulk distribution: one case, two idle readers. *)
Definition two_idle_readers (rng : Rng) : World :=
  mkWorld [case "S1" None]
          [master None; reader "P1" "a@x.org" [] 5; reader "P2" "b@x.org" [] 5]
          [] rng.

Definition one_idle_reader : World :=
  mkWorld [case "S1" None] [master None; reader "P1" "a@x.org" [] 5] [] [].

(** Manual batch: two cases, two idle readers. *)
Definition batch_world : World :=
  mkWorld [case "S1" None; case "S2" None]
          [master None; reader "P1" "a@x.org" [] 5; reader "P2" "b@x.org" [] 5]
          [] [].

(** Manual batch: session [S9] lives in the reader project [P2]; its
    group string equals the reader group id and is another object. *)
Definition reader_case_world : World :=
  mkWorld [mkSession "S9" "case S9" (mkPyStr 7 "readers") "P2" None None]
          [master None; reader "P1" "a@x.org" [] 5; reader "P2" "b@x.org" [] 5]
          [] [].

(** Single case: [S1] has coverage 2 and is held by [P1] and [P2];
    [P3] is idle and [P4] is full. *)
Definition covered : SessionFeatures :=
  mkSessionFeatures None None 2
    [assigned_to "P1" "a@x.org" "S1@P1" "Measured" (Some [("tear", "full")])
                 (Some [("length", "12")]);
     assigned_to "P2" "b@x.org" "S1@P2" "Assigned" None None]
    2.

Definition single_world : World :=
  mkWorld [case "S1" (Some covered);
           copy "S1" "P1" "a@x.org" [("additionalNotes", "ok"); ("other", "x")];
           copy "S1" "P2" "b@x.org" [];
           copy "S0" "P4" "d@x.org" []]
          [master (Some (SourceFeatures 2 []));
           reader "P1" "a@x.org" [("S1", "S1@P1")] 5;
           reader "P2" "b@x.org" [("S1", "S1@P2")] 5;
           reader "P3" "c@x.org" [] 5;
           reader "P4" "d@x.org" [("S0", "S0@P4")] 1]
          [] [].

(** Single case: the reader's assignment carries an empty [measurements]
    object. *)
Definition opened : SessionFeatures :=
  mkSessionFeatures None None 2
    [assigned_to "P1" "a@x.org" "S1@P1" "Diagnosed" (Some [("tear", "full")]) (Some [])]
    1.

Definition opened_world : World :=
  mkWorld [case "S1" (Some opened); copy "S1" "P1" "a@x.org" [("other", "x")]]
          [master (Some (SourceFeatures 2 [])); reader "P1" "a@x.org" [("S1", "S1@P1")] 5]
          [] [].

(** The reader frame of [single_world] and of [opened_world]. *)
Definition single_rows : list ReaderRow :=
  [mkReaderRow "P1" "Reader P1" "a@x.org" [("S1", "S1@P1")] 5 1;
   mkReaderRow "P2" "Reader P2" "b@x.org" [("S1", "S1@P2")] 5 1;
   mkReaderRow "P3" "Reader P3" "c@x.org" [] 5 0;
   mkReaderRow "P4" "Reader P4" "d@x.org" [("S0", "S0@P4")] 1 1].

End Scenario.

(** ** Vocabulary of the bookkeeping *)

(** The entries of the case states that are about another case. *)
Definition other_case (attrs c : SessionAttributes) : bool :=
  negb (String.eqb (at_id c) (at_id attrs)).

(** A computation that may write projects and nothing else. *)
Definition projects_only {A} (m : M A) : Prop :=
  forall w, sessions (snd (m w)) = sessions w /\
            w_log (snd (m w)) = w_log w /\
            w_rng (snd (m w)) = w_rng w.

(** The features [set_session_features] hands out for a session. *)
Definition borrowed (cc : Z) (s : Session) : SessionFeatures :=
  match s_features s with
  | Some sf => sf
  | None => mkSessionFeatures None None cc [] 0
  end.

(** What [record_assignment] does to the reader's row. *)
Definition one_more (src dest : string) (r : ReaderRow) : ReaderRow :=
  mkReaderRow (r_id r) (r_label r) (r_reader_id r)
              (r_assignments r ++ [(src, dest)]) (max_cases r) (num_assignments r + 1).

(** No reader of the frame holds more than [max_cases]. *)
Definition within_capacity (df : list ReaderRow) : Prop :=
  Forall (fun r => num_assignments r <= max_cases r) df.

(** What a row of the reader frame says of the platform it was read from. *)
Definition row_reflects (w : World) (row : ReaderRow) : Prop :=
  exists p,
    find_project (r_id row) w = Some p /\
    r_label row = p_label p /\
    first_contributor (p_permissions p) = Ok (r_reader_id row) /\
    p_features p = Some (ReaderFeatures (r_assignments row) (max_cases row)) /\
    num_assignments row = len (held_by w (r_id row)).

(** ** The readers table and the reader projects' metadata *)

Module Readers.

(** A row of the readers table. *)
Record ReaderDef : Type := mkReaderDef {
  email : string;
  first_name : string;
  last_name : string;
  csv_max_cases : Z
}.

(** [info["project_features"]] as this code touches it: the ["max_cases"]
    key, which may be missing, and the other keys. *)
Record Features (Rest : Type) : Type := mkFeatures {
  f_max_cases : option Z;
  f_rest : Rest
}.

Arguments mkFeatures {Rest} f_max_cases f_rest.
Arguments f_max_cases {Rest} f.
Arguments f_rest {Rest} f.

(** A project of the reader group: its permissions (principal, holds a
    contributor role), its [info] and the number of its sessions. *)
Record ReaderProject (Rest : Type) : Type := mkReaderProject {
  rp_id : string;
  rp_label : string;
  rp_permissions : list (string * bool);
  rp_features : option (Features Rest);
  rp_sessions : Z
}.

Arguments mkReaderProject {Rest} rp_id rp_label rp_permissions rp_features rp_sessions.
Arguments rp_id {Rest} r.
Arguments rp_label {Rest} r.
Arguments rp_permissions {Rest} r.
Arguments rp_features {Rest} r.
Arguments rp_sessions {Rest} r.

(** CPython keeps one object for each of the integers -5 to 256; any
    other integer computed at run time is an object of its own. *)
Definition small_int (z : Z) : bool := (-5 <=? z) && (z <=? 256).

(** [a is not b] for two integers computed at run time. *)
Definition int_is_not (a b : Z) : bool :=
  negb ((a =? b) && small_int a && small_int b).

(** The characters of a string, each a string: what [list.extend] adds
    when it is given a string. *)
Fixpoint characters (s : string) : list string :=
  match s with
  | EmptyString => []
  | String c rest => String c EmptyString :: characters rest
  end.

Section Metadata.

Variable Rest : Type.

Definition Store : Type := list (ReaderProject Rest).

(** [project_max_cases]: the stored value when [project_features] and its
    ["max_cases"] are both truthy, else 0. *)
Definition project_max_cases (p : ReaderProject Rest) : Z :=
  match rp_features p with
  | Some f =>
    match f_max_cases f with
    | Some m => if m =? 0 then 0 else m
    | None => 0
    end
  | None => 0
  end.

(** [project_info["project_features"]["max_cases"] = v] *)
Definition set_max_cases (v : Z) (info : option (Features Rest))
  : result (option (Features Rest)) :=
  match info with
  | Some f => Ok (Some (mkFeatures (Some v) (f_rest f)))
  | None => Raise (KeyError "project_features")
  end.

(** [reader_project.update_info(project_info)] *)
Definition update_info (i : string) (info : option (Features Rest)) (store : Store)
  : Store :=
  map (fun p => if String.eqb (rp_id p) i
                then mkReaderProject (rp_id p) (rp_label p) (rp_permissions p)
                                     info (rp_sessions p)
                else p) store.

(** The body of [for index in readers_df.index], after the test on
    [group_reader_ids].  [reload] reads the project from the platform; a
    project that is gone is reported as for [get_project]. *)
Definition update_reader (group_projects : list (ReaderProject Rest)) (row : ReaderDef)
    (store : Store) : result unit * Store :=
  let reader_id := email row in
  match filter (fun proj => isin reader_id (map fst (rp_permissions proj)))
               group_projects with
  | [] => (Raise IndexError, store)
  | proj :: _ =>
    match find (fun p => String.eqb (rp_id p) (rp_id proj)) store with
    | None => (Raise (KeyError (rp_id proj)), store)
    | Some reader_project =>
      let csv_max_cases := csv_max_cases row in
      let project_info := rp_features reader_project in
      let project_max_cases := project_max_cases reader_project in
      match (if project_max_cases <? csv_max_cases
             then set_max_cases csv_max_cases project_info
             else if csv_max_cases <? project_max_cases
             then set_max_cases (Z.max (rp_sessions reader_project) csv_max_cases)
                                project_info
             else Ok project_info) with
      | Raise e => (Raise e, store)
      | Ok project_info =>
        if int_is_not csv_max_cases project_max_cases
        then (Ok tt, update_info (rp_id reader_project) project_info store)
        else (Ok tt, store)
      end
    end
  end.

Fixpoint update_readers (group_projects : list (ReaderProject Rest))
    (group_reader_ids : list string) (readers_df : list ReaderDef) (store : Store)
  : result unit * Store :=
  match readers_df with
  | [] => (Ok tt, store)
  | row :: rest =>
    if negb (isin (email row) group_reader_ids)
    then update_readers group_projects group_reader_ids rest store
    else match update_reader group_projects row store with
         | (Ok _, store') => update_readers group_projects group_reader_ids rest store'
         | (Raise e, store') => (Raise e, store')
         end
  end.

(** The gear [assign_single_case]: [group_reader_ids] holds the first
    contributor of every project. *)
Definition update_reader_projects_metadata
    (group_projects : list (ReaderProject Rest)) (readers_df : list ReaderDef)
    (store : Store) : result unit * Store :=
  match BatchCases.all_ok (fun proj => first_contributor (rp_permissions proj))
                          group_projects with
  | Raise e => (Raise e, store)
  | Ok group_reader_ids => update_readers group_projects group_reader_ids readers_df store
  end.

(** The gear [assign_readers]: [group_reader_ids] is extended with the id
    of every contributor permission, a string. *)
Definition extended_reader_ids (group_projects : list (ReaderProject Rest))
  : list string :=
  flat_map (fun proj =>
              flat_map (fun perm : string * bool =>
                          if snd perm then characters (fst perm) else [])
                       (rp_permissions proj))
           group_projects.

Definition update_reader_projects_metadata_by_extend
    (group_projects : list (ReaderProject Rest)) (readers_df : list ReaderDef)
    (store : Store) : result unit * Store :=
  update_readers group_projects (extended_reader_ids group_projects) readers_df store.

(** A user of the platform. *)
Record User : Type := mkUser {
  u_id : string;
  u_email : string;
  u_firstname : string;
  u_lastname : string
}.

(** [fw_client.add_user], a call of the platform: the users with the new
    one, or a failure. *)
Variable add_user : User -> list User -> result (list User).

Fixpoint add_users (new_users : list ReaderDef) (users : list User)
  : result unit * list User :=
  match new_users with
  | [] => (Ok tt, users)
  | new_user :: rest =>
    let fw_user := mkUser (email new_user) (email new_user)
                          (first_name new_user) (last_name new_user) in
    match add_user fw_user users with
    | Ok users => add_users rest users
    | Raise e => (Raise e, users)
    end
  end.

(** [instantiate_new_readers] of the gear [assign_readers]: the readers of
    the table who are no users yet are added as users; the readers whose
    email is not in [project_readers] are returned with their capacity. *)
Definition instantiate_new_readers (users : list User)
    (group_projects : list (ReaderProject Rest)) (readers_df : list ReaderDef)
  : result (list (string * Z)) * list User :=
  let users_ids := map u_id users in
  let new_users := filter (fun row => negb (isin (email row) users_ids)) readers_df in
  match add_users new_users users with
  | (Raise e, users) => (Raise e, users)
  | (Ok _, users) =>
    let project_readers := extended_reader_ids group_projects in
    (Ok (map (fun row => (email row, csv_max_cases row))
             (filter (fun row => negb (isin (email row) project_readers)) readers_df)),
     users)
  end.

(** Vocabulary: a project keeps room for the sessions it holds, and
    what a project is apart from its [max_cases]. *)
Definition holds_its_sessions (p : ReaderProject Rest) : Prop :=
  rp_sessions p <= project_max_cases p.

Definition apart_from_max_cases (p : ReaderProject Rest)
  : string * string * list (string * bool) * option Rest * Z :=
  (rp_id p, rp_label p, rp_permissions p, option_map f_rest (rp_features p),
   rp_sessions p).

End Metadata.

End Readers.

(** ** [assign_single_case] on the selection of source line 613 *)

(** Line 613 takes [.index] of the rows of the reader, not [.index[0]] as
    line 881 and the batch gear do: [indx] is an Index, and what is read
    through it is a Series with one entry per selected row.  [SingleCase]
    reads a selection of one row as that row; this module keeps the
    selection as pandas has it. *)
Module Selection.

(** [dest_projects_df[dest_projects_df.reader_id == reader_id]] *)
Definition selected (reader_id : string) (dest_projects_df : list ReaderRow)
  : list ReaderRow :=
  filter (fun r => String.eqb (r_reader_id r) reader_id) dest_projects_df.

(** What [if series:] raises: pandas refuses the truth value of a Series,
    whatever its length. *)
Definition truth_value_error : exn :=
  ValueError "The truth value of a Series is ambiguous. Use a.empty, a.bool(), a.item(), a.any() or a.all().".

Section Gear.

(** [find_or_create_group] of [container_operations], an external
    collaborator: it returns the id of the reader group. *)
Variable find_or_create_group : string -> string -> M string.

(** [fw_client.get(project_id)] at line 615, where [project_id] is the
    Series [dest_projects_df.id[indx]]: the client is handed the ids of
    the selected rows, and what it returns or raises is the platform's. *)
Variable get_selected : list string -> M Project.

(** [reader_proj.update_info(project_info)] at line 766, where the two
    values of ["project_features"] are the columns [assignments] and
    [max_cases] selected by [indx]. *)
Variable update_info_selected :
  string -> list (list (string * string)) -> list Z -> M unit.

(** The branch for the reasons "Breaking a Tie" and "Individual
    Assignment": its first statement, line 621, is
    [if num_assignments[indx] == max_cases[indx]:], the truth value of a
    Series; lines 622 to 676 are not reached. *)
Definition assign_new : M SessionFeatures := raise truth_value_error.

Definition assign_single_case (src_session : Session)
    (reader_group_id reader_id reason : string)
  : M (list SessionFeatures * list ReaderRow) :=
  src_project <- get_project (s_project src_session) ;;
  let project_features := p_features src_project in
  reader_group <- find_or_create_group reader_group_id "Readers" ;;
  dfs <- initialize_dataframes reader_group ;;
  let (source_sessions_df, dest_projects_df) := dfs in
  let indx := selected reader_id dest_projects_df in
  let project_id := map r_id indx in
  found <- get_selected project_id ;;
  reader_proj <- get_project (p_id found) ;;
  session_features <- SingleCase.set_session_features src_session 3 ;;
  session_features <-
    (if SingleCase.is_override reason
     then assign_new
     else SingleCase.reassign src_session reader_id reason reader_proj
                              session_features) ;;
  update_session_features (s_id src_session) session_features ;;;
  tmp_sessions <- project_sessions (p_id src_project) ;;
  st <- for_each tmp_sessions SingleCase.record_session_state
          (source_sessions_df, project_features) ;;
  SingleCase.update_project_info (p_id src_project) (snd st) ;;;
  update_info_selected (p_id reader_proj) (map r_assignments indx)
                       (map max_cases indx) ;;;
  raise (NameError "exported_data_df").

End Gear.

End Selection.

(** ** The gear's entry point: [main] of [run.py] *)

Module Run.

(** The analysis container the gear runs as: [parents]. *)
Record Analysis : Type := mkAnalysis {
  an_project : string;
  an_group : string
}.

Definition dq : string := String (ascii_of_nat 34) EmptyString.

Section Gear.

Variable export_session : Session -> string -> M Session.

(** [check_for_duplicate_execution] of [utils.check_jobs], which is not
    among these sources. *)
Variable check_for_duplicate_execution : string -> M unit.

(** [fw_client.get(destination_id)] *)
Variable get_analysis : string -> M Analysis.

(** The three [to_csv] calls, which write to the output directory. *)
Variable to_csv : list SessionFeatures -> list ReaderRow -> M unit.

(** [InvalidGroupError] is an [Exception] with a message, caught below
    like any other. *)
Definition main (destination_id : string) (case_coverage : Z) : M Z :=
  completed <-
    try_except
      (check_for_duplicate_execution "assign-cases" ;;;
       analysis <- get_analysis destination_id ;;
       source_project <- get_project (an_project analysis) ;;
       let reader_group_id := "readers" in
       (if String.eqb (an_group analysis) reader_group_id
        then raise (PlainException
                      ("This gear cannot be run from within the " ++ dq
                       ++ "Readers" ++ dq ++ " group!")%string)
        else ret tt) ;;;
       frames <- SingleCase.distribute_cases_to_readers export_session
                   source_project reader_group_id case_coverage ;;
       to_csv (fst frames) (snd frames) ;;;
       ret true)
      (fun e =>
         log_line "exception" ;;;
         log_line "Error executing assign-cases." ;;;
         ret false) ;;
  if completed
  then log_line "assign-cases completed Successfully!" ;;; ret 0
  else ret 1.

End Gear.

End Run.

(** ** Further scenarios *)

Module Bench.

(** The reader frame of [Scenario.two_idle_readers]. *)
Definition idle_rows : list ReaderRow :=
  [mkReaderRow "P1" "Reader P1" "a@x.org" [] 5 0;
   mkReaderRow "P2" "Reader P2" "b@x.org" [] 5 0].

Definition idle_state : SingleCase.BulkState :=
  SingleCase.mkBulkState idle_rows [] (SourceFeatures 2 []) None.

(** A case summary with [n] assignments under coverage 3. *)
Definition summary (i : string) (n : Z) : SessionAttributes :=
  {| at_id := i; at_label := ("case " ++ i)%string; at_case_coverage := 3;
     unassigned := 3 - n; assigned := n;
     diagnosed := 0; measured := 0; completed := 0 |}.

(** The bulk loop's state on entering [single_world]. *)
Definition single_state : SingleCase.BulkState :=
  SingleCase.mkBulkState Scenario.single_rows [] (SourceFeatures 2 []) None.

(** The batch loop's state on entering [batch_world]. *)
Definition batch_state : BatchCases.BatchState :=
  BatchCases.mkBatchState Bench.idle_rows None None [].

(** A reader project of the readers gear. *)
Definition desk (i who : string) (info : option (Readers.Features (list string)))
    (n : Z) : Readers.ReaderProject (list string) :=
  Readers.mkReaderProject i ("Reader " ++ i)%string
                          [("admin@x.org", false); (who, true)] info n.

Definition capacity (mx : Z) : option (Readers.Features (list string)) :=
  Some (Readers.mkFeatures (Some mx) ["assignments"]).

Definition desks : list (Readers.ReaderProject (list string)) :=
  [desk "P1" "a@x.org" (capacity 5) 3; desk "P2" "b@x.org" (capacity 2) 1].

Definition csv : list Readers.ReaderDef :=
  [Readers.mkReaderDef "a@x.org" "Ada" "A" 2; Readers.mkReaderDef "b@x.org" "Bo" "B" 4].

Definition always_add (u : Readers.User) (users : list Readers.User)
  : result (list Readers.User) := Ok (users ++ [u]).


(** A case with coverage 2 that reader [P1] holds, and an idle reader
    [P2]. *)
Definition half_read : SessionFeatures :=
  mkSessionFeatures None None 2
    [Scenario.assigned_to "P1" "a@x.org" "S1@P1" "Assigned" None None] 1.

Definition half_read_world : World :=
  mkWorld [Scenario.case "S1" (Some half_read); Scenario.copy "S1" "P1" "a@x.org" []]
          [Scenario.master (Some (SourceFeatures 2 []));
           Scenario.reader "P1" "a@x.org" [("S1", "S1@P1")] 5;
           Scenario.reader "P2" "b@x.org" [] 5]
          [] [0%nat].

(** The gear launched from an analysis of the master project. *)
Definition analysis_of_master (destination_id : string) : M Run.Analysis :=
  ret (Run.mkAnalysis "master" "lab").

Definition no_duplicate (gear : string) : M unit := ret tt.

Definition written (sdf : list SessionFeatures) (df : list ReaderRow) : M unit :=
  ret tt.

(** The reader group is there under the id asked for. *)
Definition group_found (group_id label : string) : M string := ret group_id.

(** A platform that resolves a selection of one row to that row's
    project and takes its two columns as the row's cells, and one that
    refuses a Series. *)
Definition one_row_get (ids : list string) : M Project :=
  match ids with
  | [i] => get_project i
  | _ => raise (TypeError "Series")
  end.

Definition one_row_update (i : string) (assignments : list (list (string * string)))
    (max_cases : list Z) : M unit :=
  match assignments, max_cases with
  | [a], [m] => update_project_features i (ReaderFeatures a m)
  | _, _ => raise (TypeError "Series")
  end.

Definition series_refused (ids : list string) : M Project :=
  raise (TypeError "Series").

End Bench.

(** * Properties *)

(** ** The monad *)

Lemma bind_ok {A B} (m : M A) (k : A -> M B) (w w' : World) (a : A) :
  m w = (Ok a, w') -> bind m k w = k a w'.
Proof. intros H. unfold bind. now rewrite H. Qed.

Lemma bind_raise {A B} (m : M A) (k : A -> M B) (w w' : World) (e : exn) :
  m w = (Raise e, w') -> bind m k w = (Raise e, w').
Proof. intros H. unfold bind. now rewrite H. Qed.

Lemma bind_never_ok {A B} (m : M A) (k : A -> M B) (w : World) :
  (forall a w', is_ok (fst (k a w')) = false) -> is_ok (fst (bind m k w)) = false.
Proof. intros H. unfold bind. destruct (m w) as [[a|e] w']; [apply H | reflexivity]. Qed.

Lemma read_only_ret {A} (a : A) : read_only (ret a).
Proof. intros w. reflexivity. Qed.

Lemma read_only_raise {A} (e : exn) : read_only (@raise A e).
Proof. intros w. reflexivity. Qed.

Lemma read_only_lift {A} (r : result A) : read_only (lift r).
Proof. intros w. reflexivity. Qed.

Lemma read_only_bind {A B} (m : M A) (k : A -> M B) :
  read_only m -> (forall a, read_only (k a)) -> read_only (bind m k).
Proof.
  intros Hm Hk w. unfold bind. specialize (Hm w).
  destruct (m w) as [[a|e] w']; simpl in Hm; subst w'; [apply Hk | reflexivity].
Qed.

Lemma read_only_for_each {X S} (body : X -> S -> M S) (xs : list X) :
  (forall x s, read_only (body x s)) -> forall s, read_only (for_each xs body s).
Proof.
  intros Hb. induction xs as [|x xs IH]; intros s; simpl.
  - apply read_only_ret.
  - apply read_only_bind; auto.
Qed.

Lemma read_only_get_project (i : string) : read_only (get_project i).
Proof. intros w. unfold get_project. now destruct (find_project i w). Qed.

Lemma read_only_get_session (i : string) : read_only (get_session i).
Proof. intros w. unfold get_session. now destruct (find_session i w). Qed.

Lemma read_only_project_sessions (i : string) : read_only (project_sessions i).
Proof. intros w. reflexivity. Qed.

Lemma read_only_projects_find_group (i : string) : read_only (projects_find_group i).
Proof. intros w. reflexivity. Qed.

Lemma read_only_keeps_sessions {A} (m : M A) : read_only m -> keeps_sessions m.
Proof. intros H w. now rewrite H. Qed.

Lemma keeps_sessions_bind {A B} (m : M A) (k : A -> M B) :
  keeps_sessions m -> (forall a, keeps_sessions (k a)) -> keeps_sessions (bind m k).
Proof.
  intros Hm Hk w. unfold bind. specialize (Hm w).
  destruct (m w) as [[a|e] w']; simpl in Hm; [rewrite Hk | ]; assumption.
Qed.

Lemma for_each_read_only_invariant {X S} (I : S -> Prop) (body : X -> S -> M S)
      (xs : list X) (w : World) :
  (forall x s, read_only (body x s)) ->
  (forall x s s', I s -> fst (body x s w) = Ok s' -> I s') ->
  forall s s', I s -> fst (for_each xs body s w) = Ok s' -> I s'.
Proof.
  intros Hro Hstep. induction xs as [|x xs IH]; intros s s' Hs H; simpl in H.
  - injection H as <-. exact Hs.
  - unfold bind in H. pose proof (Hro x s w) as Hw. pose proof (Hstep x s) as Hx.
    destruct (body x s w) as [[s1|e] w1]; simpl in *; [|discriminate].
    subst w1. eapply IH; [|exact H]. now apply Hx.
Qed.

(** ** StateSnapshot *)

Lemma find_project_id (i : string) (w : World) (p : Project) :
  find_project i w = Some p -> p_id p = i.
Proof.
  unfold find_project. intros H. apply find_some in H as [_ H].
  now apply String.eqb_eq in H.
Qed.

Lemma find_session_id (i : string) (w : World) (s : Session) :
  find_session i w = Some s -> s_id s = i.
Proof.
  unfold find_session. intros H. apply find_some in H as [_ H].
  now apply String.eqb_eq in H.
Qed.

Lemma reader_row_id (p : Project) (n : Z) (row : ReaderRow) :
  reader_row p n = Ok row -> r_id row = p_id p.
Proof.
  unfold reader_row. destruct (p_features p) as [pf|]; [|discriminate].
  destruct (first_contributor (p_permissions p)); [|discriminate].
  destruct pf; [|discriminate]. intros H. injection H as <-. reflexivity.
Qed.

Lemma read_only_initialize_dataframes (gid : string) :
  read_only (initialize_dataframes gid).
Proof.
  unfold initialize_dataframes.
  apply read_only_bind; [apply read_only_projects_find_group|]. intros ps.
  apply read_only_bind; [|intros; apply read_only_ret].
  apply read_only_for_each. intros p df.
  apply read_only_bind; [apply read_only_get_project|]. intros p'.
  apply read_only_bind; [apply read_only_project_sessions|]. intros ss.
  apply read_only_bind; [apply read_only_lift|]. intros; apply read_only_ret.
Qed.

Lemma initialize_dataframes_rows (gid : string) (w : World)
      (sdf : list SessionFeatures) (df : list ReaderRow) :
  fst (initialize_dataframes gid w) = Ok (sdf, df) ->
  sdf = [] /\
  Forall (fun row => exists p, find_project (r_id row) w = Some p) df.
Proof.
  unfold initialize_dataframes. intros H.
  unfold bind at 1 in H. simpl in H. unfold bind at 1 in H.
  match type of H with
  | context [for_each ?xs ?body ?s w] =>
    pose proof (for_each_read_only_invariant
                  (fun df => Forall (fun row => exists p, find_project (r_id row) w = Some p) df)
                  body xs w) as Hinv;
    destruct (for_each xs body s w) as [[df'|e] w'] eqn:E; [|discriminate]
  end.
  simpl in H. injection H as <- <-. split; [reflexivity|].
  eapply Hinv; [| |constructor|rewrite E; reflexivity].
  - intros p df0.
    apply read_only_bind; [apply read_only_get_project|]. intros p'.
    apply read_only_bind; [apply read_only_project_sessions|]. intros ss.
    apply read_only_bind; [apply read_only_lift|]. intros; apply read_only_ret.
  - intros p df0 df1 Hdf0 Hstep. unfold bind, get_project in Hstep.
    destruct (find_project (p_id p) w) as [p'|] eqn:Ef; [|discriminate].
    simpl in Hstep. unfold lift in Hstep.
    destruct (reader_row p' _) as [row|e] eqn:Er; [|discriminate].
    simpl in Hstep. injection Hstep as <-.
    apply Forall_app. split; [assumption|]. constructor; [|constructor].
    exists p'. apply reader_row_id in Er. rewrite Er.
    now rewrite (find_project_id _ _ _ Ef).
Qed.

Lemma index_where_nth (p : ReaderRow -> bool) (df : list ReaderRow) :
  forall i, index_where p df = Some i ->
            exists r, nth_error df i = Some r /\ p r = true.
Proof.
  induction df as [|r df IH]; simpl; intros i H; [discriminate|].
  destruct (p r) eqn:Ep.
  - injection H as <-. now exists r.
  - destruct (index_where p df) as [j|]; [|discriminate].
    injection H as <-. simpl. now apply IH.
Qed.

(** ** Lists and sampling *)

Lemma isin_In (x : string) (l : list string) : isin x l = true <-> In x l.
Proof.
  unfold isin. rewrite existsb_exists. split.
  - intros [y [Hy He]]. apply String.eqb_eq in He. now subst.
  - intros H. exists x. split; [assumption | apply String.eqb_refl].
Qed.

Lemma isin_app (x : string) (l1 l2 : list string) :
  isin x (l1 ++ l2) = isin x l1 || isin x l2.
Proof. unfold isin. apply existsb_app. Qed.

Lemma next_index_lt (rng : Rng) (n : nat) :
  (0 < n)%nat -> (fst (next_index rng n) < n)%nat.
Proof.
  intros Hn. destruct rng as [|r rest]; simpl.
  - exact Hn.
  - apply Nat.mod_upper_bound. lia.
Qed.

Lemma remove_at_perm {A} (l : list A) :
  forall i x, nth_error l i = Some x -> Permutation l (x :: remove_at i l).
Proof.
  induction l as [|y l IH]; intros [|i] x H; simpl in *; try discriminate.
  - injection H as ->. reflexivity.
  - rewrite (IH _ _ H) at 1. apply perm_swap.
Qed.

Lemma sample_spec {A} (k : nat) :
  forall (rng : Rng) (pool : list A),
    (k <= length pool)%nat ->
    length (fst (sample k rng pool)) = k /\
    exists rest, Permutation pool (fst (sample k rng pool) ++ rest).
Proof.
  induction k as [|k IH]; intros rng pool Hk; simpl.
  - split; [reflexivity | exists pool; reflexivity].
  - assert (Hpos : (0 < length pool)%nat) by lia.
    pose proof (next_index_lt rng _ Hpos) as Hlt.
    destruct (next_index rng (length pool)) as [i rng1]; simpl in Hlt.
    destruct (nth_error pool i) as [x|] eqn:Hnth.
    + pose proof (remove_at_perm pool i x Hnth) as Hperm.
      assert (Hlen : (k <= length (remove_at i pool))%nat).
      { apply Permutation_length in Hperm. simpl in Hperm. lia. }
      destruct (IH rng1 (remove_at i pool) Hlen) as [Hl [rest Hrest]].
      destruct (sample k rng1 (remove_at i pool)) as [out rng2]; simpl in *.
      split; [now rewrite Hl|].
      exists rest. rewrite Hperm. now constructor.
    + apply nth_error_None in Hnth. lia.
Qed.

Lemma np_random_choice_spec (a : list string) (size : Z) (rng : Rng) :
  0 <= size <= len a ->
  exists out rng',
    np_random_choice a size rng = (Ok out, rng') /\
    len out = size /\
    exists rest, Permutation a (out ++ rest).
Proof.
  intros [H0 H1]. unfold np_random_choice.
  destruct (size <? 0) eqn:E0; [apply Z.ltb_lt in E0; lia|].
  destruct (len a <? size) eqn:E1; [apply Z.ltb_lt in E1; lia|].
  assert (Hk : (Z.to_nat size <= length a)%nat) by (unfold len in H1; lia).
  destruct (sample_spec (Z.to_nat size) rng a Hk) as [Hl Hp].
  destruct (sample (Z.to_nat size) rng a) as [out rng'] eqn:Es; simpl in *.
  exists out, rng'. split; [reflexivity|]. split; [unfold len; lia | exact Hp].
Qed.

Lemma filter_split_length {A} (p q : A -> bool) (l : list A) :
  length (filter p l) =
  (length (filter (fun x => p x && q x) l)
   + length (filter (fun x => p x && negb (q x)) l))%nat.
Proof.
  induction l as [|x l IH]; simpl; [reflexivity|].
  destruct (p x), (q x); simpl; lia.
Qed.

Lemma filter_length_le_imp {A} (p q : A -> bool) (l : list A) :
  (forall x, p x = true -> q x = true) ->
  (length (filter p l) <= length (filter q l))%nat.
Proof.
  intros H. induction l as [|x l IH]; simpl; [lia|].
  destruct (p x) eqn:Px.
  - rewrite (H _ Px). simpl. lia.
  - destruct (q x); simpl; lia.
Qed.


(** The id column of a reader frame with one row per project: a
    selection of rows keeps the ids distinct, and an id names one row. *)
Lemma selected_ids_distinct (keep : ReaderRow -> bool) (df : list ReaderRow) :
  NoDup (map r_id df) -> NoDup (map r_id (filter keep df)).
Proof.
  induction df as [|r df IH]; simpl; intros Hdf; [constructor|].
  apply NoDup_cons_iff in Hdf as [Hfresh Hdf].
  destruct (keep r); simpl; [|now apply IH].
  apply NoDup_cons; [|now apply IH].
  intros Hin. apply Hfresh.
  apply in_map_iff in Hin as [r' [Er' Hin]].
  apply filter_In in Hin as [Hin _].
  rewrite <- Er'. now apply in_map.
Qed.

Lemma id_names_one_row (df : list ReaderRow) :
  NoDup (map r_id df) ->
  forall r r', In r df -> In r' df -> r_id r = r_id r' -> r = r'.
Proof.
  induction df as [|r0 df IH]; simpl; intros Hdf r r' Hr Hr' E; [contradiction|].
  apply NoDup_cons_iff in Hdf as [Hfresh Hdf].
  destruct Hr as [->|Hr], Hr' as [->|Hr']; auto.
  - exfalso. apply Hfresh. rewrite E. now apply in_map.
  - exfalso. apply Hfresh. rewrite <- E. now apply in_map.
Qed.

(** ** Allocator *)

Lemma least_loaded_eligible sf df r : least_loaded sf df r = true -> eligible sf r = true.
Proof.
  unfold least_loaded, eligible. intros H.
  apply andb_prop in H as [H H2]. apply andb_prop in H as [_ H1].
  now rewrite H1, H2.
Qed.

Lemma eligible_facts sf r :
  eligible sf r = true ->
  isin (r_id r) (map a_project_id (assignments sf)) = false /\
  num_assignments r < max_cases r.
Proof.
  unfold eligible, has_capacity. intros H. apply andb_prop in H as [H1 H2].
  apply Z.ltb_lt in H1. apply negb_true_iff in H2. auto.
Qed.

Lemma drawn_from_filter (p : ReaderRow -> bool) (df : list ReaderRow)
      (out rest : list string) :
  Permutation (map r_id (filter p df)) (out ++ rest) ->
  forall i, In i out -> exists r, In r df /\ r_id r = i /\ p r = true.
Proof.
  intros Hp i Hi.
  assert (Hin : In i (map r_id (filter p df))).
  { eapply Permutation_in; [symmetry; exact Hp|]. apply in_or_app. now left. }
  apply in_map_iff in Hin as [r [Hr Hin]]. apply filter_In in Hin as [Hin Hpr].
  now exists r.
Qed.

(** What the two draws of the allocator return. *)
Lemma select_readers_core (sf : SessionFeatures) (df : list ReaderRow) (rng : Rng) :
  NoDup (map r_id df) ->
  0 <= avail sf ->
  exists chosen rng',
    select_readers_without_replacement sf df rng = (Ok chosen, rng') /\
    NoDup chosen /\
    (forall i, In i chosen ->
       exists r, In r df /\ r_id r = i /\
                 isin i (map a_project_id (assignments sf)) = false /\
                 num_assignments r < max_cases r) /\
    len chosen = Z.min (avail sf) (len (filter (eligible sf) df)) /\
    (len (filter (eligible sf) df) <= avail sf ->
     Permutation chosen (map r_id (filter (eligible sf) df))).
Proof.
  intros Hnd Havail.
  assert (Hmain : exists chosen rng',
    select_readers_without_replacement sf df rng = (Ok chosen, rng') /\
    NoDup chosen /\
    (forall i, In i chosen -> exists r, In r df /\ r_id r = i /\ eligible sf r = true) /\
    len chosen = Z.min (avail sf) (len (filter (eligible sf) df))).
  { unfold select_readers_without_replacement.
    fold (avail sf). fold (least_loaded sf df).
    set (P1 := filter (least_loaded sf df) df).
    assert (HP1E : len P1 <= len (filter (eligible sf) df)).
    { unfold len, P1. apply inj_le. apply filter_length_le_imp.
      apply least_loaded_eligible. }
    assert (Hk1 : 0 <= Z.min (avail sf) (len P1) <= len (map r_id P1)).
    { unfold len. rewrite length_map. unfold len in *. lia. }
    destruct (np_random_choice_spec (map r_id P1) _ rng Hk1)
      as [out1 [rng1 [E1 [Hl1 [rest1 Hp1]]]]].
    rewrite E1.
    assert (Hnd1 : NoDup (out1 ++ rest1)).
    { eapply Permutation_NoDup; [exact Hp1|]. now apply selected_ids_distinct. }
    destruct (len P1 <? avail sf) eqn:Hlt.
    - apply Z.ltb_lt in Hlt.
      assert (Hrest : rest1 = []).
      { apply Permutation_length in Hp1. rewrite length_app, length_map in Hp1.
        unfold len in *. destruct rest1; [reflexivity|simpl in Hp1; lia]. }
      subst rest1. rewrite app_nil_r in *.
      set (P2 := filter _ df).
      assert (HP2 : P2 = filter (fun r => eligible sf r && negb (least_loaded sf df r)) df).
      { unfold P2. apply filter_ext_in. intros r Hr.
        rewrite isin_app, negb_orb. unfold eligible.
        assert (Hin1 : isin (r_id r) out1 = least_loaded sf df r).
        { destruct (least_loaded sf df r) eqn:El.
          - apply isin_In. eapply Permutation_in; [exact Hp1|].
            apply in_map. apply filter_In. auto.
          - destruct (isin (r_id r) out1) eqn:Ei; [|reflexivity].
            apply isin_In in Ei.
            eapply Permutation_in in Ei; [|symmetry; exact Hp1].
            apply in_map_iff in Ei as [r' [Er' Hr']].
            apply filter_In in Hr' as [Hr' El'].
            assert (r' = r) by (eapply id_names_one_row; eauto).
            subst r'. congruence. }
        rewrite Hin1. clear Hin1.
        generalize (least_loaded sf df r), (has_capacity r),
                   (isin (r_id r) (map a_project_id (assignments sf))).
        intros [] [] []; reflexivity. }
      assert (Hsplit : len (filter (eligible sf) df) = len P1 + len P2).
      { unfold len. rewrite (filter_split_length (eligible sf) (least_loaded sf df)).
        rewrite HP2. rewrite Nat2Z.inj_add. f_equal. f_equal. f_equal.
        unfold P1. apply filter_ext. intros r.
        destruct (least_loaded sf df r) eqn:El.
        - now rewrite (least_loaded_eligible _ _ _ El).
        - apply andb_false_r. }
      assert (Hk2 : 0 <= Z.min (avail sf - len P1) (len P2) <= len (map r_id P2)).
      { unfold len in *. rewrite length_map. lia. }
      destruct (np_random_choice_spec (map r_id P2) _ rng1 Hk2)
        as [out2 [rng2 [E2 [Hl2 [rest2 Hp2]]]]].
      rewrite E2. exists (out1 ++ out2), rng2.
      split; [reflexivity|]. split; [|split].
      + apply NoDup_app.
        * exact Hnd1.
        * apply (NoDup_app_remove_r out2 rest2).
          eapply Permutation_NoDup; [exact Hp2|]. now apply selected_ids_distinct.
        * intros i Hi1 Hi2.
          destruct (drawn_from_filter _ _ _ _ Hp2 i Hi2) as [r [Hr [Ei Hpr]]].
          apply andb_prop in Hpr as [Hpr _]. apply negb_true_iff in Hpr.
          rewrite isin_app in Hpr. apply orb_false_iff in Hpr as [_ Hpr].
          rewrite Ei in Hpr. apply isin_In in Hi1. congruence.
      + intros i Hi. apply in_app_or in Hi as [Hi|Hi].
        * assert (Hp1' : Permutation (map r_id P1) (out1 ++ []))
            by now rewrite app_nil_r.
          destruct (drawn_from_filter _ _ _ _ Hp1' i Hi) as [r [Hr [Ei Hpr]]].
          exists r. repeat split; auto. eapply least_loaded_eligible; eauto.
        * rewrite HP2 in Hp2.
          destruct (drawn_from_filter _ _ _ _ Hp2 i Hi) as [r [Hr [Ei Hpr]]].
          exists r. apply andb_prop in Hpr as [Hpr _]. auto.
      + unfold len in *. rewrite length_app. lia.
    - apply Z.ltb_ge in Hlt. exists out1, rng1.
      split; [reflexivity|]. split; [|split].
      + now apply NoDup_app_remove_r in Hnd1.
      + intros i Hi.
        destruct (drawn_from_filter _ _ _ _ Hp1 i Hi) as [r [Hr [Ei Hpr]]].
        exists r. repeat split; auto. eapply least_loaded_eligible; eauto.
      + lia. }
  destruct Hmain as [chosen [rng' [E [Hnd' [Hel Hlen]]]]].
  exists chosen, rng'. split; [exact E|]. split; [exact Hnd'|]. split; [|split].
  - intros i Hi. destruct (Hel i Hi) as [r [Hr [Ei He]]].
    exists r. destruct (eligible_facts _ _ He). subst i. auto.
  - exact Hlen.
  - intros Hle. apply NoDup_Permutation_bis.
    + exact Hnd'.
    + rewrite length_map. unfold len in *. lia.
    + intros i Hi. destruct (Hel i Hi) as [r [Hr [Ei He]]].
      subst i. apply in_map. apply filter_In. auto.
Qed.

(** C8.  Given a reader table with one row per project id and a case with
    [avail >= 0], the allocator returns normally; the ids it returns are
    pairwise distinct, each is the id of a row that does not hold the case
    and has [num_assignments < max_cases], and their number is
    [min(avail, number of eligible rows)].  When the eligible rows are no
    more than [avail], the result is exactly the eligible rows (partial
    coverage is not an error). *)
Theorem select_readers_sound (sf : SessionFeatures) (df : list ReaderRow) (rng : Rng) :
  NoDup (map r_id df) ->
  0 <= avail sf ->
  exists chosen rng',
    select_readers_without_replacement sf df rng = (Ok chosen, rng') /\
    NoDup chosen /\
    (forall i, In i chosen ->
       exists r, In r df /\ r_id r = i /\
                 isin i (map a_project_id (assignments sf)) = false /\
                 num_assignments r < max_cases r) /\
    len chosen = Z.min (avail sf) (len (filter (eligible sf) df)) /\
    (len (filter (eligible sf) df) <= avail sf ->
     Permutation chosen (map r_id (filter (eligible sf) df))).
Proof. exact (select_readers_core sf df rng). Qed.

Lemma select_readers_sound_witness :
  NoDup (map r_id Scenario.short_table) /\
  0 <= avail (Scenario.fresh 3) /\
  exists chosen rng',
    select_readers_without_replacement (Scenario.fresh 3) Scenario.short_table [1%nat]
    = (Ok chosen, rng') /\
    NoDup chosen /\
    (forall i, In i chosen ->
       exists r, In r Scenario.short_table /\ r_id r = i /\
                 isin i (map a_project_id (assignments (Scenario.fresh 3))) = false /\
                 num_assignments r < max_cases r) /\
    len chosen = Z.min (avail (Scenario.fresh 3))
                       (len (filter (eligible (Scenario.fresh 3)) Scenario.short_table)) /\
    (len (filter (eligible (Scenario.fresh 3)) Scenario.short_table)
     <= avail (Scenario.fresh 3) ->
     Permutation chosen
       (map r_id (filter (eligible (Scenario.fresh 3)) Scenario.short_table))).
Proof.
  assert (Hnd : NoDup (map r_id Scenario.short_table)).
  { simpl. repeat constructor; simpl; intuition discriminate. }
  assert (Hav : 0 <= avail (Scenario.fresh 3)) by (vm_compute; discriminate).
  split; [exact Hnd|]. split; [exact Hav|].
  exact (select_readers_sound (Scenario.fresh 3) Scenario.short_table [1%nat] Hnd Hav).
Defined.

(** The spec's partial-coverage example: [avail = 3], two eligible
    readers, whatever the random source. *)
Lemma partial_coverage_example (rng : Rng) :
  exists chosen rng',
    select_readers_without_replacement (Scenario.fresh 3) Scenario.short_table rng
    = (Ok chosen, rng') /\
    Permutation chosen ["P1"; "P2"].
Proof.
  assert (Hnd : NoDup (map r_id Scenario.short_table)).
  { simpl. repeat constructor; simpl; intuition discriminate. }
  assert (Hav : 0 <= avail (Scenario.fresh 3)) by (vm_compute; discriminate).
  destruct (select_readers_core (Scenario.fresh 3) Scenario.short_table rng Hnd Hav)
    as [chosen [rng' [E [_ [_ [_ Hp]]]]]].
  exists chosen, rng'. split; [exact E|]. apply Hp. vm_compute. discriminate.
Qed.

(** The spec's fairness example: loads 0, 0, 2 under capacity 5 and
    [avail = 1]; the reader chosen is one of the two idle ones, whatever
    the random source. *)
Lemma fairness_example (rng : Rng) :
  exists i rng',
    select_readers_without_replacement (Scenario.fresh 1) Scenario.fair_table rng
    = (Ok [i], rng') /\
    (i = "P1" \/ i = "P2").
Proof.
  destruct rng as [|r rest].
  - exists "P1", []. split; [reflexivity | now left].
  - unfold select_readers_without_replacement, np_random_choice.
    cbn -[Nat.modulo sample]. change (Pos.to_nat 1) with 1%nat.
    cbn -[Nat.modulo].
    assert (Hr : (r mod 2 < 2)%nat) by (apply Nat.mod_upper_bound; lia).
    destruct (r mod 2)%nat as [|[|n]]; [| |lia].
    + exists "P1", rest. split; [reflexivity | now left].
    + exists "P2", rest. split; [reflexivity | now right].
Qed.

(** C2.  The minimum of phase 1 is taken over the whole table.  With
    loads 1, 2, 3 where the reader of load 1 is full, and [avail = 1],
    the pool of phase 1 is empty although the least loaded eligible
    reader, [P2], could take the case alone; phase 2 then draws among
    [P2] and [P3], and this random source picks [P3]. *)
Theorem least_loaded_eligible_reader_passed_over :
  avail (Scenario.fresh 1) = 1 /\
  map r_id (filter (eligible (Scenario.fresh 1)) Scenario.crowded_table) = ["P2"; "P3"] /\
  map num_assignments (filter (eligible (Scenario.fresh 1)) Scenario.crowded_table)
  = [2; 3] /\
  filter (least_loaded (Scenario.fresh 1) Scenario.crowded_table) Scenario.crowded_table
  = [] /\
  select_readers_without_replacement (Scenario.fresh 1) Scenario.crowded_table [1%nat]
  = (Ok ["P3"], []).
Proof. repeat split. Qed.

(** ** FeatureAccounting *)

(** C6, as the code has it.  The roll-up of a case's features that carry
    an id and a label is defined; [unassigned] is
    [case_coverage - len(assignments)], [assigned] is the number of
    assignments whatever their status, and [diagnosed], [measured] and
    [completed] count the assignments of that status.  The roll-up is a
    function of the features alone. *)
Theorem session_attributes_rollup (sf : SessionFeatures) (i l : string) :
  sf_id sf = Some i ->
  sf_label sf = Some l ->
  exists attrs,
    set_project_session_attributes sf = Ok attrs /\
    at_id attrs = i /\ at_label attrs = l /\
    at_case_coverage attrs = case_coverage sf /\
    unassigned attrs = case_coverage sf - len (assignments sf) /\
    assigned attrs = len (assignments sf) /\
    diagnosed attrs
    = len (filter (fun a => String.eqb (a_status a) "Diagnosed") (assignments sf)) /\
    measured attrs
    = len (filter (fun a => String.eqb (a_status a) "Measured") (assignments sf)) /\
    completed attrs
    = len (filter (fun a => String.eqb (a_status a) "Completed") (assignments sf)).
Proof.
  intros Hi Hl. unfold set_project_session_attributes. rewrite Hi, Hl.
  eexists. split; [reflexivity|]. simpl.
  unfold with_status, len. rewrite !length_map. repeat split.
Qed.

Lemma session_attributes_rollup_witness :
  sf_id (with_id_label (Scenario.case "S1" None) Scenario.covered) = Some "S1" /\
  sf_label (with_id_label (Scenario.case "S1" None) Scenario.covered) = Some "case S1" /\
  exists attrs,
    set_project_session_attributes
      (with_id_label (Scenario.case "S1" None) Scenario.covered) = Ok attrs /\
    at_id attrs = "S1" /\ at_label attrs = "case S1" /\
    at_case_coverage attrs = 2 /\
    unassigned attrs = 2 - 2 /\
    assigned attrs = 2 /\
    diagnosed attrs = 0 /\
    measured attrs = 1 /\
    completed attrs = 0.
Proof.
  split; [reflexivity|]. split; [reflexivity|].
  exact (session_attributes_rollup
           (with_id_label (Scenario.case "S1" None) Scenario.covered)
           "S1" "case S1" eq_refl eq_refl).
Defined.

(** C6 as stated fails on [assigned]: a case whose one assignment is
    "Measured" and whose other is "Assigned" is rolled up with
    [assigned = 2], while one assignment has the status "Assigned". *)
Lemma assigned_is_not_a_status_count :
  exists attrs,
    set_project_session_attributes
      (with_id_label (Scenario.case "S1" None) Scenario.covered) = Ok attrs /\
    assigned attrs = 2 /\
    len (filter (fun a => String.eqb (a_status a) "Assigned")
                (assignments (with_id_label (Scenario.case "S1" None) Scenario.covered)))
    = 1 /\
    assigned attrs
    <> len (filter (fun a => String.eqb (a_status a) "Assigned")
                   (assignments (with_id_label (Scenario.case "S1" None) Scenario.covered))).
Proof.
  eexists. split; [reflexivity|]. repeat split. vm_compute. discriminate.
Qed.

(** ** BulkDistributor *)

(** C1.  In [distribute_cases_to_readers] a failed export is caught and
    logged, and the bookkeeping that follows still runs.  When the export
    of [S1] to [P2] fails after the export to [P1] succeeded, the run
    returns normally with an assignment of [S1] to [P2] that names the
    copy made for [P1]: both counters are incremented, the pair is
    persisted on [P2], and no copy exists in [P2].  When the first export
    of the run fails, [dest_session] is unbound and the run aborts. *)
Theorem failed_export_is_recorded_or_aborts :
  (exists src_df df w',
     SingleCase.distribute_cases_to_readers
       (Scenario.copy_export [("S1", "P2")]) (Scenario.master None) "readers" 2
       (Scenario.two_idle_readers [0%nat; 0%nat])
     = (Ok (src_df, df), w') /\
     map (fun r => (r_id r, num_assignments r, r_assignments r)) df
     = [("P1", 1, [("S1", "S1@P1")]); ("P2", 1, [("S1", "S1@P1")])] /\
     map assigned_count src_df = [2] /\
     map (fun sf => map (fun a => (a_project_id a, a_session_id a)) (assignments sf))
         src_df
     = [[("P1", "S1@P1"); ("P2", "S1@P1")]] /\
     project_features_of "P2" w' = Some (ReaderFeatures [("S1", "S1@P1")] 5) /\
     find_session "S1@P2" w' = None /\
     w_log w' = ["Error while exporting a session, case S1."; "exception";
                 "Examine the data and try again."]) /\
  fst (SingleCase.distribute_cases_to_readers
         (Scenario.copy_export [("S1", "P1")]) (Scenario.master None) "readers" 1
         Scenario.one_idle_reader)
  = Raise (UnboundLocalError "dest_session").
Proof.
  split.
  - eexists _, _, _. split; [vm_compute; reflexivity|]. repeat split.
  - vm_compute. reflexivity.
Qed.

(** ** ManualBatchAssigner *)

(** C3.  A batch whose first row is assigned and whose last row names a
    reader without a project: the last row fails the third check, and the
    run then raises on [reader_proj.update_info], [reader_proj] being
    [None]; no outcome table is returned.  The same batch without the
    failing row succeeds. *)
Theorem failing_last_row_aborts_the_batch :
  fst (BatchCases.check_valid_case_assignment "S2" "nobody@x.org" Scenario.readers
         (Scenario.row "P1" 5 0) 3 Scenario.batch_world)
  = Ok (false, BatchCases.msg_no_reader "nobody@x.org") /\
  fst (BatchCases.distribute_batch_to_readers
         (Scenario.copy_export []) (Scenario.master None) Scenario.readers 3
         [BatchCases.mkBatchRow "S1" "case S1" "a@x.org";
          BatchCases.mkBatchRow "S2" "case S2" "nobody@x.org"]
         Scenario.batch_world)
  = Raise (AttributeError "'NoneType' object has no attribute 'update_info'") /\
  is_ok (fst (BatchCases.distribute_batch_to_readers
                (Scenario.copy_export []) (Scenario.master None) Scenario.readers 3
                [BatchCases.mkBatchRow "S1" "case S1" "a@x.org"]
                Scenario.batch_world))
  = true.
Proof. repeat split; vm_compute; reflexivity. Qed.

(** A failing row that is not the last one is recorded with its message
    and the rows after it are processed. *)
Lemma failing_row_is_recorded_and_skipped :
  exists src_df df w',
    BatchCases.distribute_batch_to_readers
      (Scenario.copy_export []) (Scenario.master None) Scenario.readers 3
      [BatchCases.mkBatchRow "S7" "case S7" "a@x.org";
       BatchCases.mkBatchRow "S1" "case S1" "nobody@x.org";
       BatchCases.mkBatchRow "S1" "case S1" "a@x.org";
       BatchCases.mkBatchRow "S1" "case S1" "a@x.org"]
      Scenario.batch_world
    = (Ok (src_df, df,
           [BatchCases.mkOutcome (BatchCases.mkBatchRow "S7" "case S7" "a@x.org")
              false (BatchCases.msg_not_found "S7" "a@x.org");
            BatchCases.mkOutcome (BatchCases.mkBatchRow "S1" "case S1" "nobody@x.org")
              false (BatchCases.msg_no_reader "nobody@x.org");
            BatchCases.mkOutcome (BatchCases.mkBatchRow "S1" "case S1" "a@x.org")
              true "";
            BatchCases.mkOutcome (BatchCases.mkBatchRow "S1" "case S1" "a@x.org")
              false (BatchCases.msg_already "case S1" "a@x.org")]),
       w').
Proof. eexists _, _, _. vm_compute. reflexivity. Qed.

(** C7.  The reader project is updated once, after the loop, through the
    [reader_proj] of the last row and the [project_info] of the last row
    assigned.  With [S1] assigned to [P1] and then [S2] to [P2], only [P2]
    is persisted: [P1] keeps its empty list.  With [S1] assigned to [P2],
    then to [P1], and a last row for [P2] that fails, [P2] is persisted
    with the list of [P1], and [P1] keeps its empty list. *)
Theorem batch_persists_one_reader_project :
  (exists src_df df out w',
     BatchCases.distribute_batch_to_readers
       (Scenario.copy_export []) (Scenario.master None) Scenario.readers 3
       [BatchCases.mkBatchRow "S1" "case S1" "a@x.org";
        BatchCases.mkBatchRow "S2" "case S2" "b@x.org"]
       Scenario.batch_world
     = (Ok (src_df, df, out), w') /\
     map BatchCases.passed out = [true; true] /\
     map (fun r => (r_id r, r_assignments r)) df
     = [("P1", [("S1", "S1@P1")]); ("P2", [("S2", "S2@P2")])] /\
     project_features_of "P1" w' = Some (ReaderFeatures [] 5) /\
     project_features_of "P2" w' = Some (ReaderFeatures [("S2", "S2@P2")] 5)) /\
  (exists src_df df out w',
     BatchCases.distribute_batch_to_readers
       (Scenario.copy_export []) (Scenario.master None) Scenario.readers 3
       [BatchCases.mkBatchRow "S1" "case S1" "b@x.org";
        BatchCases.mkBatchRow "S1" "case S1" "a@x.org";
        BatchCases.mkBatchRow "S1" "case S1" "b@x.org"]
       Scenario.batch_world
     = (Ok (src_df, df, out), w') /\
     map BatchCases.passed out = [true; true; false] /\
     map (fun r => (r_id r, r_assignments r)) df
     = [("P1", [("S1", "S1@P1")]); ("P2", [("S1", "S1@P2")])] /\
     project_features_of "P1" w' = Some (ReaderFeatures [] 5) /\
     project_features_of "P2" w' = Some (ReaderFeatures [("S1", "S1@P1")] 5)).
Proof.
  split; eexists _, _, _, _; (split; [vm_compute; reflexivity|]); repeat split.
Qed.

(** C10.  The second check compares the session's group with the reader
    group id by identity.  For a session of the reader project [P2] whose
    group string has the characters of the reader group id and is another
    object, validation passes all six checks and the batch assigns the
    session to [P1]. *)
Theorem reader_group_session_passes_validation :
  (exists s, find_session "S9" Scenario.reader_case_world = Some s /\
             py_eq (s_group s) Scenario.readers = true /\
             py_is (s_group s) Scenario.readers = false) /\
  fst (BatchCases.check_valid_case_assignment "S9" "a@x.org" Scenario.readers
         (Scenario.row "P1" 5 0) 3 Scenario.reader_case_world)
  = Ok (true, BatchCases.msg_passed) /\
  exists src_df df out w',
    BatchCases.distribute_batch_to_readers
      (Scenario.copy_export []) (Scenario.master None) Scenario.readers 3
      [BatchCases.mkBatchRow "S9" "case S9" "a@x.org"]
      Scenario.reader_case_world
    = (Ok (src_df, df, out), w') /\
    map BatchCases.passed out = [true] /\
    map (fun r => (r_id r, r_assignments r, num_assignments r)) df
    = [("P1", [("S9", "S9@P1")], 1); ("P2", [], 1)] /\
    held_by w' "P1" = ["case S9"].
Proof.
  split; [|split].
  - eexists. repeat split.
  - vm_compute. reflexivity.
  - eexists _, _, _, _. split; [vm_compute; reflexivity|]. repeat split.
Qed.

(** With the identical object the second check does fail. *)
Lemma same_object_fails_second_check :
  fst (BatchCases.check_valid_case_assignment "S9" "a@x.org" (mkPyStr 7 "readers")
         (Scenario.row "P1" 5 0) 3 Scenario.reader_case_world)
  = Ok (false, BatchCases.msg_reader_project "S9").
Proof. vm_compute. reflexivity. Qed.

(** ** Session updates *)

Lemma find_update_first {A} (p : A -> bool) (f : A -> A) (l : list A) :
  (forall x, p x = true -> p (f x) = true) ->
  find p (SingleCase.update_first p f l) = option_map f (find p l).
Proof.
  intros Hf. induction l as [|x l IH]; simpl; [reflexivity|].
  destruct (p x) eqn:E; simpl.
  - now rewrite (Hf _ E).
  - now rewrite E.
Qed.

Lemma update_first_split {A} (p : A -> bool) (f : A -> A) (l : list A) (a : A)
      (rest : list A) :
  filter p l = a :: rest ->
  exists pre post,
    l = pre ++ a :: post /\ SingleCase.update_first p f l = pre ++ f a :: post /\
    forallb (fun x => negb (p x)) pre = true /\ p a = true.
Proof.
  induction l as [|x l IH]; simpl; intros H; [discriminate|].
  destruct (p x) eqn:E.
  - injection H as -> _. exists [], l. simpl. rewrite E. auto.
  - destruct (IH H) as [pre [post [-> [Hu [Hpre Ha]]]]].
    exists (x :: pre), post. simpl. rewrite E, Hu, Hpre. auto.
Qed.

(** ** SingleCaseAssigner: the reassignment branch *)

Section Reassignment.

Variable export_session : Session -> string -> M Session.

Lemma assign_single_case_never_returns (src : Session) (gid rid reason : string)
      (w : World) :
  is_ok (fst (SingleCase.assign_single_case export_session src gid rid reason w)) = false.
Proof.
  unfold SingleCase.assign_single_case.
  apply bind_never_ok; intros src_project w1.
  apply bind_never_ok; intros [sdf df] w2.
  apply bind_never_ok; intros indx w3.
  apply bind_never_ok; intros row w4.
  apply bind_never_ok; intros reader_proj w5.
  apply bind_never_ok; intros sf w6.
  apply bind_never_ok; intros books w7.
  unfold SingleCase.restore_and_record.
  repeat (apply bind_never_ok; intros). reflexivity.
Qed.

Lemma reassign_missing (src : Session) (rid reason : string) (reader_proj : Project)
      (sf : SessionFeatures) (w : World) :
  isin (s_label src) (held_by w (p_id reader_proj)) = false ->
  fst (SingleCase.reassign src rid reason reader_proj sf w)
  = Raise (PlainException "Missing Session in Destination Project.").
Proof.
  intros H. unfold SingleCase.reassign, bind, project_sessions. simpl.
  unfold SingleCase.session_labels. fold (held_by w (p_id reader_proj)).
  rewrite H. reflexivity.
Qed.

Lemma reassign_found (src : Session) (rid reason : string) (reader_proj : Project)
      (sf : SessionFeatures) (w : World) (a : Assignment) (others : list Assignment)
      (d : Session) (reads : list (string * list (string * string))) :
  isin (s_label src) (held_by w (p_id reader_proj)) = true ->
  filter (SingleCase.for_reader rid) (assignments sf) = a :: others ->
  find_session (a_session_id a) w = Some d ->
  s_ohif_read d = Some reads ->
  existsb (SingleCase.has_key (SingleCase.replace_dots rid)) reads = true ->
  SingleCase.reassign src rid reason reader_proj sf w
  = (Ok (mkSessionFeatures (sf_id sf) (sf_label sf) (case_coverage sf)
           (SingleCase.update_first (SingleCase.for_reader rid)
              SingleCase.reset_assignment (assignments sf))
           (assigned_count sf)),
     snd (update_ohif_read (a_session_id a)
            (SingleCase.update_first
               (SingleCase.has_key (SingleCase.replace_dots rid))
               (fun kv => (fst kv, [("additionalNotes", reason)])) reads) w)).
Proof.
  intros Hheld Hfilter Hfind Hread Hkey.
  unfold SingleCase.reassign, bind, project_sessions. simpl.
  unfold SingleCase.session_labels. fold (held_by w (p_id reader_proj)).
  rewrite Hheld. simpl. unfold lift. rewrite Hfilter.
  unfold get_session. rewrite Hfind. rewrite Hread. rewrite Hkey. simpl.
  rewrite (find_session_id _ _ _ Hfind). reflexivity.
Qed.

End Reassignment.

Lemma reset_assignment_spec (a : Assignment) :
  a_status (SingleCase.reset_assignment a) = "Assigned" /\
  a_project_id (SingleCase.reset_assignment a) = a_project_id a /\
  a_reader_id (SingleCase.reset_assignment a) = a_reader_id a /\
  a_session_id (SingleCase.reset_assignment a) = a_session_id a /\
  (SingleCase.truthy (a_read a) = true -> a_read (SingleCase.reset_assignment a) = None) /\
  (SingleCase.truthy (a_read a) = false ->
   a_read (SingleCase.reset_assignment a) = a_read a) /\
  (SingleCase.truthy (a_measurements a) = true ->
   a_measurements (SingleCase.reset_assignment a) = None) /\
  (SingleCase.truthy (a_measurements a) = false ->
   a_measurements (SingleCase.reset_assignment a) = a_measurements a).
Proof.
  unfold SingleCase.reset_assignment. simpl.
  repeat split; intros H; rewrite H; reflexivity.
Qed.

(** ** SingleCaseAssigner *)


(** ** SingleCaseAssigner on the selection *)

Section OnSelection.

Variable find_or_create_group : string -> string -> M string.
Variable get_selected : list string -> M Project.
Variable update_info_selected :
  string -> list (list (string * string)) -> list Z -> M unit.

Lemma selection_never_returns (src : Session) (gid rid reason : string) (w : World) :
  is_ok (fst (Selection.assign_single_case find_or_create_group get_selected
                update_info_selected src gid rid reason w)) = false.
Proof.
  unfold Selection.assign_single_case.
  apply bind_never_ok; intros src_project w1.
  apply bind_never_ok; intros rg w2.
  apply bind_never_ok; intros [sdf df] w3.
  cbv zeta.
  repeat (apply bind_never_ok; intros). reflexivity.
Qed.

End OnSelection.

(** C5.  A reassignment never completes.  Whatever the platform makes of
    the selection, no call of [assign_single_case] returns normally.  In
    the spec's reassignment scenario (reader [a@x.org] holds [S1], status
    "Measured" with measurements): on a platform that resolves the
    one-row selection to the row's project the call ends in [NameError]
    at its [return]; on a platform that refuses a Series the call ends in
    that error with the state as it was, the assignment still "Measured"
    with its measurements. *)
Theorem reassignment_never_completes :
  (forall find_or_create_group get_selected update_info_selected src gid rid reason w,
      is_ok (fst (Selection.assign_single_case find_or_create_group get_selected
                    update_info_selected src gid rid reason w)) = false) /\
  SingleCase.is_override "Please measure again" = false /\
  fst (Selection.assign_single_case Bench.group_found Bench.one_row_get
         Bench.one_row_update (Scenario.case "S1" (Some Scenario.covered))
         "readers" "a@x.org" "Please measure again" Scenario.single_world)
  = Raise (NameError "exported_data_df") /\
  Selection.assign_single_case Bench.group_found Bench.series_refused
    Bench.one_row_update (Scenario.case "S1" (Some Scenario.covered))
    "readers" "a@x.org" "Please measure again" Scenario.single_world
  = (Raise (TypeError "Series"), Scenario.single_world) /\
  option_map
    (fun sf => map (fun a => (a_reader_id a, a_status a, a_measurements a))
                   (assignments sf))
    (features_of "S1" Scenario.single_world)
  = Some [("a@x.org", "Measured", Some [("length", "12")]);
          ("b@x.org", "Assigned", None)].
Proof.
  split; [intros; apply selection_never_returns|].
  repeat split; vm_compute; reflexivity.
Qed.


(** * Further properties of the code *)

(** ** FeatureAccounting: the case states of the source project *)

Lemma remove_first_others (attrs : SessionAttributes) (cs : list SessionAttributes) :
  NoDup (map at_id cs) ->
  remove_first (fun c => String.eqb (at_id c) (at_id attrs)) cs
  = filter (other_case attrs) cs.
Proof.
  unfold other_case.
  induction cs as [|c cs IH]; simpl; intros Hcs; [reflexivity|].
  apply NoDup_cons_iff in Hcs as [Hfresh Hcs].
  destruct (String.eqb (at_id c) (at_id attrs)) eqn:E; simpl.
  - apply String.eqb_eq in E. symmetry. 
    assert (Hall : forall x, In x cs -> negb (String.eqb (at_id x) (at_id attrs)) = true).
    { intros x Hx. apply negb_true_iff. apply String.eqb_neq. intros Ex.
      apply Hfresh. rewrite E, <- Ex. now apply in_map. }
    clear - Hall. induction cs as [|x cs IH]; simpl; [reflexivity|].
    rewrite (Hall x (or_introl eq_refl)). f_equal. apply IH.
    intros y Hy. apply Hall. now right.
  - f_equal. now apply IH.
Qed.

(** X1.  Upserting a case summary into case states that hold at most
    one entry per case id: the entries of the other cases are kept, in
    their order, the new summary comes last, and the ids are again
    pairwise distinct; what was recorded for the case before is gone. *)
Theorem upsert_keeps_one_entry_per_case (attrs : SessionAttributes)
        (cs : list SessionAttributes) :
  NoDup (map at_id cs) ->
  upsert_case_state attrs cs = filter (other_case attrs) cs ++ [attrs] /\
  NoDup (map at_id (upsert_case_state attrs cs)) /\
  (forall c, In c (upsert_case_state attrs cs) -> at_id c = at_id attrs -> c = attrs).
Proof.
  intros Hcs. unfold upsert_case_state. rewrite (remove_first_others attrs cs Hcs).
  split; [reflexivity|]. split.
  - rewrite map_app. simpl. apply NoDup_app.
    + clear - Hcs. induction cs as [|c cs IH]; simpl; [constructor|].
      apply NoDup_cons_iff in Hcs as [Hfresh Hcs].
      destruct (other_case attrs c); simpl; [|now apply IH].
      apply NoDup_cons; [|now apply IH]. intros Hin. apply Hfresh.
      apply in_map_iff in Hin as [c' [Ec Hin]]. apply filter_In in Hin as [Hin _].
      rewrite <- Ec. now apply in_map.
    + repeat constructor. intros [].
    + intros i Hi [<-|[]]. apply in_map_iff in Hi as [c [Ec Hin]].
      apply filter_In in Hin as [_ Hc]. unfold other_case in Hc.
      apply negb_true_iff, String.eqb_neq in Hc. congruence.
  - intros c Hc Ec. apply in_app_or in Hc as [Hc|[<-|[]]]; [|reflexivity].
    apply filter_In in Hc as [_ Hc]. unfold other_case in Hc.
    apply negb_true_iff, String.eqb_neq in Hc. congruence.
Qed.

(** ** Allocator at full coverage *)

Lemma select_nobody (sf : SessionFeatures) (df : list ReaderRow) (rng : Rng) :
  avail sf = 0 ->
  select_readers_without_replacement sf df rng = (Ok [], rng).
Proof.
  intros Hav. unfold select_readers_without_replacement. fold (avail sf).
  rewrite Hav.
  set (P1 := filter _ df).
  assert (Hmin : Z.min 0 (len P1) = 0) by (unfold len; lia).
  rewrite Hmin. unfold np_random_choice. simpl.
  destruct (len (map r_id P1) <? 0) eqn:E1; [apply Z.ltb_lt in E1; unfold len in E1; lia|].
  destruct (len P1 <? 0) eqn:E2; [apply Z.ltb_lt in E2; unfold len in E2; lia|].
  reflexivity.
Qed.

(** X2.  For a case whose coverage is met ([avail = 0]) the allocator
    returns normally and returns no reader, whatever the reader table and
    the state of the random source. *)
Theorem full_coverage_selects_nobody (sf : SessionFeatures) (df : list ReaderRow)
        (rng : Rng) :
  avail sf = 0 ->
  fst (select_readers_without_replacement sf df rng) = Ok [].
Proof. intros Hav. now rewrite (select_nobody sf df rng Hav). Qed.

(** ** Borrowing and restoring the features of a case *)

Lemma projects_only_read_only {A} (m : M A) : read_only m -> projects_only m.
Proof. intros H w. rewrite H. auto. Qed.

Lemma projects_only_bind {A B} (m : M A) (k : A -> M B) :
  projects_only m -> (forall a, projects_only (k a)) -> projects_only (bind m k).
Proof.
  intros Hm Hk w. unfold bind. specialize (Hm w).
  destruct (m w) as [[a|e] w1]; simpl in Hm; [|exact Hm].
  destruct (Hk a w1) as [H1 [H2 H3]]. destruct Hm as [G1 [G2 G3]].
  rewrite H1, H2, H3. auto.
Qed.

Lemma projects_only_for_each {X S} (body : X -> S -> M S) (xs : list X) :
  (forall x s, projects_only (body x s)) -> forall s, projects_only (for_each xs body s).
Proof.
  intros Hb. induction xs as [|x xs IH]; intros s; simpl.
  - apply projects_only_read_only, read_only_ret.
  - apply projects_only_bind; auto.
Qed.

Lemma projects_only_update (i : string) (pf : ProjectFeatures) :
  projects_only (update_project_features i pf).
Proof. intros w. simpl. auto. Qed.

Lemma projects_only_update_reader_projects (df : list ReaderRow) :
  projects_only (update_reader_projects df).
Proof.
  unfold update_reader_projects. apply projects_only_for_each. intros row u.
  apply projects_only_bind.
  - apply projects_only_read_only, read_only_get_project.
  - intros rp. apply projects_only_update.
Qed.

Lemma id_names_one_session (l : list Session) :
  NoDup (map s_id l) ->
  forall x y, In x l -> In y l -> s_id x = s_id y -> x = y.
Proof.
  induction l as [|z l IH]; simpl; intros Hl x y Hx Hy E; [contradiction|].
  apply NoDup_cons_iff in Hl as [Hfresh Hl].
  destruct Hx as [->|Hx], Hy as [->|Hy]; auto.
  - exfalso. apply Hfresh. rewrite E. now apply in_map.
  - exfalso. apply Hfresh. rewrite <- E. now apply in_map.
Qed.

Lemma find_session_in (i : string) (w : World) (s : Session) :
  find_session i w = Some s -> In s (sessions w).
Proof. unfold find_session. intros H. now apply find_some in H. Qed.

Lemma in_find_session (w : World) (s : Session) :
  NoDup (map s_id (sessions w)) -> In s (sessions w) ->
  find_session (s_id s) w = Some s.
Proof.
  intros Hnd Hin. unfold find_session.
  destruct (find (fun x => String.eqb (s_id x) (s_id s)) (sessions w)) as [x|] eqn:E.
  - apply find_some in E as [Hx Ex]. apply String.eqb_eq in Ex.
    f_equal. eapply id_names_one_session; eauto.
  - eapply find_none in E; [|exact Hin]. now rewrite String.eqb_refl in E.
Qed.

Lemma features_back (s : Session) (sf : SessionFeatures) :
  s_features s = Some sf -> set_features (Some sf) (set_features None s) = s.
Proof. destruct s. simpl. intros ->. reflexivity. Qed.

Lemma borrow_restore (i : string) (w : World) (s : Session) (sf : SessionFeatures) :
  NoDup (map s_id (sessions w)) ->
  find_session i w = Some s ->
  s_features s = Some sf ->
  snd (update_session_features i sf (snd (delete_session_features i w))) = w.
Proof.
  intros Hnd Hfind Hsf.
  pose proof (find_session_in _ _ _ Hfind) as Hin.
  pose proof (find_session_id _ _ _ Hfind) as Hid.
  unfold update_session_features, delete_session_features, map_session.
  destruct w as [ss ps lg rg]. simpl in *. f_equal.
  rewrite map_map. rewrite <- (map_id ss) at 2. apply map_ext_in. intros x Hx.
  destruct (String.eqb (s_id x) i) eqn:E.
  - apply String.eqb_eq in E.
    assert (x = s) by (eapply id_names_one_session; eauto; congruence).
    subst x. simpl. rewrite Hid, String.eqb_refl. now apply features_back.
  - now rewrite E.
Qed.

Section Covered.

Variable export_session : Session -> string -> M Session.

Lemma covered_case_run (cc : Z) (src : Session) (st : SingleCase.BulkState)
      (w : World) (s : Session) (sf : SessionFeatures) :
  NoDup (map s_id (sessions w)) ->
  find_session (s_id src) w = Some s ->
  s_features s = Some sf ->
  avail sf = 0 ->
  SingleCase.distribute_case export_session cc src st w
  = (match record_case_state
             {| at_id := s_id s; at_label := s_label s;
                at_case_coverage := case_coverage sf;
                unassigned := case_coverage sf - len (assignments sf);
                assigned := len (assignments sf);
                diagnosed := len (with_status "Diagnosed" (assignments sf));
                measured := len (with_status "Measured" (assignments sf));
                completed := len (with_status "Completed" (assignments sf)) |}
             (SingleCase.b_project_features st) with
     | Ok pf =>
       Ok (SingleCase.mkBulkState (SingleCase.b_dest_projects_df st)
             (SingleCase.b_source_sessions_df st ++ [with_id_label s sf])
             pf (SingleCase.b_dest_session st))
     | Raise e => Raise e
     end, w).
Proof.
  intros Hnd Hfind Hsf Hav.
  pose proof (find_session_id _ _ _ Hfind) as Hid.
  unfold SingleCase.distribute_case.
  rewrite (bind_ok _ _ w w s) by (unfold get_session; now rewrite Hfind).
  set (wd := snd (delete_session_features (s_id s) w)).
  rewrite (bind_ok _ _ w wd sf)
    by (unfold SingleCase.set_session_features; rewrite Hsf; reflexivity).
  rewrite (bind_ok _ _ wd wd [])
    by (unfold with_rng; rewrite (select_nobody _ _ _ Hav); reflexivity).
  rewrite (bind_ok _ _ wd wd (SingleCase.b_dest_projects_df st, sf,
                              SingleCase.b_dest_session st)) by reflexivity.
  cbv beta iota.
  assert (Hback : update_session_features (s_id s) sf wd = (Ok tt, w)).
  { assert (Hfind' : find_session (s_id s) w = Some s) by now rewrite Hid.
    pose proof (borrow_restore (s_id s) w s sf Hnd Hfind' Hsf) as Hb.
    transitivity (Ok tt, snd (update_session_features (s_id s) sf wd));
      [reflexivity | f_equal; exact Hb]. }
  rewrite (bind_ok _ _ wd w tt Hback). cbv zeta.
  unfold bind, lift. simpl.
  destruct (record_case_state _ _); reflexivity.
Qed.

Lemma covered_loop (cc : Z) (w : World) (xs : list Session) :
  NoDup (map s_id (sessions w)) ->
  (forall x, In x xs ->
             In x (sessions w) /\ exists sf, s_features x = Some sf /\ avail sf = 0) ->
  forall st,
    snd (for_each xs (SingleCase.distribute_case export_session cc) st w) = w /\
    forall st', fst (for_each xs (SingleCase.distribute_case export_session cc) st w)
                = Ok st' ->
                SingleCase.b_dest_projects_df st' = SingleCase.b_dest_projects_df st /\
                SingleCase.b_dest_session st' = SingleCase.b_dest_session st.
Proof.
  intros Hnd. induction xs as [|x xs IH]; intros Hxs st; simpl.
  - split; [reflexivity|]. intros st' H. injection H as <-. auto.
  - destruct (Hxs x (or_introl eq_refl)) as [Hin [sf [Hsf Hav]]].
    pose proof (covered_case_run cc x st w x sf Hnd (in_find_session w x Hnd Hin)
                  Hsf Hav) as Hrun.
    unfold bind. rewrite Hrun.
    destruct (record_case_state _ _) as [pf|e].
    + destruct (IH (fun y Hy => Hxs y (or_intror Hy))
                   (SingleCase.mkBulkState (SingleCase.b_dest_projects_df st)
                      (SingleCase.b_source_sessions_df st ++ [with_id_label x sf])
                      pf (SingleCase.b_dest_session st))) as [Hw Hst].
      split; [exact Hw|]. intros st' H. exact (Hst st' H).
    + split; [reflexivity|]. intros st' H. discriminate.
Qed.

End Covered.

(** X3.  A case whose coverage is met goes through the body of the bulk
    loop without a trace on the sessions, the projects and the log: with
    one session per id, its features are taken off and put back as they
    were, nothing is exported or logged, and the reader frame and
    [dest_session] are handed on unchanged; the case's features are
    appended to the source frame and its summary is upserted into the
    case states. *)
Theorem covered_case_is_left_alone
        (export_session : Session -> string -> M Session) (cc : Z) (src : Session)
        (st : SingleCase.BulkState) (w : World) (s : Session) (sf : SessionFeatures)
        (coverage : Z) (case_states : list SessionAttributes) :
  NoDup (map s_id (sessions w)) ->
  find_session (s_id src) w = Some s ->
  s_features s = Some sf ->
  avail sf = 0 ->
  SingleCase.b_project_features st = SourceFeatures coverage case_states ->
  exists attrs,
    set_project_session_attributes (with_id_label s sf) = Ok attrs /\
    fst (SingleCase.distribute_case export_session cc src st w)
    = Ok (SingleCase.mkBulkState (SingleCase.b_dest_projects_df st)
            (SingleCase.b_source_sessions_df st ++ [with_id_label s sf])
            (SourceFeatures coverage (upsert_case_state attrs case_states))
            (SingleCase.b_dest_session st)) /\
    sessions (snd (SingleCase.distribute_case export_session cc src st w))
    = sessions w /\
    projects (snd (SingleCase.distribute_case export_session cc src st w))
    = projects w /\
    w_log (snd (SingleCase.distribute_case export_session cc src st w)) = w_log w.
Proof.
  intros Hnd Hfind Hsf Hav Hpf.
  rewrite (covered_case_run export_session cc src st w s sf Hnd Hfind Hsf Hav).
  rewrite Hpf. eexists. repeat split; reflexivity.
Qed.

(** X4.  Idempotence of bulk distribution: when every case of the source
    project has its coverage met (one session per id), a run of
    [distribute_cases_to_readers] exports nothing: the sessions and the
    log are as before, and the reader frame it returns is the snapshot it
    started from. *)
Theorem second_run_assigns_nobody
        (export_session : Session -> string -> M Session)
        (src_project : Project) (gid : string) (cc : Z) (w : World) :
  NoDup (map s_id (sessions w)) ->
  (forall x, In x (sessions w) -> s_project x = p_id src_project ->
             exists sf, s_features x = Some sf /\ avail sf = 0) ->
  sessions (snd (SingleCase.distribute_cases_to_readers export_session
                   src_project gid cc w)) = sessions w /\
  w_log (snd (SingleCase.distribute_cases_to_readers export_session
                src_project gid cc w)) = w_log w /\
  forall sdf df,
    fst (SingleCase.distribute_cases_to_readers export_session
           src_project gid cc w) = Ok (sdf, df) ->
    fst (initialize_dataframes gid w) = Ok ([], df).
Proof.
  intros Hnd Hall.
  destruct (SingleCase.distribute_cases_to_readers export_session src_project gid cc w)
    as [r w'] eqn:Erun.
  cbn [fst snd].
  unfold SingleCase.distribute_cases_to_readers in Erun.
  set (pf0 := match p_features src_project with
              | Some pf => pf | None => SourceFeatures cc [] end) in Erun.
  unfold bind at 1 in Erun. unfold project_sessions at 1 in Erun.
  cbv beta iota in Erun.
  set (xs := filter (fun s => String.eqb (s_project s) (p_id src_project)) (sessions w))
    in Erun.
  assert (Hxs : forall x, In x xs ->
                          In x (sessions w) /\
                          exists sf, s_features x = Some sf /\ avail sf = 0).
  { intros x Hx. apply filter_In in Hx as [Hin Hp]. apply String.eqb_eq in Hp. auto. }
  unfold bind at 1 in Erun.
  pose proof (read_only_initialize_dataframes gid w) as Hro.
  pose proof (initialize_dataframes_rows gid w) as Hrows.
  destruct (initialize_dataframes gid w) as [[[sdf0 df0]|e] w0];
    simpl in Hro; subst w0;
    [|injection Erun as <- <-; repeat split; intros; discriminate].
  destruct (Hrows sdf0 df0 eq_refl) as [-> _]. clear Hrows.
  cbv beta iota in Erun.
  destruct (len df0 =? 0);
    [injection Erun as <- <-; repeat split; intros; discriminate|].
  unfold bind at 1 in Erun.
  destruct (covered_loop export_session cc w xs Hnd Hxs
              (SingleCase.mkBulkState df0 [] pf0 None)) as [Hw Hst].
  destruct (for_each xs (SingleCase.distribute_case export_session cc)
              (SingleCase.mkBulkState df0 [] pf0 None) w) as [[st'|e] w1];
    simpl in Hw; subst w1;
    [|injection Erun as <- <-; repeat split; intros; discriminate].
  destruct (Hst st' eq_refl) as [Hdf _]. simpl in Hdf.
  match type of Erun with
  | ?m w = _ => assert (K : projects_only m)
  end.
  { apply projects_only_bind; [apply projects_only_update|]. intros _.
    apply projects_only_bind; [apply projects_only_update_reader_projects|].
    intros _. apply projects_only_read_only, read_only_ret. }
  destruct (K w) as [K1 [K2 K3]]. rewrite Erun in K1, K2, K3. simpl in K1, K2, K3.
  split; [exact K1|]. split; [exact K2|].
  intros sdf df H. subst r. unfold bind in Erun. simpl in Erun.
  destruct (update_reader_projects _ _) as [[u|e] w2]; [|discriminate].
  simpl in Erun. injection Erun as _ <- _. now rewrite Hdf.
Qed.

(** ** The bookkeeping of the bulk loop *)

Lemma np_random_choice_len (a : list string) (size : Z) (rng rng' : Rng)
      (out : list string) :
  np_random_choice a size rng = (Ok out, rng') -> len out = size.
Proof.
  intros H. unfold np_random_choice in H.
  destruct (size <? 0) eqn:E0; [discriminate|].
  destruct (len a <? size) eqn:E1; [discriminate|].
  apply Z.ltb_ge in E0, E1.
  destruct (np_random_choice_spec a size rng (conj E0 E1))
    as [out0 [rng0 [E [Hl _]]]].
  unfold np_random_choice in E.
  destruct (size <? 0); [discriminate|]. destruct (len a <? size); [discriminate|].
  rewrite E in H. now injection H as <- _.
Qed.

Lemma select_at_most_avail (sf : SessionFeatures) (df : list ReaderRow)
      (rng rng' : Rng) (chosen : list string) :
  0 <= avail sf ->
  select_readers_without_replacement sf df rng = (Ok chosen, rng') ->
  len chosen <= avail sf.
Proof.
  intros Hav H. unfold select_readers_without_replacement in H. fold (avail sf) in H.
  set (P1 := filter _ df) in H.
  destruct (np_random_choice (map r_id P1) _ rng) as [[out1|e] rng1] eqn:E1;
    [|discriminate].
  apply np_random_choice_len in E1.
  destruct (len P1 <? avail sf) eqn:Hlt.
  - set (P2 := filter _ df) in H.
    destruct (np_random_choice (map r_id P2) _ rng1) as [[out2|e] rng2] eqn:E2;
      [|discriminate].
    apply np_random_choice_len in E2. injection H as <- _.
    unfold len in *. rewrite length_app. lia.
  - injection H as <- _. lia.
Qed.

Lemma update_row_at (p : ReaderRow -> bool) (f : ReaderRow -> ReaderRow)
      (df : list ReaderRow) :
  forall i, index_where p df = Some i ->
            exists pre r post,
              df = pre ++ r :: post /\ p r = true /\
              update_row i f df = pre ++ f r :: post.
Proof.
  induction df as [|r df IH]; simpl; intros i H; [discriminate|].
  destruct (p r) eqn:Ep.
  - injection H as <-. exists [], r, df. auto.
  - destruct (index_where p df) as [j|]; [|discriminate]. injection H as <-.
    destruct (IH j eq_refl) as [pre [r' [post [-> [Hp Hu]]]]].
    exists (r :: pre), r', post. simpl. rewrite Hu. auto.
Qed.

Section Bulk.

Variable export_session : Session -> string -> M Session.

Lemma export_to_reader_ok (src : Session) (pid : string)
      (df df1 : list ReaderRow) (sf sf1 : SessionFeatures) (d d1 : option Session)
      (w w1 : World) :
  SingleCase.export_to_reader export_session src pid (df, sf, d) w
  = (Ok (df1, sf1, d1), w1) ->
  exists rid dest pre r post,
    sf1 = mkSessionFeatures (sf_id sf) (sf_label sf) (case_coverage sf)
            (assignments sf ++ [mkAssignment pid rid dest "Assigned" None None])
            (assigned_count sf + 1) /\
    df = pre ++ r :: post /\ r_id r = pid /\
    df1 = pre ++ one_more (s_id src) dest r :: post.
Proof.
  unfold SingleCase.export_to_reader. intros H.
  unfold bind at 1 in H.
  destruct (get_project pid w) as [[project|e] w2]; [|discriminate].
  unfold bind at 1 in H. unfold lift at 1 in H.
  destruct (first_contributor (p_permissions project)) as [rid|e]; [|discriminate].
  unfold bind at 1 in H.
  destruct (try_except _ _ w2) as [[d2|e] w3]; [|discriminate].
  unfold bind at 1 in H. unfold lift at 1, row_index in H.
  destruct (index_where (fun r => String.eqb (r_id r) pid) df) as [indx|] eqn:Ei;
    [|discriminate].
  unfold bind at 1 in H. unfold lift at 1, record_assignment in H.
  destruct d2 as [dd|]; [|discriminate].
  simpl in H. injection H as <- <- <- <-.
  destruct (update_row_at _ (one_more (s_id src) (s_id dd)) df indx Ei)
    as [pre [r [post [Hdf [Hp Hu]]]]].
  apply String.eqb_eq in Hp.
  exists rid, (s_id dd), pre, r, post. repeat split; auto.
Qed.

Lemma exported_are_appended (src : Session) (xs : list string) :
  forall (df df1 : list ReaderRow) (sf sf1 : SessionFeatures) (d d1 : option Session)
         (w w1 : World),
    for_each xs (SingleCase.export_to_reader export_session src) (df, sf, d) w
    = (Ok (df1, sf1, d1), w1) ->
    exists added,
      assignments sf1 = assignments sf ++ added /\
      map a_project_id added = xs /\
      Forall (fun a => a_status a = "Assigned") added /\
      assigned_count sf1 = assigned_count sf + len xs /\
      case_coverage sf1 = case_coverage sf.
Proof.
  induction xs as [|pid xs IH]; intros df df1 sf sf1 d d1 w w1 H;
    cbn [for_each] in H.
  - injection H as <- <- <- <-. exists []. rewrite app_nil_r.
    repeat split; auto. unfold len. simpl. lia.
  - unfold bind in H.
    destruct (SingleCase.export_to_reader export_session src pid (df, sf, d) w)
      as [[[[df2 sf2] d2]|e] w2] eqn:E; [|discriminate].
    destruct (export_to_reader_ok _ _ _ _ _ _ _ _ _ _ E)
      as [rid [dest [pre [r [post [-> _]]]]]].
    destruct (IH _ _ _ _ _ _ _ _ H) as [added [Ha [Hm [Hs [Hc Hcc]]]]].
    simpl in *.
    exists (mkAssignment pid rid dest "Assigned" None None :: added).
    rewrite Ha, <- app_assoc. simpl. rewrite Hm.
    repeat split; auto. rewrite Hc. unfold len. simpl length. lia.
Qed.

Lemma exported_within_capacity (src : Session) (xs : list string) :
  NoDup xs ->
  forall (df df1 : list ReaderRow) (sf sf1 : SessionFeatures) (d d1 : option Session)
         (w w1 : World),
    for_each xs (SingleCase.export_to_reader export_session src) (df, sf, d) w
    = (Ok (df1, sf1, d1), w1) ->
    within_capacity df ->
    (forall r, In r df -> In (r_id r) xs -> num_assignments r < max_cases r) ->
    within_capacity df1 /\
    map r_id df1 = map r_id df /\
    map max_cases df1 = map max_cases df.
Proof.
  unfold within_capacity.
  induction xs as [|pid xs IH]; intros Hnd df df1 sf sf1 d d1 w w1 H Hcap Hroom;
    cbn [for_each] in H.
  - injection H as <- <- <- <-. auto.
  - unfold bind in H.
    destruct (SingleCase.export_to_reader export_session src pid (df, sf, d) w)
      as [[[[df2 sf2] d2]|e] w2] eqn:E; [|discriminate].
    destruct (export_to_reader_ok _ _ _ _ _ _ _ _ _ _ E)
      as [rid [dest [pre [r [post [_ [Hdf [Hid Hdf2]]]]]]]].
    apply NoDup_cons_iff in Hnd as [Hfresh Hnd].
    assert (Hr : num_assignments r < max_cases r).
    { apply Hroom; [subst df; apply in_or_app; right; now left|].
      rewrite Hid. now left. }
    destruct (IH Hnd _ _ _ _ _ _ _ _ H) as [Hc1 [Hi1 Hm1]].
    + subst df df2. apply Forall_app in Hcap as [Hpre Hpost].
      apply Forall_cons_iff in Hpost as [_ Hpost].
      apply Forall_app. split; [exact Hpre|]. constructor; [simpl; lia | exact Hpost].
    + intros r' Hin Hxs. subst df df2.
      apply in_app_or in Hin as [Hin|[<-|Hin]].
      * apply Hroom; [apply in_or_app; now left | now right].
      * simpl in Hxs. rewrite Hid in Hxs. contradiction.
      * apply Hroom; [apply in_or_app; right; now right | now right].
    + subst df df2. rewrite Hi1, Hm1. rewrite !map_app. simpl. auto.
Qed.

Lemma distribute_case_ok (cc : Z) (src : Session) (st st' : SingleCase.BulkState)
      (w w' : World) (s : Session) :
  find_session (s_id src) w = Some s ->
  SingleCase.distribute_case export_session cc src st w = (Ok st', w') ->
  exists chosen rng rng' sf' d' w2,
    select_readers_without_replacement (borrowed cc s)
      (SingleCase.b_dest_projects_df st) rng = (Ok chosen, rng') /\
    for_each chosen (SingleCase.export_to_reader export_session s)
      (SingleCase.b_dest_projects_df st, borrowed cc s, SingleCase.b_dest_session st)
      (mkWorld (sessions (snd (SingleCase.set_session_features s cc w)))
               (projects (snd (SingleCase.set_session_features s cc w)))
               (w_log (snd (SingleCase.set_session_features s cc w))) rng')
    = (Ok (SingleCase.b_dest_projects_df st', sf', d'), w2) /\
    w' = snd (update_session_features (s_id src) sf' w2).
Proof.
  intros Hfind H. pose proof (find_session_id _ _ _ Hfind) as Hid.
  unfold SingleCase.distribute_case in H.
  rewrite (bind_ok _ _ w w s) in H by (unfold get_session; now rewrite Hfind).
  assert (Hset : SingleCase.set_session_features s cc w
                 = (Ok (borrowed cc s), snd (SingleCase.set_session_features s cc w))).
  { unfold SingleCase.set_session_features, borrowed.
    destruct (s_features s); reflexivity. }
  rewrite (bind_ok _ _ _ _ _ Hset) in H.
  set (wd := snd (SingleCase.set_session_features s cc w)) in *.
  unfold bind at 1 in H. unfold with_rng at 1 in H.
  destruct (select_readers_without_replacement (borrowed cc s)
              (SingleCase.b_dest_projects_df st) (w_rng wd))
    as [[chosen|e] rng'] eqn:Esel; [|discriminate].
  unfold bind at 1 in H.
  destruct (for_each chosen _ _ _) as [[[[df1 sf1] d1]|e] w2] eqn:Eloop; [|discriminate].
  cbv beta iota in H. unfold bind at 1 in H.
  unfold update_session_features at 1, map_session at 1 in H. cbv beta iota zeta in H.
  unfold bind, lift in H. simpl in H.
  destruct (record_case_state _ _) as [pf|e]; [|discriminate].
  injection H as <- <-.
  exists chosen, (w_rng wd), rng', sf1, d1, w2. simpl.
  split; [exact Esel|]. split; [exact Eloop|]. rewrite Hid. reflexivity.
Qed.

End Bulk.

Lemma updated_features (i : string) (sf : SessionFeatures) (w : World) (x : Session) :
  In x (sessions (snd (update_session_features i sf w))) ->
  s_id x = i -> s_features x = Some sf.
Proof.
  unfold update_session_features, map_session. simpl. intros Hin Hid.
  apply in_map_iff in Hin as [y [Ey Hy]]. subst x.
  destruct (String.eqb (s_id y) i) eqn:E; [reflexivity|].
  apply String.eqb_neq in E. contradiction.
Qed.

(** X5.  The body of the bulk loop keeps the case's accounting: if the
    features handed out for the case have [assigned_count =
    len(assignments)] and do not exceed the coverage, then after a normal
    return the features persisted on the case have the same coverage, the
    old assignments followed by new ones of status "Assigned", again
    [assigned_count = len(assignments)], and at most [case_coverage]
    assignments; whatever the exporter does. *)
Theorem bulk_keeps_count_within_coverage
        (export_session : Session -> string -> M Session) (cc : Z) (src : Session)
        (st st' : SingleCase.BulkState) (w w' : World) (s : Session) :
  find_session (s_id src) w = Some s ->
  assigned_count (borrowed cc s) = len (assignments (borrowed cc s)) ->
  0 <= avail (borrowed cc s) ->
  SingleCase.distribute_case export_session cc src st w = (Ok st', w') ->
  exists sf' added,
    (forall x, In x (sessions w') -> s_id x = s_id src -> s_features x = Some sf') /\
    assignments sf' = assignments (borrowed cc s) ++ added /\
    Forall (fun a => a_status a = "Assigned") added /\
    case_coverage sf' = case_coverage (borrowed cc s) /\
    assigned_count sf' = len (assignments sf') /\
    len (assignments sf') <= case_coverage sf'.
Proof.
  intros Hfind Hcount Hav Hrun.
  destruct (distribute_case_ok export_session cc src st st' w w' s Hfind Hrun)
    as [chosen [rng [rng' [sf' [d' [w2 [Hsel [Hloop Hw']]]]]]]].
  pose proof (select_at_most_avail _ _ _ _ _ Hav Hsel) as Hle.
  destruct (exported_are_appended export_session s chosen _ _ _ _ _ _ _ _ Hloop)
    as [added [Ha [Hm [Hs [Hc Hcc]]]]].
  exists sf', added. subst w'.
  split; [intros x Hx Hid; eapply updated_features; eauto|].
  split; [exact Ha|]. split; [exact Hs|]. split; [exact Hcc|].
  assert (Hlen : len added = len chosen).
  { unfold len. rewrite <- Hm. now rewrite length_map. }
  unfold avail in *. rewrite Ha. unfold len in *. rewrite length_app.
  rewrite Hc, Hcc. lia.
Qed.

Lemma bulk_keeps_count_within_coverage_witness :
  find_session "S1" (Scenario.two_idle_readers [0%nat; 0%nat])
  = Some (Scenario.case "S1" None) /\
  assigned_count (borrowed 2 (Scenario.case "S1" None))
  = len (assignments (borrowed 2 (Scenario.case "S1" None))) /\
  0 <= avail (borrowed 2 (Scenario.case "S1" None)) /\
  is_ok (fst (SingleCase.distribute_case (Scenario.copy_export [])
                2 (Scenario.case "S1" None) Bench.idle_state
                (Scenario.two_idle_readers [0%nat; 0%nat]))) = true /\
  exists sf' added,
    (forall x,
        In x (sessions (snd (SingleCase.distribute_case (Scenario.copy_export [])
                               2 (Scenario.case "S1" None) Bench.idle_state
                               (Scenario.two_idle_readers [0%nat; 0%nat])))) ->
        s_id x = "S1" -> s_features x = Some sf') /\
    assignments sf' = assignments (borrowed 2 (Scenario.case "S1" None)) ++ added /\
    Forall (fun a => a_status a = "Assigned") added /\
    case_coverage sf' = case_coverage (borrowed 2 (Scenario.case "S1" None)) /\
    assigned_count sf' = len (assignments sf') /\
    len (assignments sf') <= case_coverage sf'.
Proof.
  split; [reflexivity|]. split; [reflexivity|].
  split; [vm_compute; discriminate|]. split; [vm_compute; reflexivity|].
  destruct (SingleCase.distribute_case (Scenario.copy_export [])
              2 (Scenario.case "S1" None) Bench.idle_state
              (Scenario.two_idle_readers [0%nat; 0%nat])) as [[st'|e] w'] eqn:E.
  - refine (bulk_keeps_count_within_coverage (Scenario.copy_export []) 2
              (Scenario.case "S1" None) Bench.idle_state st'
              (Scenario.two_idle_readers [0%nat; 0%nat]) w'
              (Scenario.case "S1" None) eq_refl eq_refl _ E).
    vm_compute. discriminate.
  - exfalso. vm_compute in E. discriminate.
Defined.

(** X6.  The body of the bulk loop keeps the readers within their
    capacity: on a frame with one row per project id in which no reader
    holds more than [max_cases], a normal return leaves a frame with the
    same ids and capacities in which still no reader holds more than
    [max_cases]; whatever the exporter does. *)
Theorem bulk_keeps_readers_within_capacity
        (export_session : Session -> string -> M Session) (cc : Z) (src : Session)
        (st st' : SingleCase.BulkState) (w w' : World) (s : Session) :
  find_session (s_id src) w = Some s ->
  NoDup (map r_id (SingleCase.b_dest_projects_df st)) ->
  within_capacity (SingleCase.b_dest_projects_df st) ->
  0 <= avail (borrowed cc s) ->
  SingleCase.distribute_case export_session cc src st w = (Ok st', w') ->
  within_capacity (SingleCase.b_dest_projects_df st') /\
  map r_id (SingleCase.b_dest_projects_df st')
  = map r_id (SingleCase.b_dest_projects_df st) /\
  map max_cases (SingleCase.b_dest_projects_df st')
  = map max_cases (SingleCase.b_dest_projects_df st).
Proof.
  intros Hfind Hnd Hcap Hav Hrun.
  destruct (distribute_case_ok export_session cc src st st' w w' s Hfind Hrun)
    as [chosen [rng [rng' [sf' [d' [w2 [Hsel [Hloop _]]]]]]]].
  destruct (select_readers_core (borrowed cc s) _ rng Hnd Hav)
    as [chosen0 [rng0 [E [Hndc [Hel _]]]]].
  rewrite E in Hsel. injection Hsel as -> ->.
  eapply (exported_within_capacity export_session s chosen Hndc); eauto.
  intros r Hr Hin. destruct (Hel _ Hin) as [r0 [Hr0 [Eid [_ Hlt]]]].
  assert (r0 = r) by (eapply id_names_one_row; eauto). now subst r0.
Qed.

Lemma bulk_keeps_readers_within_capacity_witness :
  find_session "S1" (Scenario.two_idle_readers [0%nat; 0%nat])
  = Some (Scenario.case "S1" None) /\
  NoDup (map r_id (SingleCase.b_dest_projects_df Bench.idle_state)) /\
  within_capacity (SingleCase.b_dest_projects_df Bench.idle_state) /\
  0 <= avail (borrowed 2 (Scenario.case "S1" None)) /\
  exists st' w',
    SingleCase.distribute_case (Scenario.copy_export [])
      2 (Scenario.case "S1" None) Bench.idle_state
      (Scenario.two_idle_readers [0%nat; 0%nat]) = (Ok st', w') /\
    within_capacity (SingleCase.b_dest_projects_df st') /\
    map r_id (SingleCase.b_dest_projects_df st') = ["P1"; "P2"] /\
    map max_cases (SingleCase.b_dest_projects_df st') = [5; 5].
Proof.
  assert (Hnd : NoDup (map r_id (SingleCase.b_dest_projects_df Bench.idle_state))).
  { simpl. repeat constructor; simpl; intuition discriminate. }
  assert (Hcap : within_capacity (SingleCase.b_dest_projects_df Bench.idle_state)).
  { repeat constructor; simpl; lia. }
  assert (Hav : 0 <= avail (borrowed 2 (Scenario.case "S1" None)))
    by (vm_compute; discriminate).
  split; [reflexivity|]. split; [exact Hnd|]. split; [exact Hcap|].
  split; [exact Hav|].
  destruct (SingleCase.distribute_case (Scenario.copy_export [])
              2 (Scenario.case "S1" None) Bench.idle_state
              (Scenario.two_idle_readers [0%nat; 0%nat])) as [[st'|e] w'] eqn:E.
  - exists st', w'. split; [reflexivity|].
    exact (bulk_keeps_readers_within_capacity (Scenario.copy_export []) 2
             (Scenario.case "S1" None) Bench.idle_state st'
             (Scenario.two_idle_readers [0%nat; 0%nat]) w'
             (Scenario.case "S1" None) eq_refl Hnd Hcap Hav E).
  - exfalso. vm_compute in E. discriminate.
Defined.

(** ** Validation of a batch row *)

Lemma read_only_sessions_find_first (i : string) : read_only (sessions_find_first i).
Proof. intros w. reflexivity. Qed.

Lemma read_only_check_valid_reader (reader_id group_id : string) :
  read_only (BatchCases.check_valid_reader reader_id group_id).
Proof.
  unfold BatchCases.check_valid_reader.
  apply read_only_bind; [apply read_only_projects_find_group|]. intros ps.
  apply read_only_bind; [apply read_only_lift|]. intros ids.
  destruct (isin reader_id ids); [|apply read_only_ret].
  destruct (filter _ ps); [apply read_only_raise | apply read_only_ret].
Qed.

Lemma read_only_validation (sid email : string) (gid : PyStr) (row : ReaderRow)
      (cc : Z) :
  read_only (BatchCases.check_valid_case_assignment sid email gid row cc).
Proof.
  unfold BatchCases.check_valid_case_assignment.
  apply read_only_bind; [apply read_only_sessions_find_first|]. intros [s|];
    [|apply read_only_ret].
  apply read_only_bind; [apply read_only_get_session|]. intros s'.
  destruct (py_is (s_group s') gid); [apply read_only_ret|].
  apply read_only_bind; [apply read_only_check_valid_reader|]. intros [rp|];
    [|apply read_only_ret].
  apply read_only_bind; [apply read_only_project_sessions|]. intros ss.
  destruct (isin _ _); [apply read_only_ret|].
  destruct (_ =? _); [apply read_only_ret|].
  apply read_only_bind; [intros w; reflexivity|]. intros sf.
  destruct (_ =? _); apply read_only_ret.
Qed.

Lemma check_valid_reader_found (reader_id group_id : string) (w : World)
      (rp : Project) :
  fst (BatchCases.check_valid_reader reader_id group_id w) = Ok (Some rp) ->
  In rp (projects w) /\ p_group rp = group_id /\
  In reader_id (BatchCases.contributors rp).
Proof.
  unfold BatchCases.check_valid_reader, bind, projects_find_group, lift. simpl.
  destruct (BatchCases.all_ok _ _) as [ids|e]; [|discriminate]. simpl.
  destruct (isin reader_id ids); [|discriminate].
  destruct (filter _ _) as [|p ps] eqn:E; [discriminate|].
  simpl. intros H. injection H as <-.
  assert (Hin : In p (p :: ps)) by now left. rewrite <- E in Hin.
  apply filter_In in Hin as [Hin Hc]. apply filter_In in Hin as [Hin Hg].
  apply String.eqb_eq in Hg. apply isin_In in Hc. auto.
Qed.

Lemma validation_passed (sid email : string) (gid : PyStr) (row : ReaderRow)
      (cc : Z) (w : World) (m : string) :
  fst (BatchCases.check_valid_case_assignment sid email gid row cc w) = Ok (true, m) ->
  m = BatchCases.msg_passed /\
  exists src rp,
    find_session sid w = Some src /\
    py_is (s_group src) gid = false /\
    In rp (projects w) /\ p_group rp = chars gid /\
    In email (BatchCases.contributors rp) /\
    isin (s_label src) (held_by w (p_id rp)) = false /\
    num_assignments row <> max_cases row /\
    assigned_count (borrowed cc src) <> case_coverage (borrowed cc src).
Proof.
  unfold BatchCases.check_valid_case_assignment.
  unfold bind at 1. unfold sessions_find_first. cbv beta iota.
  destruct (find_session sid w) as [src|] eqn:Hfind; [|discriminate].
  pose proof (find_session_id _ _ _ Hfind) as Hid.
  unfold bind at 1. unfold get_session. rewrite Hid, Hfind.
  destruct (py_is (s_group src) gid) eqn:Hg; [discriminate|].
  unfold bind at 1.
  pose proof (read_only_check_valid_reader email (chars gid) w) as Hro.
  pose proof (check_valid_reader_found email (chars gid) w) as Hrp.
  destruct (BatchCases.check_valid_reader email (chars gid) w) as [[[rp|]|e] w1];
    simpl in Hro; subst w1; [|discriminate|discriminate].
  destruct (Hrp rp eq_refl) as [Hin [Hgrp Hc]].
  unfold bind at 1. unfold project_sessions. cbv beta iota.
  fold (held_by w (p_id rp)).
  destruct (isin (s_label src) (held_by w (p_id rp))) eqn:Hheld; [discriminate|].
  destruct (num_assignments row =? max_cases row) eqn:Hnum; [discriminate|].
  unfold bind, BatchCases.set_session_features, ret. fold (borrowed cc src).
  destruct (assigned_count (borrowed cc src) =? case_coverage (borrowed cc src))
           eqn:Hcov; [discriminate|].
  simpl. intros H. injection H as <-. split; [reflexivity|].
  exists src, rp. apply Z.eqb_neq in Hnum, Hcov. repeat split; auto.
Qed.

(** X7.  Validating a batch row never writes to the platform, and a row
    that passes has these facts: the message is the passing one, the
    session exists and its group is not the very object given as reader
    group id, a project of the reader group has the reader as a
    contributor and holds no session of that label, the reader's row has
    [num_assignments <> max_cases], and the case's features have
    [assigned_count <> case_coverage]. *)
Theorem validation_reads_only_and_vouches (sid email : string) (gid : PyStr)
        (row : ReaderRow) (cc : Z) (w : World) :
  snd (BatchCases.check_valid_case_assignment sid email gid row cc w) = w /\
  forall m,
    fst (BatchCases.check_valid_case_assignment sid email gid row cc w) = Ok (true, m) ->
    m = BatchCases.msg_passed /\
    exists src rp,
      find_session sid w = Some src /\
      py_is (s_group src) gid = false /\
      In rp (projects w) /\ p_group rp = chars gid /\
      In email (BatchCases.contributors rp) /\
      isin (s_label src) (held_by w (p_id rp)) = false /\
      num_assignments row <> max_cases row /\
      assigned_count (borrowed cc src) <> case_coverage (borrowed cc src).
Proof.
  split; [apply read_only_validation|]. intros m. apply validation_passed.
Qed.

(** ** The empty reader group *)

Lemma no_projects_no_frame (gid : string) (w : World) :
  filter (fun p => String.eqb (p_group p) gid) (projects w) = [] ->
  initialize_dataframes gid w = (Ok ([], []), w).
Proof.
  intros H. unfold initialize_dataframes, bind, projects_find_group.
  rewrite H. reflexivity.
Qed.

(** X8.  Without a project in the reader group both distributors raise
    [NoReaderProjectsError] with nothing exported and no session or
    project written by then, whatever the cases, the batch and the
    exporter.  (The calls that come before the snapshot,
    [find_or_create_group] and in the batch gear
    [confirm_or_create_ohif_config], touch neither sessions nor the
    projects' metadata and are not part of the statement.) *)
Theorem no_reader_projects_stops_the_run
        (export_session : Session -> string -> M Session)
        (project : Project) (gid : PyStr) (cc : Z)
        (batch : list BatchCases.BatchRow) (w : World) :
  filter (fun p => String.eqb (p_group p) (chars gid)) (projects w) = [] ->
  (fst (SingleCase.distribute_cases_to_readers export_session project (chars gid) cc w)
   = Raise NoReaderProjectsError /\
   sessions (snd (SingleCase.distribute_cases_to_readers export_session project
                    (chars gid) cc w)) = sessions w /\
   projects (snd (SingleCase.distribute_cases_to_readers export_session project
                    (chars gid) cc w)) = projects w) /\
  (fst (BatchCases.distribute_batch_to_readers export_session project gid cc batch w)
   = Raise NoReaderProjectsError /\
   sessions (snd (BatchCases.distribute_batch_to_readers export_session project gid
                    cc batch w)) = sessions w /\
   projects (snd (BatchCases.distribute_batch_to_readers export_session project gid
                    cc batch w)) = projects w).
Proof.
  intros H. pose proof (no_projects_no_frame _ _ H) as Hinit.
  assert (Hs : SingleCase.distribute_cases_to_readers export_session project
                 (chars gid) cc w = (Raise NoReaderProjectsError, w)).
  { unfold SingleCase.distribute_cases_to_readers.
    unfold bind at 1. unfold project_sessions at 1. cbv beta iota.
    rewrite (bind_ok _ _ _ _ _ Hinit). reflexivity. }
  assert (Hb : BatchCases.distribute_batch_to_readers export_session project gid
                 cc batch w = (Raise NoReaderProjectsError, w)).
  { unfold BatchCases.distribute_batch_to_readers.
    rewrite (bind_ok _ _ _ _ _ Hinit). reflexivity. }
  rewrite Hs, Hb. repeat split.
Qed.

Lemma no_reader_projects_stops_the_run_witness :
  filter (fun p => String.eqb (p_group p) (chars Scenario.readers))
         (projects (mkWorld [Scenario.case "S1" None] [Scenario.master None] [] []))
  = [] /\
  fst (SingleCase.distribute_cases_to_readers (Scenario.copy_export [])
         (Scenario.master None) (chars Scenario.readers) 3
         (mkWorld [Scenario.case "S1" None] [Scenario.master None] [] []))
  = Raise NoReaderProjectsError /\
  fst (BatchCases.distribute_batch_to_readers (Scenario.copy_export [])
         (Scenario.master None) Scenario.readers 3
         [BatchCases.mkBatchRow "S1" "case S1" "a@x.org"]
         (mkWorld [Scenario.case "S1" None] [Scenario.master None] [] []))
  = Raise NoReaderProjectsError.
Proof.
  split; [reflexivity|].
  pose proof (no_reader_projects_stops_the_run (Scenario.copy_export [])
                (Scenario.master None) Scenario.readers 3
                [BatchCases.mkBatchRow "S1" "case S1" "a@x.org"]
                (mkWorld [Scenario.case "S1" None] [Scenario.master None] [] [])
                eq_refl) as [[Hs _] [Hb _]].
  split; [exact Hs | exact Hb].
Defined.

(** ** A failed export in the batch loop *)

(** X9.  In the batch loop a row that passes validation and whose export
    raises costs nothing in the books: the reader frame and
    [project_info] are handed on as they were, the case's features are
    not written, three lines are logged, and the row is reported as
    passed with an empty message. *)
Theorem failed_export_leaves_batch_books_alone
        (export_session : Session -> string -> M Session)
        (gid : PyStr) (cc : Z) (row : BatchCases.BatchRow)
        (st : BatchCases.BatchState) (w w1 : World) (indx : nat) (r : ReaderRow)
        (rp : Project) (m : string) (e : exn) :
  index_where (fun x => String.eqb (r_reader_id x) (BatchCases.reader_email row))
              (BatchCases.t_dest_projects_df st) = Some indx ->
  nth_error (BatchCases.t_dest_projects_df st) indx = Some r ->
  find_project (r_id r) w = Some rp ->
  fst (BatchCases.check_valid_case_assignment (BatchCases.session_id row)
         (BatchCases.reader_email row) gid r cc w) = Ok (true, m) ->
  (forall s, find_session (BatchCases.session_id row) w = Some s ->
             export_session s (r_id r) w = (Raise e, w1)) ->
  exists s,
    find_session (BatchCases.session_id row) w = Some s /\
    BatchCases.assign_row export_session gid cc row st w
    = (Ok (BatchCases.mkBatchState (BatchCases.t_dest_projects_df st)
             (BatchCases.t_project_info st) (Some rp)
             (BatchCases.t_batch_df st ++ [BatchCases.mkOutcome row true ""])),
       snd (log_export_failure s w1)).
Proof.
  intros Hidx Hnth Hrp Hvalid Hexport.
  destruct (validation_passed _ _ _ _ _ _ _ Hvalid) as [_ [s [rp' [Hfind _]]]].
  exists s. split; [exact Hfind|].
  pose proof (find_session_id _ _ _ Hfind) as Hid.
  pose proof (read_only_validation (BatchCases.session_id row)
                (BatchCases.reader_email row) gid r cc w) as Hro.
  unfold BatchCases.assign_row. cbv zeta.
  unfold bind at 1. unfold sessions_find_first at 1. cbv beta iota. rewrite Hfind.
  rewrite (bind_ok _ _ w w (Some (s, borrowed cc s))).
  2:{ unfold bind, get_session. rewrite Hid, Hfind.
      unfold BatchCases.set_session_features, ret, borrowed. reflexivity. }
  rewrite Hidx.
  rewrite (bind_ok _ _ w w (indx, r_id r, Some rp)).
  2:{ unfold bind, lift, row_at, get_project. rewrite Hnth, Hrp. reflexivity. }
  cbv beta iota.
  rewrite (bind_ok _ _ w w r) by (unfold lift, row_at; now rewrite Hnth).
  assert (Hv : BatchCases.check_valid_case_assignment (BatchCases.session_id row)
                 (BatchCases.reader_email row) gid r cc w = (Ok (true, m), w)).
  { destruct (BatchCases.check_valid_case_assignment _ _ gid r cc w) as [res w0].
    simpl in Hro, Hvalid. now subst w0 res. }
  rewrite (bind_ok _ _ w w (true, m) Hv).
  cbv beta iota. change (negb true) with false. cbv beta iota.
  unfold bind at 1. unfold try_except. unfold bind at 1.
  rewrite (Hexport s Hfind). reflexivity.
Qed.

(** ** The two branches of [assign_single_case] *)

Lemma set_session_features_run (src : Session) (cc : Z) (w : World) :
  SingleCase.set_session_features src cc w
  = (Ok (borrowed cc src), snd (SingleCase.set_session_features src cc w)).
Proof.
  unfold SingleCase.set_session_features, borrowed.
  destruct (s_features src); reflexivity.
Qed.

Lemma stripped_after_borrow (src : Session) (cc : Z) (w : World)
      (sf : SessionFeatures) (x : Session) :
  s_features src = Some sf ->
  In x (sessions (snd (SingleCase.set_session_features src cc w))) ->
  s_id x = s_id src -> s_features x = None.
Proof.
  intros Hsf. unfold SingleCase.set_session_features. rewrite Hsf.
  unfold bind, delete_session_features, map_session. simpl. intros Hin Hid.
  apply in_map_iff in Hin as [y [Ey Hy]]. subst x.
  destruct (String.eqb (s_id y) (s_id src)) eqn:E; [reflexivity|].
  apply String.eqb_neq in E. contradiction.
Qed.

Lemma ids_after_borrow (src : Session) (cc : Z) (w : World) :
  map s_id (sessions (snd (SingleCase.set_session_features src cc w)))
  = map s_id (sessions w).
Proof.
  unfold SingleCase.set_session_features.
  destruct (s_features src); [|reflexivity].
  unfold bind, delete_session_features, map_session. simpl.
  rewrite map_map. apply map_ext. intros y.
  now destruct (String.eqb (s_id y) (s_id src)).
Qed.

(** X10.  An override assignment ("Breaking a Tie", "Individual
    Assignment") stops at its capacity test.  Once the source project and
    the reader frame are read and the platform has returned a project for
    the selection, the call raises pandas' [ValueError] on the truth
    value of a Series: neither "Max assignments reached." nor "Existing
    Session in Destination Project." is raised, nothing is exported, no
    session is created or removed, and a case that carried features is
    left without them. *)
Theorem override_stops_at_the_capacity_test
        (find_or_create_group : string -> string -> M string)
        (get_selected : list string -> M Project)
        (update_info_selected :
           string -> list (list (string * string)) -> list Z -> M unit)
        (src : Session) (gid rid reason : string) (w w0 w1 : World)
        (src_project found reader_proj : Project) (group : string)
        (sdf : list SessionFeatures) (df : list ReaderRow) :
  SingleCase.is_override reason = true ->
  find_project (s_project src) w = Some src_project ->
  find_or_create_group gid "Readers" w = (Ok group, w0) ->
  fst (initialize_dataframes group w0) = Ok (sdf, df) ->
  get_selected (map r_id (Selection.selected rid df)) w0 = (Ok found, w1) ->
  find_project (p_id found) w1 = Some reader_proj ->
  fst (Selection.assign_single_case find_or_create_group get_selected
         update_info_selected src gid rid reason w)
  = Raise Selection.truth_value_error /\
  map s_id (sessions (snd (Selection.assign_single_case find_or_create_group
                             get_selected update_info_selected src gid rid reason w)))
  = map s_id (sessions w1) /\
  forall sf x,
    s_features src = Some sf ->
    In x (sessions (snd (Selection.assign_single_case find_or_create_group
                           get_selected update_info_selected src gid rid reason w))) ->
    s_id x = s_id src -> s_features x = None.
Proof.
  intros Hreason Hproj Hgroup Hinit Hget Hreload.
  assert (Hrun : Selection.assign_single_case find_or_create_group get_selected
                   update_info_selected src gid rid reason w
                 = (Raise Selection.truth_value_error,
                    snd (SingleCase.set_session_features src 3 w1))).
  { unfold Selection.assign_single_case.
    rewrite (bind_ok _ _ w w src_project)
      by (unfold get_project; now rewrite Hproj).
    cbv zeta. rewrite (bind_ok _ _ _ _ _ Hgroup).
    assert (Hdfs : initialize_dataframes group w0 = (Ok (sdf, df), w0)).
    { pose proof (read_only_initialize_dataframes group w0) as Hro.
      destruct (initialize_dataframes group w0) as [res w']. simpl in *.
      now subst. }
    rewrite (bind_ok _ _ _ _ _ Hdfs). cbv beta iota.
    rewrite (bind_ok _ _ _ _ _ Hget).
    rewrite (bind_ok _ _ w1 w1 reader_proj)
      by (unfold get_project; now rewrite Hreload).
    rewrite (bind_ok _ _ _ _ _ (set_session_features_run src 3 w1)).
    rewrite Hreason. reflexivity. }
  rewrite Hrun. cbn [fst snd].
  split; [reflexivity|]. split; [apply ids_after_borrow|].
  intros sf x Hsf Hin Hid. eapply stripped_after_borrow; eauto.
Qed.

Lemma override_stops_at_the_capacity_test_witness :
  fst (initialize_dataframes "readers" Scenario.single_world)
  = Ok ([], Scenario.single_rows) /\
  fst (Selection.assign_single_case Bench.group_found Bench.one_row_get
         Bench.one_row_update (Scenario.case "S1" (Some Scenario.covered))
         "readers" "c@x.org" "Breaking a Tie" Scenario.single_world)
  = Raise Selection.truth_value_error /\
  features_of "S1"
    (snd (Selection.assign_single_case Bench.group_found Bench.one_row_get
            Bench.one_row_update (Scenario.case "S1" (Some Scenario.covered))
            "readers" "c@x.org" "Breaking a Tie" Scenario.single_world))
  = None.
Proof.
  assert (Hinit : fst (initialize_dataframes "readers" Scenario.single_world)
                  = Ok ([], Scenario.single_rows)) by (vm_compute; reflexivity).
  split; [exact Hinit|]. split; [|vm_compute; reflexivity].
  exact (proj1 (override_stops_at_the_capacity_test Bench.group_found
                  Bench.one_row_get Bench.one_row_update
                  (Scenario.case "S1" (Some Scenario.covered)) "readers" "c@x.org"
                  "Breaking a Tie" Scenario.single_world Scenario.single_world
                  Scenario.single_world (Scenario.master (Some (SourceFeatures 2 [])))
                  (Scenario.reader "P3" "c@x.org" [] 5)
                  (Scenario.reader "P3" "c@x.org" [] 5) "readers" []
                  Scenario.single_rows eq_refl eq_refl eq_refl Hinit eq_refl eq_refl)).
Defined.

(** X11.  The reassignment branch, given the reader's project.  When the
    project holds no session with the case's label the branch raises
    "Missing Session in Destination Project." and leaves the sessions as
    they were.  When it does, and the features record an assignment for
    the reader whose destination session carries the reader's notes, the
    branch returns the features with coverage and count unchanged and the
    reader's first assignment reset: status "Assigned", a non-empty
    [read] or [measurements] removed and an empty or absent one left as
    it was, the other assignments untouched; no session is created and no
    features are written; and the reader's notes on the destination
    session are exactly the reason under ["additionalNotes"]. *)
Theorem reassignment_branch_effects
        (src : Session) (rid reason : string) (reader_proj : Project)
        (sf : SessionFeatures) (w : World) :
  (isin (s_label src) (held_by w (p_id reader_proj)) = false ->
   fst (SingleCase.reassign src rid reason reader_proj sf w)
   = Raise (PlainException "Missing Session in Destination Project.") /\
   sessions (snd (SingleCase.reassign src rid reason reader_proj sf w))
   = sessions w) /\
  (isin (s_label src) (held_by w (p_id reader_proj)) = true ->
   forall a others d notes,
     filter (SingleCase.for_reader rid) (assignments sf) = a :: others ->
     find_session (a_session_id a) w = Some d ->
     notes_of (SingleCase.replace_dots rid) d = Some notes ->
     exists sf' pre post a',
       fst (SingleCase.reassign src rid reason reader_proj sf w) = Ok sf' /\
       case_coverage sf' = case_coverage sf /\
       assigned_count sf' = assigned_count sf /\
       assignments sf = pre ++ a :: post /\
       assignments sf' = pre ++ a' :: post /\
       a_status a' = "Assigned" /\
       a_project_id a' = a_project_id a /\
       a_reader_id a' = rid /\
       a_session_id a' = a_session_id a /\
       (SingleCase.truthy (a_read a) = true -> a_read a' = None) /\
       (SingleCase.truthy (a_read a) = false -> a_read a' = a_read a) /\
       (SingleCase.truthy (a_measurements a) = true -> a_measurements a' = None) /\
       (SingleCase.truthy (a_measurements a) = false ->
        a_measurements a' = a_measurements a) /\
       map s_id (sessions (snd (SingleCase.reassign src rid reason reader_proj sf w)))
       = map s_id (sessions w) /\
       map s_features
           (sessions (snd (SingleCase.reassign src rid reason reader_proj sf w)))
       = map s_features (sessions w) /\
       forall s,
         In s (sessions (snd (SingleCase.reassign src rid reason reader_proj sf w))) ->
         s_id s = a_session_id a ->
         notes_of (SingleCase.replace_dots rid) s
         = Some [("additionalNotes", reason)]).
Proof.
  split.
  - intros Hmiss. split; [now apply reassign_missing|].
    unfold SingleCase.reassign, bind, project_sessions. simpl.
    unfold SingleCase.session_labels. fold (held_by w (p_id reader_proj)).
    rewrite Hmiss. reflexivity.
  - intros Hheld a others d notes Hfil Hfind Hnotes.
    unfold notes_of in Hnotes.
    destruct (s_ohif_read d) as [reads|] eqn:Hreads; [|discriminate].
    assert (Hkey : existsb (SingleCase.has_key (SingleCase.replace_dots rid)) reads
                   = true).
    { destruct (find (SingleCase.has_key (SingleCase.replace_dots rid)) reads)
        as [kv|] eqn:Ef; [|discriminate].
      apply find_some in Ef as [Hkv Hk]. apply existsb_exists. now exists kv. }
    rewrite (reassign_found src rid reason reader_proj sf w a others d reads
               Hheld Hfil Hfind Hreads Hkey).
    cbn [fst snd].
    destruct (update_first_split (SingleCase.for_reader rid)
                SingleCase.reset_assignment _ a others Hfil)
      as [pre [post [Hl [Hu [_ Ha]]]]].
    destruct (reset_assignment_spec a) as [R1 [R2 [R3 [R4 [R5 [R6 [R7 R8]]]]]]].
    unfold SingleCase.for_reader in Ha. apply String.eqb_eq in Ha.
    eexists _, pre, post, (SingleCase.reset_assignment a).
    split; [reflexivity|]. cbn [case_coverage assigned_count assignments].
    split; [reflexivity|]. split; [reflexivity|].
    split; [exact Hl|]. split; [exact Hu|].
    split; [exact R1|]. split; [exact R2|].
    split; [now rewrite R3|]. split; [exact R4|].
    split; [exact R5|]. split; [exact R6|]. split; [exact R7|]. split; [exact R8|].
    unfold update_ohif_read, map_session. cbn [fst snd sessions].
    rewrite !map_map.
    split; [|split].
    + apply map_ext. intros s.
      now destruct (String.eqb (s_id s) (a_session_id a)).
    + apply map_ext. intros s.
      now destruct (String.eqb (s_id s) (a_session_id a)).
    + intros s Hs Hid. apply in_map_iff in Hs as [s0 [Es Hs0]]. subst s.
      assert (Hs0id : s_id s0 = a_session_id a).
      { destruct (String.eqb (s_id s0) (a_session_id a)); exact Hid. }
      rewrite Hs0id, String.eqb_refl. unfold notes_of. simpl.
      rewrite find_update_first by (intros x Hx; exact Hx).
      destruct (find (SingleCase.has_key (SingleCase.replace_dots rid)) reads)
        as [kv|] eqn:Ef; [reflexivity|].
      exfalso. apply existsb_exists in Hkey as [kv [Hkv Hk]].
      eapply find_none in Ef; [|exact Hkv]. congruence.
Qed.

(** The branch on an empty payload: the reader's assignment is
    "Diagnosed" with a [read] object and an empty [measurements] object;
    the features the branch returns have status "Assigned" and no [read],
    and the [measurements] key is still there. *)
Lemma empty_payload_is_left_in_place :
  map (fun a => (a_reader_id a, a_status a, a_read a, a_measurements a))
      (assignments Scenario.opened)
  = [("a@x.org", "Diagnosed", Some [("tear", "full")], Some [])] /\
  match fst (SingleCase.reassign (Scenario.case "S1" (Some Scenario.opened))
               "a@x.org" "Please measure again"
               (Scenario.reader "P1" "a@x.org" [("S1", "S1@P1")] 5)
               Scenario.opened Scenario.opened_world) with
  | Ok sf => map (fun a => (a_reader_id a, a_status a, a_read a, a_measurements a))
                 (assignments sf)
             = [("a@x.org", "Assigned", None, Some [])]
  | Raise _ => False
  end.
Proof. split; vm_compute; reflexivity. Qed.

Lemma reassignment_branch_effects_witness :
  fst (SingleCase.reassign (Scenario.case "S1" (Some Scenario.covered))
         "c@x.org" "Please measure again" (Scenario.reader "P3" "c@x.org" [] 5)
         Scenario.covered Scenario.single_world)
  = Raise (PlainException "Missing Session in Destination Project.") /\
  exists sf',
    fst (SingleCase.reassign (Scenario.case "S1" (Some Scenario.covered))
           "a@x.org" "Please measure again"
           (Scenario.reader "P1" "a@x.org" [("S1", "S1@P1")] 5)
           Scenario.covered Scenario.single_world)
    = Ok sf' /\
    case_coverage sf' = 2 /\ assigned_count sf' = 2.
Proof.
  pose proof (reassignment_branch_effects (Scenario.case "S1" (Some Scenario.covered))
                "c@x.org" "Please measure again"
                (Scenario.reader "P3" "c@x.org" [] 5)
                Scenario.covered Scenario.single_world) as [Hmiss _].
  pose proof (reassignment_branch_effects (Scenario.case "S1" (Some Scenario.covered))
                "a@x.org" "Please measure again"
                (Scenario.reader "P1" "a@x.org" [("S1", "S1@P1")] 5)
                Scenario.covered Scenario.single_world) as [_ Hheld].
  destruct (Hheld eq_refl
              (Scenario.assigned_to "P1" "a@x.org" "S1@P1" "Measured"
                 (Some [("tear", "full")]) (Some [("length", "12")]))
              [] (Scenario.copy "S1" "P1" "a@x.org"
                    [("additionalNotes", "ok"); ("other", "x")])
              [("additionalNotes", "ok"); ("other", "x")]
              eq_refl eq_refl eq_refl)
    as [sf' [pre [post [a' [Hok [Hcc [Hcount _]]]]]]].
  split; [exact (proj1 (Hmiss eq_refl))|].
  exists sf'. split; [exact Hok|]. split; [exact Hcc | exact Hcount].
Defined.

(** ** StateSnapshot: what the frame holds *)

Lemma reader_row_reflects (w : World) (p0 p : Project) (row : ReaderRow) :
  find_project (p_id p0) w = Some p ->
  reader_row p (len (filter (fun s => String.eqb (s_project s) (p_id p)) (sessions w)))
  = Ok row ->
  r_id row = p_id p0 /\ row_reflects w row.
Proof.
  intros Hfind Hrow. pose proof (find_project_id _ _ _ Hfind) as Hid.
  unfold reader_row in Hrow.
  destruct (p_features p) as [pf|] eqn:Hpf; [|discriminate].
  destruct (first_contributor (p_permissions p)) as [rid|e] eqn:Hc; [|discriminate].
  destruct pf as [asg mx|]; [|discriminate].
  injection Hrow as <-. simpl. split; [exact Hid|].
  exists p. simpl. rewrite Hid. repeat split; auto.
  unfold held_by, len. now rewrite length_map.
Qed.

Lemma frame_rows (w : World) (ps : list Project) :
  forall (acc df : list ReaderRow),
    fst (for_each ps
           (fun reader_proj df =>
              bind (get_project (p_id reader_proj))
                (fun reader_proj =>
                   bind (project_sessions (p_id reader_proj))
                     (fun proj_sessions =>
                        bind (lift (reader_row reader_proj (len proj_sessions)))
                          (fun row => ret (df ++ [row])))))
           acc w) = Ok df ->
    exists rows,
      df = acc ++ rows /\ map r_id rows = map p_id ps /\ Forall (row_reflects w) rows.
Proof.
  induction ps as [|p0 ps IH]; intros acc df H; cbn [for_each] in H.
  - injection H as <-. exists []. rewrite app_nil_r. auto.
  - unfold bind at 1 in H. unfold bind at 1 in H. unfold get_project at 1 in H.
    destruct (find_project (p_id p0) w) as [p|] eqn:Hfind; [|discriminate].
    unfold bind at 1 in H. unfold project_sessions at 1 in H. cbv beta iota in H.
    unfold bind at 1 in H. unfold lift at 1 in H.
    destruct (reader_row p _) as [row|e] eqn:Hrow; [|discriminate].
    unfold ret at 1 in H.
    destruct (reader_row_reflects w p0 p row Hfind Hrow) as [Hid Hre].
    destruct (IH _ _ H) as [rows [Hdf [Hids Hall]]].
    exists (row :: rows). rewrite Hdf, <- app_assoc. simpl.
    rewrite Hid, Hids. auto.
Qed.

Lemma snapshot_rows (gid : string) (w : World) (sdf : list SessionFeatures)
      (df : list ReaderRow) :
  fst (initialize_dataframes gid w) = Ok (sdf, df) ->
  sdf = [] /\
  map r_id df = map p_id (filter (fun p => String.eqb (p_group p) gid) (projects w)) /\
  Forall (row_reflects w) df.
Proof.
  intros H. unfold initialize_dataframes in H.
  unfold bind at 1 in H. unfold projects_find_group at 1 in H. cbv beta iota in H.
  unfold bind at 1 in H.
  match type of H with
  | context [for_each ?ps ?body ?acc w] =>
    pose proof (frame_rows w ps acc) as Hrows;
    destruct (for_each ps body acc w) as [[df'|e] w'] eqn:E; [|discriminate]
  end.
  simpl in H. injection H as <- <-.
  destruct (Hrows df' eq_refl) as [rows [-> [Hids Hall]]]. auto.
Qed.

(** X12.  The snapshot reads and never writes; when it succeeds the
    source frame is empty and the reader frame has one row per project
    of the reader group, in their order, each row carrying what the
    platform holds for its project id: the label, the first contributor
    as reader, the assignments and [max_cases] of the project's features,
    and the number of sessions of the project as [num_assignments]. *)
Theorem snapshot_reflects_the_reader_group (gid : string) (w : World) :
  snd (initialize_dataframes gid w) = w /\
  forall sdf df,
    fst (initialize_dataframes gid w) = Ok (sdf, df) ->
    sdf = [] /\
    map r_id df
    = map p_id (filter (fun p => String.eqb (p_group p) gid) (projects w)) /\
    Forall (row_reflects w) df.
Proof.
  split; [apply read_only_initialize_dataframes|].
  intros sdf df. apply snapshot_rows.
Qed.

Lemma id_names_one_reader_project (w : World) (p q : Project) :
  NoDup (map p_id (projects w)) ->
  find_project (p_id q) w = Some p -> In q (projects w) -> q = p.
Proof.
  unfold find_project. intros Hnd Hfind Hq. apply find_some in Hfind as [Hp E].
  apply String.eqb_eq in E. revert Hnd Hp Hq E.
  induction (projects w) as [|z l IH]; simpl; intros Hl Hp Hq E; [contradiction|].
  apply NoDup_cons_iff in Hl as [Hfresh Hl].
  destruct Hp as [->|Hp], Hq as [->|Hq]; auto.
  - exfalso. apply Hfresh. rewrite E. now apply in_map.
  - exfalso. apply Hfresh. rewrite <- E. now apply in_map.
Qed.

Lemma same_features_written_back (w : World) (row : ReaderRow) :
  NoDup (map p_id (projects w)) ->
  row_reflects w row ->
  bind (get_project (r_id row))
       (fun reader_proj =>
          update_project_features (p_id reader_proj)
            (ReaderFeatures (r_assignments row) (max_cases row))) w
  = (Ok tt, w).
Proof.
  intros Hnd [p [Hfind [_ [_ [Hpf _]]]]].
  unfold bind, get_project. rewrite Hfind. unfold update_project_features.
  f_equal. destruct w as [ss ps lg rg]. simpl in *. f_equal.
  rewrite <- (map_id ps) at 2. apply map_ext_in. intros q Hq.
  destruct (String.eqb (p_id q) (p_id p)) eqn:E; [|reflexivity].
  apply String.eqb_eq in E.
  assert (Hfind' : find_project (p_id q) (mkWorld ss ps lg rg) = Some p).
  { rewrite E, (find_project_id _ _ _ Hfind). exact Hfind. }
  assert (q = p)
    by exact (id_names_one_reader_project (mkWorld ss ps lg rg) p q Hnd Hfind' Hq).
  subst q.
  destruct p; simpl in *. now rewrite Hpf.
Qed.

(** X17.  Writing back a frame nobody touched changes nothing: on a
    platform with one project per id, [update_reader_projects] applied to
    the frame the snapshot has just returned succeeds and leaves the
    state as it was. *)
Theorem untouched_frame_is_written_back_unchanged (gid : string) (w : World)
        (sdf : list SessionFeatures) (df : list ReaderRow) :
  NoDup (map p_id (projects w)) ->
  fst (initialize_dataframes gid w) = Ok (sdf, df) ->
  update_reader_projects df w = (Ok tt, w).
Proof.
  intros Hnd H. destruct (snapshot_rows gid w sdf df H) as [_ [_ Hall]].
  unfold update_reader_projects. clear H.
  induction Hall as [|row rows Hrow _ IH]; [reflexivity|].
  cbn [for_each]. rewrite (bind_ok _ _ _ _ _ (same_features_written_back w row Hnd Hrow)).
  exact IH.
Qed.

Lemma untouched_frame_is_written_back_unchanged_witness :
  NoDup (map p_id (projects Scenario.single_world)) /\
  fst (initialize_dataframes "readers" Scenario.single_world)
  = Ok ([], Scenario.single_rows) /\
  update_reader_projects Scenario.single_rows Scenario.single_world
  = (Ok tt, Scenario.single_world).
Proof.
  assert (Hnd : NoDup (map p_id (projects Scenario.single_world))).
  { simpl. repeat constructor; simpl; intuition discriminate. }
  assert (Hinit : fst (initialize_dataframes "readers" Scenario.single_world)
                  = Ok ([], Scenario.single_rows)) by (vm_compute; reflexivity).
  split; [exact Hnd|]. split; [exact Hinit|].
  exact (untouched_frame_is_written_back_unchanged "readers" Scenario.single_world
           [] Scenario.single_rows Hnd Hinit).
Defined.

(** ** Reader projects' metadata *)

Section MetadataFacts.

Variable Rest : Type.

Lemma id_names_one_project (store : Readers.Store Rest) :
  NoDup (map Readers.rp_id store) ->
  forall p q, In p store -> In q store -> Readers.rp_id p = Readers.rp_id q -> p = q.
Proof.
  induction store as [|z l IH]; simpl; intros Hl p q Hp Hq E; [contradiction|].
  apply NoDup_cons_iff in Hl as [Hfresh Hl].
  destruct Hp as [->|Hp], Hq as [->|Hq]; auto.
  - exfalso. apply Hfresh. rewrite E. now apply in_map.
  - exfalso. apply Hfresh. rewrite <- E. now apply in_map.
Qed.

Lemma update_info_one (store : Readers.Store Rest) (rp : Readers.ReaderProject Rest)
      (info : option (Readers.Features Rest)) :
  NoDup (map Readers.rp_id store) ->
  In rp store ->
  Forall (Readers.holds_its_sessions Rest) store ->
  Readers.rp_sessions rp
  <= Readers.project_max_cases Rest
       (Readers.mkReaderProject (Readers.rp_id rp) (Readers.rp_label rp)
          (Readers.rp_permissions rp) info (Readers.rp_sessions rp)) ->
  option_map Readers.f_rest info = option_map Readers.f_rest (Readers.rp_features rp) ->
  Forall (Readers.holds_its_sessions Rest)
         (Readers.update_info Rest (Readers.rp_id rp) info store) /\
  map (Readers.apart_from_max_cases Rest)
      (Readers.update_info Rest (Readers.rp_id rp) info store)
  = map (Readers.apart_from_max_cases Rest) store.
Proof.
  intros Hnd Hin Hall Hroom Hrest. unfold Readers.update_info. split.
  - apply Forall_forall. intros p Hp. apply in_map_iff in Hp as [q [Eq Hq]]. subst p.
    destruct (String.eqb (Readers.rp_id q) (Readers.rp_id rp)) eqn:E.
    + apply String.eqb_eq in E.
      assert (q = rp) by (eapply id_names_one_project; eauto). subst q. exact Hroom.
    + rewrite Forall_forall in Hall. now apply Hall.
  - rewrite map_map. apply map_ext_in. intros q Hq.
    destruct (String.eqb (Readers.rp_id q) (Readers.rp_id rp)) eqn:E; [|reflexivity].
    apply String.eqb_eq in E.
    assert (q = rp) by (eapply id_names_one_project; eauto). subst q.
    unfold Readers.apart_from_max_cases. simpl. now rewrite Hrest.
Qed.

Lemma update_reader_keeps_room (group_projects : list (Readers.ReaderProject Rest))
      (row : Readers.ReaderDef) (store store' : Readers.Store Rest) (r : result unit) :
  NoDup (map Readers.rp_id store) ->
  Forall (Readers.holds_its_sessions Rest) store ->
  Readers.update_reader Rest group_projects row store = (r, store') ->
  Forall (Readers.holds_its_sessions Rest) store' /\
  map (Readers.apart_from_max_cases Rest) store'
  = map (Readers.apart_from_max_cases Rest) store.
Proof.
  intros Hnd Hall H. unfold Readers.update_reader in H.
  destruct (filter _ group_projects) as [|proj ps]; [injection H as _ <-; auto|].
  destruct (find _ store) as [rp|] eqn:Hfind; [|injection H as _ <-; auto].
  apply find_some in Hfind as [Hin Hid]. clear Hid.
  assert (Hrp : Readers.holds_its_sessions Rest rp)
    by (rewrite Forall_forall in Hall; now apply Hall).
  unfold Readers.holds_its_sessions in Hrp.
  cbv zeta in H.
  set (pm := Readers.project_max_cases Rest rp) in *.
  set (csv := Readers.csv_max_cases row) in *.
  assert (Hval : forall v, (if v =? 0 then 0 else v) = v).
  { intros v. destruct (v =? 0) eqn:E; [apply Z.eqb_eq in E; now subst|reflexivity]. }
  destruct (pm <? csv) eqn:E1.
  - apply Z.ltb_lt in E1. unfold Readers.set_max_cases in H.
    destruct (Readers.rp_features rp) as [f|] eqn:Hf; [|injection H as _ <-; auto].
    destruct (Readers.int_is_not csv pm); [|injection H as _ <-; auto].
    injection H as _ <-. apply update_info_one; auto.
    + unfold Readers.project_max_cases. simpl. rewrite Hval. lia.
    + now rewrite Hf.
  - destruct (csv <? pm) eqn:E2.
    + unfold Readers.set_max_cases in H.
      destruct (Readers.rp_features rp) as [f|] eqn:Hf; [|injection H as _ <-; auto].
      destruct (Readers.int_is_not csv pm); [|injection H as _ <-; auto].
      injection H as _ <-. apply update_info_one; auto.
      * unfold Readers.project_max_cases. simpl. rewrite Hval. lia.
      * now rewrite Hf.
    + destruct (Readers.int_is_not csv pm); [|injection H as _ <-; auto].
      injection H as _ <-. apply update_info_one; auto.
Qed.

Lemma update_readers_keeps_room (group_projects : list (Readers.ReaderProject Rest))
      (ids : list string) (readers_df : list Readers.ReaderDef) :
  forall (store store' : Readers.Store Rest) (r : result unit),
    NoDup (map Readers.rp_id store) ->
    Forall (Readers.holds_its_sessions Rest) store ->
    Readers.update_readers Rest group_projects ids readers_df store = (r, store') ->
    Forall (Readers.holds_its_sessions Rest) store' /\
    map (Readers.apart_from_max_cases Rest) store'
    = map (Readers.apart_from_max_cases Rest) store.
Proof.
  induction readers_df as [|row rest IH]; intros store store' r Hnd Hall H;
    cbn [Readers.update_readers] in H.
  - injection H as _ <-. auto.
  - destruct (negb (isin (Readers.email row) ids)); [eapply IH; eauto|].
    destruct (Readers.update_reader Rest group_projects row store) as [[u|e] store1]
      eqn:E.
    + destruct (update_reader_keeps_room _ _ _ _ _ Hnd Hall E) as [Hall1 Hsame1].
      assert (Hnd1 : NoDup (map Readers.rp_id store1)).
      { replace (map Readers.rp_id store1) with (map Readers.rp_id store); [exact Hnd|].
        transitivity (map (fun t : string * string * list (string * bool)
                                   * option Rest * Z =>
                             fst (fst (fst (fst t))))
                          (map (Readers.apart_from_max_cases Rest) store)).
        - now rewrite map_map.
        - rewrite <- Hsame1. now rewrite map_map. }
      destruct (IH _ _ _ Hnd1 Hall1 H) as [Hall2 Hsame2].
      split; [exact Hall2 | now rewrite Hsame2].
    + injection H as _ <-. eapply update_reader_keeps_room; eauto.
Qed.

Lemma characters_length (s x : string) :
  In x (Readers.characters s) -> String.length x = 1%nat.
Proof.
  induction s as [|c s IH]; simpl; [contradiction|].
  intros [<-|H]; [reflexivity | now apply IH].
Qed.

Lemma extended_ids_are_characters (group_projects : list (Readers.ReaderProject Rest))
      (x : string) :
  In x (Readers.extended_reader_ids Rest group_projects) -> String.length x = 1%nat.
Proof.
  unfold Readers.extended_reader_ids. intros H.
  apply in_flat_map in H as [proj [_ H]]. apply in_flat_map in H as [perm [_ H]].
  destruct (snd perm); [|contradiction]. eapply characters_length; eauto.
Qed.

Lemma not_among_extended_ids (group_projects : list (Readers.ReaderProject Rest))
      (x : string) :
  String.length x <> 1%nat ->
  isin x (Readers.extended_reader_ids Rest group_projects) = false.
Proof.
  intros Hx. destruct (isin x _) eqn:E; [|reflexivity].
  apply isin_In in E. apply extended_ids_are_characters in E. contradiction.
Qed.

End MetadataFacts.

(** X13.  Updating the reader projects from the readers table changes
    nothing but [max_cases]: ids, labels, permissions, session counts and
    the other keys of the features stay.  And it keeps room for the
    sessions held: if every project of a store with one project per id
    had [max_cases] (0 when missing) at least its number of sessions,
    so it has afterwards, whether the update returns or raises. *)
Theorem metadata_update_keeps_room (Rest : Type)
        (group_projects : list (Readers.ReaderProject Rest))
        (readers_df : list Readers.ReaderDef)
        (store store' : Readers.Store Rest) (r : result unit) :
  NoDup (map Readers.rp_id store) ->
  Forall (Readers.holds_its_sessions Rest) store ->
  Readers.update_reader_projects_metadata Rest group_projects readers_df store
  = (r, store') ->
  Forall (Readers.holds_its_sessions Rest) store' /\
  map (Readers.apart_from_max_cases Rest) store'
  = map (Readers.apart_from_max_cases Rest) store.
Proof.
  intros Hnd Hall H. unfold Readers.update_reader_projects_metadata in H.
  destruct (BatchCases.all_ok _ group_projects) as [ids|e].
  - eapply update_readers_keeps_room; eauto.
  - injection H as _ <-. auto.
Qed.

(** X14.  In the gear [assign_readers] the reader ids are collected with
    [list.extend] on each id, which adds its characters one by one: a
    reader whose email is not a single character is never found among
    them, so for a table of such readers the update returns normally and
    leaves every project as it was. *)
Theorem extend_by_characters_updates_nobody (Rest : Type)
        (group_projects : list (Readers.ReaderProject Rest))
        (readers_df : list Readers.ReaderDef) (store : Readers.Store Rest) :
  Forall (fun row => String.length (Readers.email row) <> 1%nat) readers_df ->
  Readers.update_reader_projects_metadata_by_extend Rest group_projects readers_df store
  = (Ok tt, store).
Proof.
  unfold Readers.update_reader_projects_metadata_by_extend.
  induction readers_df as [|row rest IH]; intros Hall; [reflexivity|].
  apply Forall_cons_iff in Hall as [Hrow Hall].
  cbn [Readers.update_readers].
  rewrite (not_among_extended_ids Rest group_projects _ Hrow). simpl. now apply IH.
Qed.

(** X15.  For the same reason [instantiate_new_readers] of the gear
    [assign_readers] returns, once the new users are added, every reader
    of a table whose emails are not single characters, with their
    capacities and in the table's order, whether or not a project exists
    for them; it fails only where adding a user fails. *)
Theorem every_reader_is_instantiated (Rest : Type)
        (add_user : Readers.User -> list Readers.User -> result (list Readers.User))
        (users : list Readers.User)
        (group_projects : list (Readers.ReaderProject Rest))
        (readers_df : list Readers.ReaderDef) :
  Forall (fun row => String.length (Readers.email row) <> 1%nat) readers_df ->
  Readers.instantiate_new_readers Rest add_user users group_projects readers_df
  = match Readers.add_users add_user
            (filter (fun row => negb (isin (Readers.email row)
                                           (map Readers.u_id users))) readers_df)
            users with
    | (Ok _, users') =>
      (Ok (map (fun row => (Readers.email row, Readers.csv_max_cases row)) readers_df),
       users')
    | (Raise e, users') => (Raise e, users')
    end.
Proof.
  intros Hall. unfold Readers.instantiate_new_readers.
  destruct (Readers.add_users _ _ _) as [[u|e] users']; [|reflexivity].
  do 3 f_equal. induction readers_df as [|row rest IH]; [reflexivity|].
  apply Forall_cons_iff in Hall as [Hrow Hall]. simpl.
  rewrite (not_among_extended_ids Rest group_projects _ Hrow). simpl.
  f_equal. now apply IH.
Qed.

(** X16.  A reader whose project carries no [project_features] cannot be
    given a capacity: when the first reader of the table has such a
    project and the table asks for a capacity other than 0, the update
    ends in [KeyError] on that key and nothing is written. *)
Theorem project_without_features_stops_the_update (Rest : Type)
        (group_projects : list (Readers.ReaderProject Rest))
        (row : Readers.ReaderDef) (rest : list Readers.ReaderDef)
        (store : Readers.Store Rest) (ids : list string)
        (proj : Readers.ReaderProject Rest) (others : list (Readers.ReaderProject Rest))
        (reader_project : Readers.ReaderProject Rest) :
  BatchCases.all_ok (fun proj => first_contributor (Readers.rp_permissions proj))
                    group_projects = Ok ids ->
  isin (Readers.email row) ids = true ->
  filter (fun proj => isin (Readers.email row) (map fst (Readers.rp_permissions proj)))
         group_projects = proj :: others ->
  find (fun p => String.eqb (Readers.rp_id p) (Readers.rp_id proj)) store
  = Some reader_project ->
  Readers.rp_features reader_project = None ->
  Readers.csv_max_cases row <> 0 ->
  Readers.update_reader_projects_metadata Rest group_projects (row :: rest) store
  = (Raise (KeyError "project_features"), store).
Proof.
  intros Hids Hin Hproj Hfind Hnone Hcsv.
  unfold Readers.update_reader_projects_metadata. rewrite Hids.
  cbn [Readers.update_readers]. rewrite Hin. cbn [negb].
  unfold Readers.update_reader. rewrite Hproj, Hfind. cbv zeta.
  unfold Readers.project_max_cases. rewrite Hnone.
  destruct (0 <? Readers.csv_max_cases row) eqn:E1; [reflexivity|].
  destruct (Readers.csv_max_cases row <? 0) eqn:E2; [reflexivity|].
  apply Z.ltb_ge in E1, E2. lia.
Qed.

(** ** The properties on the scenarios *)

Lemma upsert_keeps_one_entry_per_case_witness :
  NoDup (map at_id [Bench.summary "S1" 0; Bench.summary "S2" 1]) /\
  upsert_case_state (Bench.summary "S1" 2) [Bench.summary "S1" 0; Bench.summary "S2" 1]
  = [Bench.summary "S2" 1; Bench.summary "S1" 2].
Proof.
  assert (Hnd : NoDup (map at_id [Bench.summary "S1" 0; Bench.summary "S2" 1])).
  { simpl. repeat constructor; simpl; intuition discriminate. }
  split; [exact Hnd|].
  exact (proj1 (upsert_keeps_one_entry_per_case (Bench.summary "S1" 2)
                  [Bench.summary "S1" 0; Bench.summary "S2" 1] Hnd)).
Defined.

Lemma full_coverage_selects_nobody_witness :
  avail Scenario.covered = 0 /\
  fst (select_readers_without_replacement Scenario.covered Scenario.single_rows
                                          [3%nat])
  = Ok [].
Proof.
  split; [reflexivity|].
  exact (full_coverage_selects_nobody Scenario.covered Scenario.single_rows [3%nat]
           eq_refl).
Defined.

Lemma covered_case_is_left_alone_witness :
  NoDup (map s_id (sessions Scenario.single_world)) /\
  exists attrs,
    set_project_session_attributes
      (with_id_label (Scenario.case "S1" (Some Scenario.covered)) Scenario.covered)
    = Ok attrs /\
    fst (SingleCase.distribute_case (Scenario.copy_export []) 2
           (Scenario.case "S1" (Some Scenario.covered)) Bench.single_state
           Scenario.single_world)
    = Ok (SingleCase.mkBulkState Scenario.single_rows
            [with_id_label (Scenario.case "S1" (Some Scenario.covered))
                           Scenario.covered]
            (SourceFeatures 2 (upsert_case_state attrs []))
            None) /\
    sessions (snd (SingleCase.distribute_case (Scenario.copy_export []) 2
                     (Scenario.case "S1" (Some Scenario.covered)) Bench.single_state
                     Scenario.single_world))
    = sessions Scenario.single_world /\
    projects (snd (SingleCase.distribute_case (Scenario.copy_export []) 2
                     (Scenario.case "S1" (Some Scenario.covered)) Bench.single_state
                     Scenario.single_world))
    = projects Scenario.single_world /\
    w_log (snd (SingleCase.distribute_case (Scenario.copy_export []) 2
                  (Scenario.case "S1" (Some Scenario.covered)) Bench.single_state
                  Scenario.single_world))
    = w_log Scenario.single_world.
Proof.
  assert (Hnd : NoDup (map s_id (sessions Scenario.single_world))).
  { simpl. repeat constructor; simpl; intuition discriminate. }
  split; [exact Hnd|].
  exact (covered_case_is_left_alone (Scenario.copy_export []) 2
           (Scenario.case "S1" (Some Scenario.covered)) Bench.single_state
           Scenario.single_world (Scenario.case "S1" (Some Scenario.covered))
           Scenario.covered 2 [] Hnd eq_refl eq_refl eq_refl eq_refl).
Defined.

Lemma second_run_assigns_nobody_witness :
  NoDup (map s_id (sessions Scenario.single_world)) /\
  sessions (snd (SingleCase.distribute_cases_to_readers (Scenario.copy_export [])
                   (Scenario.master (Some (SourceFeatures 2 []))) "readers" 2
                   Scenario.single_world))
  = sessions Scenario.single_world /\
  fst (SingleCase.distribute_cases_to_readers (Scenario.copy_export [])
         (Scenario.master (Some (SourceFeatures 2 []))) "readers" 2
         Scenario.single_world)
  = Ok ([with_id_label (Scenario.case "S1" (Some Scenario.covered)) Scenario.covered],
        Scenario.single_rows).
Proof.
  assert (Hnd : NoDup (map s_id (sessions Scenario.single_world))).
  { simpl. repeat constructor; simpl; intuition discriminate. }
  assert (Hall : forall x, In x (sessions Scenario.single_world) ->
                           s_project x = p_id (Scenario.master
                                                 (Some (SourceFeatures 2 []))) ->
                           exists sf, s_features x = Some sf /\ avail sf = 0).
  { intros x [<-|[<-|[<-|[<-|[]]]]] E; try discriminate E.
    exists Scenario.covered. split; reflexivity. }
  split; [exact Hnd|].
  split; [| vm_compute; reflexivity].
  exact (proj1 (second_run_assigns_nobody (Scenario.copy_export [])
                  (Scenario.master (Some (SourceFeatures 2 []))) "readers" 2
                  Scenario.single_world Hnd Hall)).
Defined.

Lemma failed_export_leaves_batch_books_alone_witness :
  fst (BatchCases.check_valid_case_assignment "S1" "a@x.org" Scenario.readers
         (mkReaderRow "P1" "Reader P1" "a@x.org" [] 5 0) 2 Scenario.batch_world)
  = Ok (true, BatchCases.msg_passed) /\
  exists s,
    find_session "S1" Scenario.batch_world = Some s /\
    BatchCases.assign_row (Scenario.copy_export [("S1", "P1")]) Scenario.readers 2
      (BatchCases.mkBatchRow "S1" "case S1" "a@x.org") Bench.batch_state
      Scenario.batch_world
    = (Ok (BatchCases.mkBatchState Bench.idle_rows None
             (Some (Scenario.reader "P1" "a@x.org" [] 5))
             [BatchCases.mkOutcome (BatchCases.mkBatchRow "S1" "case S1" "a@x.org")
                                   true ""]),
       snd (log_export_failure s Scenario.batch_world)).
Proof.
  assert (Hv : fst (BatchCases.check_valid_case_assignment "S1" "a@x.org"
                      Scenario.readers (mkReaderRow "P1" "Reader P1" "a@x.org" [] 5 0) 2 Scenario.batch_world)
               = Ok (true, BatchCases.msg_passed)) by (vm_compute; reflexivity).
  split; [exact Hv|].
  refine (failed_export_leaves_batch_books_alone
            (Scenario.copy_export [("S1", "P1")]) Scenario.readers 2
            (BatchCases.mkBatchRow "S1" "case S1" "a@x.org") Bench.batch_state
            Scenario.batch_world Scenario.batch_world 0%nat (mkReaderRow "P1" "Reader P1" "a@x.org" [] 5 0)
            (Scenario.reader "P1" "a@x.org" [] 5) BatchCases.msg_passed ExportFailure
            eq_refl eq_refl eq_refl Hv _).
  intros s Hs. vm_compute in Hs. injection Hs as <-. reflexivity.
Defined.

Lemma metadata_update_keeps_room_witness :
  NoDup (map Readers.rp_id Bench.desks) /\
  Forall (Readers.holds_its_sessions (list string)) Bench.desks /\
  Readers.update_reader_projects_metadata (list string) Bench.desks Bench.csv Bench.desks
  = (Ok tt, [Bench.desk "P1" "a@x.org" (Bench.capacity 3) 3;
             Bench.desk "P2" "b@x.org" (Bench.capacity 4) 1]) /\
  Forall (Readers.holds_its_sessions (list string))
         [Bench.desk "P1" "a@x.org" (Bench.capacity 3) 3;
          Bench.desk "P2" "b@x.org" (Bench.capacity 4) 1].
Proof.
  assert (Hnd : NoDup (map Readers.rp_id Bench.desks)).
  { simpl. repeat constructor; simpl; intuition discriminate. }
  assert (Hall : Forall (Readers.holds_its_sessions (list string)) Bench.desks).
  { repeat constructor; vm_compute; discriminate. }
  split; [exact Hnd|]. split; [exact Hall|]. split; [reflexivity|].
  exact (proj1 (metadata_update_keeps_room (list string) Bench.desks Bench.csv Bench.desks
                  [Bench.desk "P1" "a@x.org" (Bench.capacity 3) 3;
                   Bench.desk "P2" "b@x.org" (Bench.capacity 4) 1]
                  (Ok tt) Hnd Hall eq_refl)).
Defined.

Lemma extend_by_characters_updates_nobody_witness :
  Forall (fun row => String.length (Readers.email row) <> 1%nat) Bench.csv /\
  Readers.update_reader_projects_metadata_by_extend (list string) Bench.desks Bench.csv
                                                    Bench.desks
  = (Ok tt, Bench.desks).
Proof.
  assert (Hall : Forall (fun row => String.length (Readers.email row) <> 1%nat)
                        Bench.csv).
  { repeat constructor; simpl; discriminate. }
  split; [exact Hall|].
  exact (extend_by_characters_updates_nobody (list string) Bench.desks Bench.csv
           Bench.desks Hall).
Defined.

Lemma every_reader_is_instantiated_witness :
  Forall (fun row => String.length (Readers.email row) <> 1%nat) Bench.csv /\
  Readers.instantiate_new_readers (list string) Bench.always_add
    [Readers.mkUser "a@x.org" "a@x.org" "Ada" "A"] Bench.desks Bench.csv
  = (Ok [("a@x.org", 2); ("b@x.org", 4)],
     [Readers.mkUser "a@x.org" "a@x.org" "Ada" "A";
      Readers.mkUser "b@x.org" "b@x.org" "Bo" "B"]).
Proof.
  assert (Hall : Forall (fun row => String.length (Readers.email row) <> 1%nat)
                        Bench.csv).
  { repeat constructor; simpl; discriminate. }
  split; [exact Hall|].
  exact (every_reader_is_instantiated (list string) Bench.always_add
           [Readers.mkUser "a@x.org" "a@x.org" "Ada" "A"] Bench.desks Bench.csv Hall).
Defined.

Lemma project_without_features_stops_the_update_witness :
  Readers.update_reader_projects_metadata (list string)
    [Bench.desk "P1" "a@x.org" None 0] Bench.csv [Bench.desk "P1" "a@x.org" None 0]
  = (Raise (KeyError "project_features"), [Bench.desk "P1" "a@x.org" None 0]).
Proof.
  refine (project_without_features_stops_the_update (list string)
            [Bench.desk "P1" "a@x.org" None 0]
            (Readers.mkReaderDef "a@x.org" "Ada" "A" 2)
            [Readers.mkReaderDef "b@x.org" "Bo" "B" 4]
            [Bench.desk "P1" "a@x.org" None 0] ["a@x.org"]
            (Bench.desk "P1" "a@x.org" None 0) [] (Bench.desk "P1" "a@x.org" None 0)
            eq_refl eq_refl eq_refl eq_refl eq_refl _).
  discriminate.
Defined.

(** ** The books of the batch loop *)

Lemma update_row_within_capacity (src dest : string) (indx : nat) (df : list ReaderRow)
      (r : ReaderRow) :
  nth_error df indx = Some r ->
  num_assignments r <> max_cases r ->
  within_capacity df ->
  within_capacity (update_row indx (one_more src dest) df) /\
  map r_id (update_row indx (one_more src dest) df) = map r_id df /\
  map max_cases (update_row indx (one_more src dest) df) = map max_cases df.
Proof.
  unfold within_capacity. revert indx.
  induction df as [|x df IH]; intros [|j] Hnth Hroom Hcap; simpl in *;
    try discriminate.
  - injection Hnth as ->. apply Forall_cons_iff in Hcap as [Hr Hcap].
    split; [constructor; [simpl; lia | exact Hcap] | auto].
  - apply Forall_cons_iff in Hcap as [Hx Hcap].
    destruct (IH j Hnth Hroom Hcap) as [H1 [H2 H3]].
    split; [constructor; assumption|]. now rewrite H2, H3.
Qed.

Section BatchBooks.

Variable export_session : Session -> string -> M Session.

Lemma assign_row_books (gid : PyStr) (cc : Z) (row : BatchCases.BatchRow)
      (st st' : BatchCases.BatchState) (w w' : World) :
  BatchCases.assign_row export_session gid cc row st w = (Ok st', w') ->
  within_capacity (BatchCases.t_dest_projects_df st) ->
  within_capacity (BatchCases.t_dest_projects_df st') /\
  map r_id (BatchCases.t_dest_projects_df st')
  = map r_id (BatchCases.t_dest_projects_df st) /\
  map max_cases (BatchCases.t_dest_projects_df st')
  = map max_cases (BatchCases.t_dest_projects_df st) /\
  map BatchCases.o_row (BatchCases.t_batch_df st')
  = map BatchCases.o_row (BatchCases.t_batch_df st) ++ [row].
Proof.
  intros H Hcap. unfold BatchCases.assign_row in H. cbv zeta in H.
  unfold bind at 1 in H. unfold sessions_find_first at 1 in H. cbv beta iota in H.
  unfold bind at 1 in H.
  match type of H with
  | context [match ?m w with _ => _ end] =>
    assert (Hro1 : snd (m w) = w)
      by (destruct (find_session (BatchCases.session_id row) w) as [s|];
          [unfold bind, get_session; destruct (find_session (s_id s) w)|];
          reflexivity);
    destruct (m w) as [[sf|e] w1]; [|discriminate]
  end.
  simpl in Hro1. subst w1.
  unfold bind at 1 in H.
  match type of H with
  | context [match ?m w with _ => _ end] =>
    assert (Hro2 : snd (m w) = w)
      by (destruct (index_where _ _);
          unfold bind, lift, get_project;
          destruct (row_at _ _) as [r|]; try reflexivity;
          try destruct (find_project (r_id r) w); reflexivity);
    destruct (m w) as [[[[indx pid] rp]|e] w1]; [|discriminate]
  end.
  simpl in Hro2. subst w1.
  unfold bind at 1 in H. unfold lift at 1 in H.
  destruct (row_at indx (BatchCases.t_dest_projects_df st)) as [r|] eqn:Hrow;
    [|discriminate].
  unfold row_at in Hrow.
  destruct (nth_error (BatchCases.t_dest_projects_df st) indx) as [r0|] eqn:Hnth;
    [|discriminate].
  injection Hrow as ->.
  unfold bind at 1 in H.
  pose proof (read_only_validation (BatchCases.session_id row)
                (BatchCases.reader_email row) gid r cc w) as Hro.
  pose proof (validation_passed (BatchCases.session_id row)
                (BatchCases.reader_email row) gid r cc w) as Hv.
  destruct (BatchCases.check_valid_case_assignment _ _ _ _ _ w) as [[[valid m]|e] w1];
    [|discriminate].
  simpl in Hro. subst w1.
  destruct valid; cbn [negb] in H; cbv beta iota in H.
  - destruct (Hv m eq_refl) as [_ [src [vrp [_ [_ [_ [_ [_ [_ [Hroom _]]]]]]]]]].
    destruct sf as [[s f]|]; [|discriminate].
    unfold bind at 1 in H.
    destruct (try_except _ _ w) as [[[d|]|e] w1]; [| |discriminate].
    + unfold bind at 1 in H. unfold lift at 1 in H.
      unfold record_assignment at 1 in H. cbv beta iota in H.
      unfold bind at 1 in H. unfold update_session_features at 1 in H.
      unfold map_session at 1 in H. cbv beta iota in H. cbn [fst snd] in H.
      unfold bind at 1 in H. unfold lift at 1 in H.
      destruct (row_at indx _) as [nr|]; [|discriminate].
      injection H as <- <-. cbn [BatchCases.t_dest_projects_df BatchCases.t_batch_df].
      destruct (update_row_within_capacity (s_id s) (s_id d) indx _ r Hnth Hroom Hcap)
        as [H1 [H2 H3]].
      unfold one_more in H1, H2, H3.
      rewrite map_app. simpl. auto.
    + injection H as <- <-. cbn [BatchCases.t_dest_projects_df BatchCases.t_batch_df].
      rewrite map_app. simpl. auto.
  - unfold bind, log_line in H. injection H as <- <-.
    cbn [BatchCases.t_dest_projects_df BatchCases.t_batch_df].
    rewrite map_app. simpl. auto.
Qed.

Lemma assign_rows_books (gid : PyStr) (cc : Z) (batch : list BatchCases.BatchRow) :
  forall (st st' : BatchCases.BatchState) (w w' : World),
    for_each batch (BatchCases.assign_row export_session gid cc) st w = (Ok st', w') ->
    within_capacity (BatchCases.t_dest_projects_df st) ->
    within_capacity (BatchCases.t_dest_projects_df st') /\
    map r_id (BatchCases.t_dest_projects_df st')
    = map r_id (BatchCases.t_dest_projects_df st) /\
    map max_cases (BatchCases.t_dest_projects_df st')
    = map max_cases (BatchCases.t_dest_projects_df st) /\
    map BatchCases.o_row (BatchCases.t_batch_df st')
    = map BatchCases.o_row (BatchCases.t_batch_df st) ++ batch.
Proof.
  induction batch as [|row rest IH]; intros st st' w w' H Hcap; cbn [for_each] in H.
  - injection H as <- <-. rewrite app_nil_r. auto.
  - unfold bind in H.
    destruct (BatchCases.assign_row export_session gid cc row st w)
      as [[st1|e] w1] eqn:E; [|discriminate].
    destruct (assign_row_books _ _ _ _ _ _ _ E Hcap) as [H1 [H2 [H3 H4]]].
    destruct (IH _ _ _ _ H H1) as [G1 [G2 [G3 G4]]].
    split; [exact G1|]. rewrite G2, G3, G4, H2, H3, H4, <- app_assoc. auto.
Qed.

End BatchBooks.

(** X18.  A batch run keeps the readers within capacity and reports on
    every row: when no row of the snapshot holds more than [max_cases],
    the reader frame a run returns has the same ids and capacities and
    still no row above [max_cases], and the outcome table has the rows of
    the batch, one outcome each, in their order; whatever the exporter
    does. *)
Theorem batch_keeps_capacity_and_reports_every_row
        (export_session : Session -> string -> M Session)
        (source_project : Project) (gid : PyStr) (cc : Z)
        (batch : list BatchCases.BatchRow) (w w' : World)
        (df0 df : list ReaderRow) (sdf : list SessionFeatures)
        (out : list BatchCases.Outcome) :
  fst (initialize_dataframes (chars gid) w) = Ok ([], df0) ->
  within_capacity df0 ->
  BatchCases.distribute_batch_to_readers export_session source_project gid cc batch w
  = (Ok (sdf, df, out), w') ->
  within_capacity df /\
  map r_id df = map r_id df0 /\
  map max_cases df = map max_cases df0 /\
  map BatchCases.o_row out = batch.
Proof.
  intros Hinit Hcap H.
  unfold BatchCases.distribute_batch_to_readers in H. cbv zeta in H.
  unfold bind at 1 in H.
  pose proof (read_only_initialize_dataframes (chars gid) w) as Hro.
  destruct (initialize_dataframes (chars gid) w) as [[[s0 d0]|e] w0];
    [|discriminate].
  simpl in Hro, Hinit. subst w0. injection Hinit as -> ->.
  destruct (len df0 =? 0); [discriminate|].
  unfold bind at 1 in H.
  destruct (for_each batch _ _ w) as [[st|e] w1] eqn:Eloop; [|discriminate].
  destruct (assign_rows_books export_session gid cc batch _ _ _ _ Eloop Hcap)
    as [H1 [H2 [H3 H4]]].
  cbn [BatchCases.t_dest_projects_df BatchCases.t_batch_df map app] in H2, H3, H4.
  unfold bind at 1 in H.
  match type of H with
  | context [match ?m w1 with _ => _ end] =>
    destruct (m w1) as [[u|e] w2]; [|discriminate]
  end.
  unfold bind at 1 in H. unfold project_sessions at 1 in H. cbv beta iota in H.
  unfold bind at 1 in H.
  destruct (for_each _ BatchCases.record_session_state _ w2) as [[rec|e] w3];
    [|discriminate].
  unfold bind, update_project_features, ret in H. injection H as _ <- <- _.
  auto.
Qed.

Lemma batch_keeps_capacity_and_reports_every_row_witness :
  within_capacity Bench.idle_rows /\
  exists sdf df out w',
    BatchCases.distribute_batch_to_readers (Scenario.copy_export [])
      (Scenario.master None) Scenario.readers 2
      [BatchCases.mkBatchRow "S1" "case S1" "a@x.org";
       BatchCases.mkBatchRow "S7" "case S7" "a@x.org";
       BatchCases.mkBatchRow "S2" "case S2" "a@x.org"] Scenario.batch_world
    = (Ok (sdf, df, out), w') /\
    map num_assignments df = [2; 0] /\
    map BatchCases.passed out = [true; false; true] /\
    within_capacity df /\
    map r_id df = ["P1"; "P2"] /\
    map max_cases df = [5; 5] /\
    map BatchCases.o_row out
    = [BatchCases.mkBatchRow "S1" "case S1" "a@x.org";
       BatchCases.mkBatchRow "S7" "case S7" "a@x.org";
       BatchCases.mkBatchRow "S2" "case S2" "a@x.org"].
Proof.
  assert (Hcap : within_capacity Bench.idle_rows).
  { repeat constructor; simpl; lia. }
  split; [exact Hcap|].
  destruct (BatchCases.distribute_batch_to_readers (Scenario.copy_export [])
              (Scenario.master None) Scenario.readers 2
              [BatchCases.mkBatchRow "S1" "case S1" "a@x.org";
               BatchCases.mkBatchRow "S7" "case S7" "a@x.org";
               BatchCases.mkBatchRow "S2" "case S2" "a@x.org"] Scenario.batch_world)
    as [[[[sdf df] out]|e] w'] eqn:E.
  - exists sdf, df, out, w'. split; [reflexivity|].
    split; [vm_compute in E; injection E as _ <- _ _; reflexivity|].
    split; [vm_compute in E; injection E as _ _ <- _; reflexivity|].
    exact (batch_keeps_capacity_and_reports_every_row (Scenario.copy_export [])
             (Scenario.master None) Scenario.readers 2
             [BatchCases.mkBatchRow "S1" "case S1" "a@x.org";
              BatchCases.mkBatchRow "S7" "case S7" "a@x.org";
              BatchCases.mkBatchRow "S2" "case S2" "a@x.org"]
             Scenario.batch_world w' Bench.idle_rows df sdf out eq_refl Hcap E).
  - exfalso. vm_compute in E. discriminate.
Defined.
